(** * pdf4vllm-mcp: page-content reconstruction and validation pipeline

    A shallow embedding of the Python sources
    [src/content_orderer.py], [src/table_converter.py],
    [src/text_validator.py], [src/validators.py] and the read handler of
    [src/pdf_tools.py], followed by the properties proved about them.

    Conventions of the embedding:
    - a Python [int] is a [Z];
    - a Python [float] is an IEEE 754 binary64 value, Rocq's primitive [float];
    - a Python [str] is the list of its code points ([list Z]);
    - [None] is [option]'s [None];
    - a call to an external collaborator (a PDF library, the file system)
      reads its answer from an explicit environment record and is recorded
      in a trace of events. *)

From Stdlib Require Import ZArith List Bool Lia String Ascii DecimalString.
From Stdlib Require Import Floats.
From Stdlib Require Import Sorting.Permutation Sorting.Sorted.
Import ListNotations.

Local Open Scope Z_scope.

(* Decimal literals denote the nearest binary64 value, as in Python. *)
Set Warnings "-inexact-float".

(* ================================================================== *)
(** * Part I. The embedding *)
(* ================================================================== *)

(** ** Python values *)

Module Py.

(** A [str] as the sequence of its code points. *)
Definition str : Type := list Z.

(** A literal made of ASCII characters. *)
Definition lit (s : string) : str :=
  map (fun a => Z.of_N (N_of_ascii a)) (list_ascii_of_string s).

(** [range(lo, hi)]: the integers [lo], [lo+1], ..., [hi-1]. *)
Definition range (lo hi : Z) : list Z :=
  map (fun k => lo + Z.of_nat k) (seq 0 (Z.to_nat (hi - lo))).

(** [x or y] on integers: [0] is the only falsy [int]. *)
Definition or_int (x y : Z) : Z := if x =? 0 then y else x.

(** [x or y] where [x] may be [None]. *)
Definition or_opt_int (x : option Z) (y : Z) : Z :=
  match x with
  | None => y
  | Some v => or_int v y
  end.

(** [seq[i]] for a Python sequence: a negative index counts from the end,
    an index out of range raises [IndexError] ([None] here). *)
Definition index {A : Type} (l : list A) (i : Z) : option A :=
  let n := Z.of_nat (List.length l) in
  if (0 <=? i) && (i <? n) then nth_error l (Z.to_nat i)
  else if (- n <=? i) && (i <? 0) then nth_error l (Z.to_nat (n + i))
  else None.

(** [str.isspace] for one character: the code points Python treats as
    white space, which [str.strip()] removes. *)
Definition isspace (c : Z) : bool :=
  ((9 <=? c) && (c <=? 13)) || ((28 <=? c) && (c <=? 32))
  || (c =? 133) || (c =? 160) || (c =? 5760)
  || ((8192 <=? c) && (c <=? 8202))
  || (c =? 8232) || (c =? 8233) || (c =? 8239) || (c =? 8287)
  || (c =? 12288).

(** [s.strip() == ''] (equivalently [len(s.strip()) == 0]): every
    character of [s] is white space. *)
Definition strip_is_empty (s : str) : bool := forallb isspace s.

(** The float of an integer of magnitude below [2^63] (exact below
    [2^53]). *)
Definition float_of_int (z : Z) : float :=
  if z <? 0 then PrimFloat.opp (PrimFloat.of_uint63 (Uint63.of_Z (- z)))
  else PrimFloat.of_uint63 (Uint63.of_Z z).

(** [a / b] on two integers (true division).  For operands of magnitude
    below [2^53] Python's correctly rounded quotient is the IEEE quotient
    of the two converted operands. *)
Definition truediv (a b : Z) : float :=
  PrimFloat.div (float_of_int a) (float_of_int b).

(** [list.sort(key=...)]: a stable sort that compares keys with [<] only.
    Where [<] orders the keys totally, its result is the one stable sorted
    arrangement of the list, computed here by insertion: an element is
    placed after the elements whose key is strictly smaller, and before
    every other element already placed. *)
Section Sort.
Context {A : Type} (key : A -> float).

Fixpoint sort_insert (x : A) (l : list A) : list A :=
  match l with
  | [] => [x]
  | y :: l' =>
      if PrimFloat.ltb (key y) (key x) then y :: sort_insert x l'
      else x :: y :: l'
  end.

Fixpoint sort (l : list A) : list A :=
  match l with
  | [] => []
  | x :: l' => sort_insert x (sort l')
  end.
End Sort.

(** The exceptions the modelled code meets. *)
Inductive exn : Type :=
| IndexError
| FileNotFoundError (e : str)
| PermissionError (e : str)
| PdfError (e : str)
| PDFSyntaxError (e : str)
| ValueError (e : str)
| RuntimeError (e : str)
| OtherException (name e : str).

(** What a call to a library or to the file system does: it returns a
    value or throws. *)
Inductive outcome (A : Type) : Type :=
| Returns (a : A)
| Throws (e : exn).
Arguments Returns {A} a.
Arguments Throws {A} e.

(** How a modelled computation ends: with a value, with an exception, or
    with its loop budget used up. *)
Inductive result (A : Type) : Type :=
| Ok (a : A)
| Raises (e : exn)
| OutOfFuel.
Arguments Ok {A} a.
Arguments Raises {A} e.
Arguments OutOfFuel {A}.

(** [sep.join(items)] *)
Fixpoint join (sep : str) (items : list str) : str :=
  match items with
  | [] => []
  | [s] => s
  | s :: rest => s ++ sep ++ join sep rest
  end.

Fixpoint lstrip (s : str) : str :=
  match s with
  | [] => []
  | c :: s' => if isspace c then lstrip s' else s
  end.

(** [s.strip()] *)
Definition strip (s : str) : str := rev (lstrip (rev (lstrip s))).

(** [str(n)] for an integer. *)
Definition str_of_int (n : Z) : str :=
  lit (DecimalString.NilZero.string_of_int (Z.to_int n)).

(** The longest prefix of [s] whose characters are all in [cls], by
    length. *)
Fixpoint run_length (cls : Z -> bool) (s : str) : nat :=
  match s with
  | [] => O
  | c :: s' => if cls c then S (run_length cls s') else O
  end.

(** [s] with the prefix [p] removed, if [s] starts with [p]. *)
Fixpoint drop_prefix (p s : str) : option str :=
  match p, s with
  | [], _ => Some s
  | _ :: _, [] => None
  | a :: p', c :: s' => if a =? c then drop_prefix p' s' else None
  end.

(** The count of the non-overlapping matches found scanning [s] from left
    to right, as [len(re.findall(...))] and [str.count] find them.
    [match_at s] is the length of the match that starts at the head of
    [s], if there is one (never 0 for the patterns used here); [skip]
    characters of the last match remain to be passed over. *)
Fixpoint count_matches (match_at : str -> option nat) (skip : nat)
    (s : str) : nat :=
  match s with
  | [] => O
  | _ :: s' =>
      match skip with
      | S k => count_matches match_at k s'
      | O =>
          match match_at s with
          | Some n => S (count_matches match_at (Nat.pred n) s')
          | None => count_matches match_at O s'
          end
      end
  end.

(** [s.count(sub)] for a non-empty [sub]. *)
Definition count (s sub : str) : Z :=
  Z.of_nat
    (count_matches
       (fun t => match drop_prefix sub t with
                 | Some _ => Some (List.length sub)
                 | None => None
                 end) O s).

(** [a == b] on strings. *)
Fixpoint str_eqb (a b : str) : bool :=
  match a, b with
  | [], [] => true
  | x :: a', y :: b' => (x =? y) && str_eqb a' b'
  | _, _ => false
  end.

(** [x in chars] *)
Definition mem (x : Z) (chars : list Z) : bool := existsb (Z.eqb x) chars.

End Py.

(** ** [src/content_orderer.py] *)

Module content_orderer.

Inductive block_type : Type := text | table | image.

(** The dictionaries the extraction steps hand over:
    [{'top', 'text'}], [{'top', 'markdown'}], [{'top', 'image_data'}]. *)
Record text_region : Type :=
  { region_top : float; region_text : Py.str }.
Record table_info : Type :=
  { table_top : float; table_markdown : Py.str }.
Record img_info : Type :=
  { img_top : float; img_image_data : Py.str }.

(** A block while it is in [all_blocks], before the sort. *)
Record raw_block : Type :=
  { raw_type : block_type;
    raw_top : float;
    raw_content : Py.str;
    raw_image : option Py.str }.

(** A returned block: ['top'] has been replaced by ['position']. *)
Record block : Type :=
  { type : block_type;
    content : Py.str;
    image_field : option Py.str;
    position : float }.

Definition of_text (region : text_region) : raw_block :=
  {| raw_type := text; raw_top := region_top region;
     raw_content := region_text region; raw_image := None |}.

Definition of_table (table_info : table_info) : raw_block :=
  {| raw_type := table; raw_top := table_top table_info;
     raw_content := table_markdown table_info; raw_image := None |}.

Definition of_image (img_info : img_info) : raw_block :=
  {| raw_type := image; raw_top := img_top img_info;
     raw_content := img_image_data img_info; raw_image := None |}.

(** [block['position'] = block['top']; del block['top']] *)
Definition add_position (b : raw_block) : block :=
  {| type := raw_type b; content := raw_content b;
     image_field := raw_image b; position := raw_top b |}.

(** The three [append] loops. *)
Definition all_blocks (text_regions : list text_region)
    (tables : list table_info) (images : list img_info) : list raw_block :=
  map of_text text_regions ++ map of_table tables ++ map of_image images.

Definition order_content_blocks (text_regions : list text_region)
    (tables : list table_info) (images : list img_info) : list block :=
  map add_position
    (Py.sort raw_top (all_blocks text_regions tables images)).

Definition merge_adjacent_text_blocks (blocks : list block) : list block :=
  match blocks with
  | [] => []
  | _ => blocks
  end.

End content_orderer.

(** ** [src/table_converter.py] *)

Module table_converter.

(** A cell of a pdfplumber table is [None] or a string. *)
Definition cell : Type := option Py.str.
Definition Table : Type := list (list cell).

(** [cell is None or (isinstance(cell, str) and cell.strip() == '')] *)
Definition is_empty_cell (c : cell) : bool :=
  match c with
  | None => true
  | Some s => Py.strip_is_empty s
  end.

(** [last_value or '']: [None] and the empty string are both falsy. *)
Definition or_empty (last_value : cell) : Py.str :=
  match last_value with
  | None => []
  | Some s => s
  end.

(** [row[col_idx] = v], for [col_idx < len(row)]. *)
Fixpoint set_item (row : list cell) (col_idx : nat) (v : cell) : list cell :=
  match row, col_idx with
  | [], _ => []
  | _ :: row', O => v :: row'
  | c :: row', S k => c :: set_item row' k v
  end.

(** The inner loop [for row in filled_table] for one column, started with
    the given [last_value]. *)
Fixpoint fill_column (col_idx : nat) (last_value : cell)
    (rows : Table) : Table :=
  match rows with
  | [] => []
  | row :: rest =>
      match nth_error row col_idx with
      | None =>
          (* col_idx >= len(row): continue *)
          row :: fill_column col_idx last_value rest
      | Some c =>
          if is_empty_cell c
          then set_item row col_idx (Some (or_empty last_value))
                 :: fill_column col_idx last_value rest
          else row :: fill_column col_idx c rest
      end
  end.

(** The outer loop over the column indices in [cols]. *)
Definition fill_columns (cols : list nat) (rows : Table) : Table :=
  fold_left (fun t col_idx => fill_column col_idx None t) cols rows.

Definition fill_merged_cells (t : Table) : Table :=
  match t with
  | [] => t
  | first_row :: _ => fill_columns (seq 0 (List.length first_row)) t
  end.

(** [str(cell).strip() if cell is not None else ""] *)
Definition clean_cell (c : cell) : Py.str :=
  match c with
  | Some s => Py.strip s
  | None => []
  end.

(** [row] padded with empty strings up to [max_cols], then [row[:max_cols]]. *)
Definition normalize_row (max_cols : nat) (row : list Py.str) : list Py.str :=
  firstn max_cols (row ++ repeat [] (max_cols - List.length row)).

(** ["| " + " | ".join(row) + " |"] *)
Definition markdown_line (row : list Py.str) : Py.str :=
  Py.lit "| " ++ Py.join (Py.lit " | ") row ++ Py.lit " |".

Definition convert_table_to_markdown (t : Table) : Py.str :=
  match t with
  | [] => []
  | _ =>
      let filled_table := fill_merged_cells t in
      let cleaned_table := map (map clean_cell) filled_table in
      let max_cols := list_max (map (@List.length Py.str) cleaned_table) in
      let normalized_table := map (normalize_row max_cols) cleaned_table in
      match normalized_table with
      | [] => []
      | header :: rows =>
          Py.join [10]
            (markdown_line header
             :: markdown_line (repeat (Py.lit "---") max_cols)
             :: map markdown_line rows)
      end
  end.

(** The loop of [convert_tables_to_markdown] over [enumerate(tables)], from
    index [i] on. *)
Fixpoint markdown_from (i : Z) (tables : list Table) : list Py.str :=
  match tables with
  | [] => []
  | table :: rest =>
      match convert_table_to_markdown table with
      | [] => markdown_from (i + 1) rest
      | md =>
          (Py.lit "**Table " ++ Py.str_of_int (i + 1) ++ Py.lit "**"
           ++ [10; 10] ++ md)
            :: markdown_from (i + 1) rest
      end
  end.

Definition convert_tables_to_markdown (tables : list Table) : list Py.str :=
  markdown_from 0 tables.

End table_converter.

(** ** [src/config.py] *)

Module config.

(** The settings the modelled code reads from the global [config]. *)
Record Config : Type :=
  { max_pages_per_request : Z;
    max_images_per_request : Z;
    max_suggested_ranges : Z;
    max_image_dimension : Z;
    page_image_dpi : Z;
    corruption_threshold : float }.

(** The defaults of the class [Config]. *)
Definition default : Config :=
  {| max_pages_per_request := 10;
     max_images_per_request := 50;
     max_suggested_ranges := 5;
     max_image_dimension := 842;
     page_image_dpi := 100;
     corruption_threshold := 0.3%float |}.

End config.

(** ** [src/text_validator.py] *)

Module text_validator.

Import config.

(** [check_pdf_corruption_with_pdfminer], given the text pdfminer wrote to
    the captured [stderr] while extracting the page. *)
Definition check_pdf_corruption_with_pdfminer (warnings : Py.str)
    : bool * Z :=
  let warning_count := Py.count warnings (Py.lit "Ignoring") in
  let is_corrupted := warning_count >=? 3 in
  (is_corrupted, warning_count).

(** The set [known_corrupted_chars], by code point, in source order. *)
Definition known_corrupted_chars : list Z :=
    [ 8249; 338; 217; 218; 219; 220; 241; 251; 253; 222;
      197; 198; 199; 200; 201; 202; 203; 206; 207; 209;
      210; 211; 212; 213; 214; 223; 224; 225; 226; 227;
      228; 229; 230; 231; 232; 233; 234; 235; 236; 237;
      238; 239; 240; 242; 243; 244; 245; 246; 248; 249;
      250; 221; 254; 255; 161; 162; 163; 164; 165; 166;
      167; 168; 169; 170; 171; 172; 174; 175; 176; 177;
      178; 179; 180; 181; 182; 183; 184; 185; 186; 187;
      188; 189; 190; 191; 192; 193; 194; 195; 196 ].

(** The set [valid_chars] of allowed punctuation: the characters
    . , ! ? ( ) [ ] { }, the double and the single quote, the newline, the
    tab, the space, and - : ; *)
Definition valid_chars : list Z :=
  [46; 44; 33; 63; 40; 41; 91; 93; 123; 125; 34; 39; 10; 9; 32; 45; 58; 59].

(** [set('#$%&*+/<=>@\\^`|~')], also the character class of the pattern
    for consecutive special characters. *)
Definition suspicious_ascii : list Z :=
  [35; 36; 37; 38; 42; 43; 47; 60; 61; 62; 64; 92; 94; 96; 124; 126].

(** The character class of the pattern for mixed special characters: the
    class above with the quotes and the parentheses. *)
Definition mixed_special_class : list Z :=
  suspicious_ascii ++ [39; 34; 40; 41].

(** A match of a run pattern ([[class]{n,}], or [(?:[class]+){n,}], which
    matches the same text) at the head of [s]: the whole run of class
    characters there, if it has at least [n] of them. *)
Definition match_run (cls : list Z) (n : nat) (s : Py.str) : option nat :=
  let k := Py.run_length (fun c => Py.mem c cls) s in
  if (n <=? k)%nat then Some k else None.

(** The classification of one character by the loop of step 3: [true]
    where the loop increments [corrupted_chars]. *)
Definition counts_as_corrupted (char : Z) : bool :=
  if char <=? 127 then Py.mem char suspicious_ascii
  else if (44032 <=? char) && (char <=? 55203) then false
  else if (4352 <=? char) && (char <=? 4607) then false
  else if (12593 <=? char) && (char <=? 12686) then false
  else if (19968 <=? char) && (char <=? 40959) then false
  else if (192 <=? char) && (char <=? 255)
       then Py.mem char known_corrupted_chars
  else if Py.mem char valid_chars then false
  else true.

Definition count_if (f : Z -> bool) (s : Py.str) : Z :=
  Z.of_nat (List.length (filter f s)).

Section Detector.

(** [\d] of Python's [re] on a [str]: the decimal digits of the
    interpreter's Unicode database (category Nd). *)
Variable decimal : Z -> bool.

(** A match of [\(cid:\d+\)] at the head of [s]. *)
Definition match_cid (s : Py.str) : option nat :=
  match Py.drop_prefix (Py.lit "(cid:") s with
  | None => None
  | Some s1 =>
      let digits := Py.run_length decimal s1 in
      match digits, skipn digits s1 with
      | S _, 41 :: _ => Some (5 + digits + 1)%nat
      | _, _ => None
      end
  end.

(** Step 3, the general ratio of special characters, on the sample. *)
Definition ratio_fallback (sample : Py.str) (threshold : float)
    : bool * float :=
  let sample_len := Z.of_nat (List.length sample) in
  let corrupted_chars := count_if counts_as_corrupted sample in
  let corruption_ratio := Py.truediv corrupted_chars sample_len in
  let is_corrupted := PrimFloat.ltb threshold corruption_ratio in
  (is_corrupted, corruption_ratio).

Definition is_text_corrupted (cfg : Config) (text : Py.str)
    (threshold : option float) : bool * float :=
  let threshold :=
    match threshold with
    | None => corruption_threshold cfg
    | Some t => t
    end in
  if match text with [] => true | _ => false end
     || (Z.of_nat (List.length (Py.strip text)) =? 0)
  then (false, 0%float)
  else
    let sample := firstn 500 text in
    let sample_len := Z.of_nat (List.length sample) in
    if sample_len =? 0 then (false, 0%float)
    else
      let cid_pattern := Py.count_matches match_cid O sample in
      if (3 <? cid_pattern)%nat then (true, 1%float)
      else
        let known_corrupted_count :=
          count_if (fun c => Py.mem c known_corrupted_chars) sample in
        if PrimFloat.ltb
             (PrimFloat.mul (Py.float_of_int sample_len) 0.05%float)
             (Py.float_of_int known_corrupted_count)
        then (true, Py.truediv known_corrupted_count sample_len)
        else
          let consecutive_special :=
            Py.count_matches (match_run suspicious_ascii 3) O sample in
          if (3 <=? consecutive_special)%nat then (true, 0.8%float)
          else
            let mixed_special :=
              Py.count_matches (match_run mixed_special_class 5) O sample in
            if (2 <=? mixed_special)%nat then (true, 0.7%float)
            else ratio_fallback sample threshold.

End Detector.

(** The digits [0] to [9], the ASCII part of [\d]. *)
Definition ascii_decimal (c : Z) : bool := (48 <=? c) && (c <=? 57).

End text_validator.

(** ** [src/validators.py] *)

Module validators.

Import Py (result, Ok, Raises, OutOfFuel).
Import config.

(** What the code observes of a [pikepdf] page: its [images] mapping,
    here the names of its image objects. *)
Record page : Type := { images : list Py.str }.

(** An opened [pikepdf.Pdf]: [doc.pages]. *)
Definition pdf : Type := list page.

Record SuggestedRange : Type :=
  { start_page : Z;
    end_page : Z;
    estimated_images : Z;
    page_count : Z }.

(** The [for page_num in range(current_start - 1, current_end)] loop of
    [calculate_suggested_ranges], over the page numbers still to visit;
    it yields [(current_images, final_end)]. *)
Fixpoint scan_pages (doc : pdf) (current_start max_images : Z)
    (page_nums : list Z) (current_images final_end : Z) : result (Z * Z) :=
  match page_nums with
  | [] => Ok (current_images, final_end)
  | page_num :: rest =>
      if page_num >=? Z.of_nat (List.length doc)
      then Ok (current_images, final_end)
      else
        match Py.index doc page_num with
        | None => Raises Py.IndexError
        | Some page =>
            let page_images := Z.of_nat (List.length (images page)) in
            if current_images + page_images >? max_images then
              if page_num =? current_start - 1
              then Ok (current_images + page_images, page_num + 1)
              else Ok (current_images, page_num)
            else
              scan_pages doc current_start max_images rest
                (current_images + page_images) (page_num + 1)
        end
  end.

(** The [while] loop of [calculate_suggested_ranges]; [fuel] bounds the
    number of iterations. *)
Fixpoint ranges_loop (fuel : nat) (cfg : Config) (doc : pdf)
    (end_page max_pages max_images : Z)
    (current_start : Z) (ranges : list SuggestedRange)
    : result (list SuggestedRange) :=
  if (current_start <=? end_page)
     && (Z.of_nat (List.length ranges) <? max_suggested_ranges cfg)
  then
    match fuel with
    | O => OutOfFuel
    | S fuel' =>
        let current_end := Z.min (current_start + max_pages - 1) end_page in
        match scan_pages doc current_start max_images
                (Py.range (current_start - 1) current_end)
                0 current_start with
        | Ok (current_images, final_end) =>
            let ranges' :=
              if final_end >=? current_start
              then ranges ++
                     [ {| start_page := current_start;
                          end_page := final_end;
                          estimated_images := current_images;
                          page_count := final_end - current_start + 1 |} ]
              else ranges in
            ranges_loop fuel' cfg doc end_page max_pages max_images
              (final_end + 1) ranges'
        | Raises e => Raises e
        | OutOfFuel => OutOfFuel
        end
    end
  else Ok ranges.

(** Every iteration moves [current_start] forward, so the loop runs at
    most once per page of the requested span. *)
Definition calculate_suggested_ranges (cfg : Config) (doc : pdf)
    (start_page end_page max_pages max_images : Z)
    : result (list SuggestedRange) :=
  ranges_loop (Z.to_nat (end_page - start_page + 1)) cfg doc
    end_page max_pages max_images start_page [].

Inductive error_kind : Type :=
| FILE_NOT_FOUND
| PERMISSION_DENIED
| INVALID_PDF
| INVALID_PAGE_RANGE
| PAGE_LIMIT_EXCEEDED
| IMAGE_LIMIT_EXCEEDED.

(** The messages, one constructor per format string, with the values the
    string interpolates (for an exception [e], its [str(e)]). *)
Inductive message : Type :=
| StartPageOutOfRange (start_page total_pages : Z)
| EndPageBeforeStart (end_page start_page total_pages example_end : Z)
| PageCountExceedsLimit (page_count max_pages total_pages : Z)
| ImageCountExceedsLimit (total_images max_images : Z)
| PdfFileNotFound (pdf_path : Py.str)
| PermissionDeniedAccessing (pdf_path : Py.str)
| InvalidOrCorruptedPdf (e : Py.exn)
| ValidationFailed (e : Py.exn).

Record ValidationResult : Type :=
  { valid : bool;
    error : option error_kind;
    message_field : option message;
    total_pages : option Z;
    total_images : option Z;
    suggested_ranges : option (list SuggestedRange) }.

Definition valid_result : ValidationResult :=
  {| valid := true; error := None; message_field := None;
     total_pages := None; total_images := None;
     suggested_ranges := None |}.

(** The image-counting loop [for page_num in range(start_page - 1,
    actual_end)] of [validate_pdf_read_request]. *)
Fixpoint count_images (doc : pdf) (page_nums : list Z) (total_images : Z)
    : result Z :=
  match page_nums with
  | [] => Ok total_images
  | page_num :: rest =>
      if page_num >=? Z.of_nat (List.length doc) then Ok total_images
      else
        match Py.index doc page_num with
        | None => Raises Py.IndexError
        | Some page =>
            count_images doc rest
              (total_images + Z.of_nat (List.length (images page)))
        end
  end.

(** [min(end_page or total_pages, total_pages)] *)
Definition actual_end (end_page : option Z) (total_pages : Z) : Z :=
  Z.min (Py.or_opt_int end_page total_pages) total_pages.

(** The checks against the limits, from [max_pages = ...] to the final
    [return ValidationResult(valid=True)], given the clamped end. *)
Definition check_limits (cfg : Config) (doc : pdf)
    (start_page actual_end : Z) : result ValidationResult :=
  let total_pages := Z.of_nat (List.length doc) in
  let page_count := actual_end - start_page + 1 in
  let max_pages := max_pages_per_request cfg in
  let max_images := max_images_per_request cfg in
  if page_count >? max_pages then
    match calculate_suggested_ranges cfg doc start_page actual_end
            max_pages max_images with
    | Ok suggested =>
        Ok {| valid := false; error := Some PAGE_LIMIT_EXCEEDED;
              message_field :=
                Some (PageCountExceedsLimit page_count max_pages total_pages);
              total_pages := Some total_pages; total_images := None;
              suggested_ranges := Some suggested |}
    | Raises e => Raises e
    | OutOfFuel => OutOfFuel
    end
  else
    match count_images doc (Py.range (start_page - 1) actual_end) 0 with
    | Ok total_images =>
        if total_images >? max_images then
          match calculate_suggested_ranges cfg doc start_page actual_end
                  max_pages max_images with
          | Ok suggested =>
              Ok {| valid := false; error := Some IMAGE_LIMIT_EXCEEDED;
                    message_field :=
                      Some (ImageCountExceedsLimit total_images max_images);
                    total_pages := Some total_pages;
                    total_images := Some total_images;
                    suggested_ranges := Some suggested |}
          | Raises e => Raises e
          | OutOfFuel => OutOfFuel
          end
        else Ok valid_result
    | Raises e => Raises e
    | OutOfFuel => OutOfFuel
    end.

(** The body of the [try] once the document is open. *)
Definition validate_opened (cfg : Config) (doc : pdf)
    (start_page : Z) (end_page : option Z) : result ValidationResult :=
  let total_pages := Z.of_nat (List.length doc) in
  if start_page >? total_pages then
    Ok {| valid := false; error := Some INVALID_PAGE_RANGE;
          message_field := Some (StartPageOutOfRange start_page total_pages);
          total_pages := Some total_pages; total_images := None;
          suggested_ranges := None |}
  else
    match end_page with
    | Some e =>
        if e <? start_page then
          Ok {| valid := false; error := Some INVALID_PAGE_RANGE;
                message_field :=
                  Some (EndPageBeforeStart e start_page total_pages
                          (Z.min (start_page + 9) total_pages));
                total_pages := Some total_pages; total_images := None;
                suggested_ranges := None |}
        else check_limits cfg doc start_page (actual_end end_page total_pages)
    | None => check_limits cfg doc start_page (actual_end end_page total_pages)
    end.

Definition failed (kind : error_kind) (msg : message) : ValidationResult :=
  {| valid := false; error := Some kind; message_field := Some msg;
     total_pages := None; total_images := None; suggested_ranges := None |}.

(** The [except] clauses of [validate_pdf_read_request]. *)
Definition on_exception (pdf_path : Py.str) (e : Py.exn) : ValidationResult :=
  match e with
  | Py.FileNotFoundError _ => failed FILE_NOT_FOUND (PdfFileNotFound pdf_path)
  | Py.PermissionError _ =>
      failed PERMISSION_DENIED (PermissionDeniedAccessing pdf_path)
  | Py.PdfError _ => failed INVALID_PDF (InvalidOrCorruptedPdf e)
  | _ => failed INVALID_PDF (ValidationFailed e)
  end.

(** [validate_pdf_read_request], given what [pikepdf.open] answers. *)
Definition validate_pdf_read_request (cfg : Config)
    (pikepdf_open : Py.str -> Py.outcome pdf)
    (pdf_path : Py.str) (start_page : Z) (end_page : option Z)
    : result ValidationResult :=
  match pikepdf_open pdf_path with
  | Py.Returns doc =>
      match validate_opened cfg doc start_page end_page with
      | Ok r => Ok r
      | Raises e => Ok (on_exception pdf_path e)
      | OutOfFuel => OutOfFuel
      end
  | Py.Throws e => Ok (on_exception pdf_path e)
  end.

End validators.

(** ** [src/text_extractor.py] *)

Module text_extractor.

Import content_orderer.

(** [(x0, top, x1, bottom)] *)
Definition bbox : Type := (float * float * float * float)%type.

(** [b[1]] and [b[3]] *)
Definition bbox_top (b : bbox) : float :=
  let '(_, top, _, _) := b in top.
Definition bbox_bottom (b : bbox) : float :=
  let '(_, _, _, bottom) := b in bottom.

(** What the function uses of a pdfplumber page: [page.extract_text()],
    [page.within_bbox(b).extract_text()], [page.width], [page.height]. *)
Record page : Type :=
  { extract_text : option Py.str;
    within_bbox_text : bbox -> option Py.str;
    width : float;
    height : float }.

(** The region of [b], if its text passes [if text and text.strip():]. *)
Definition region (pg : page) (b : bbox) (top : float) : list text_region :=
  match within_bbox_text pg b with
  | Some (c :: t) =>
      if Py.strip_is_empty (c :: t) then []
      else [ {| region_top := top; region_text := c :: t |} ]
  | _ => []
  end.

(** The loop over the pairs of consecutive tables. *)
Fixpoint between (pg : page) (sorted_tables : list bbox) : list text_region :=
  match sorted_tables with
  | current_table :: ((next_table :: _) as rest) =>
      (if PrimFloat.ltb (bbox_bottom current_table) (bbox_top next_table)
       then region pg
              (0%float, bbox_bottom current_table, width pg,
               bbox_top next_table)
              (bbox_bottom current_table)
       else [])
      ++ between pg rest
  | _ => []
  end.

Definition extract_non_table_text_regions (pg : page)
    (table_bboxes : list bbox) : list text_region :=
  match table_bboxes with
  | [] =>
      match extract_text pg with
      | Some (c :: t) => [ {| region_top := 0%float; region_text := c :: t |} ]
      | _ => []
      end
  | _ =>
      let sorted_tables := Py.sort bbox_top table_bboxes in
      match sorted_tables with
      | [] => []
      | first_table :: _ =>
          let last_table := last sorted_tables first_table in
          (if PrimFloat.ltb 0%float (bbox_top first_table)
           then region pg
                  (0%float, 0%float, width pg, bbox_top first_table) 0%float
           else [])
          ++ between pg sorted_tables
          ++ (if PrimFloat.ltb (bbox_bottom last_table) (height pg)
              then region pg
                     (0%float, bbox_bottom last_table, width pg, height pg)
                     (bbox_bottom last_table)
              else [])
      end
  end.

End text_extractor.

(** ** [src/schemas.py]: the read tool's input and output *)

Module schemas.

Inductive mode : Type := auto | text_only | image_only.

(** The [arguments] dictionary of a call, by key; [None] for a key that is
    absent (or, for [end_page], given as [None]). *)
Record arguments : Type :=
  { arg_file_path : option Py.str;
    arg_start_page : option Z;
    arg_end_page : option Z;
    arg_filter_header_footer : option bool;
    arg_crop_images : option bool;
    arg_max_image_dimension : option Z;
    arg_extraction_mode : option Py.str;
    arg_page_image_dpi : option Z }.

Record ReadPDFInput : Type :=
  { file_path : Py.str;
    start_page : Z;
    end_page : option Z;
    filter_header_footer : bool;
    crop_images : bool;
    max_image_dimension : Z;
    extraction_mode : mode;
    page_image_dpi : Z }.

(** [validate_extraction_mode] *)
Definition mode_of_str (v : Py.str) : option mode :=
  if Py.str_eqb v (Py.lit "auto") then Some auto
  else if Py.str_eqb v (Py.lit "text_only") then Some text_only
  else if Py.str_eqb v (Py.lit "image_only") then Some image_only
  else None.

(** A value given for a field with bounds [ge] and [le]; a default is not
    validated. *)
Definition bounded (given : option Z) (default lo hi : Z) : option Z :=
  match given with
  | None => Some default
  | Some v => if (lo <=? v) && (v <=? hi) then Some v else None
  end.

(** The construction of [ReadPDFInput] from the arguments: the validated
    input, or [None] where pydantic raises its [ValidationError]. *)
Definition parse (cfg : config.Config) (a : arguments) : option ReadPDFInput :=
  match arg_file_path a with
  | None => None
  | Some file_path =>
      let start_page := match arg_start_page a with None => 1 | Some v => v end in
      if start_page <? 1 then None
      else
        let end_ok :=
          match arg_end_page a with
          | None => true
          | Some e => (1 <=? e) && negb (e <? start_page)
          end in
        if negb end_ok then None
        else
          match
            bounded (arg_max_image_dimension a)
              (config.max_image_dimension cfg) 28 4096,
            mode_of_str
              (match arg_extraction_mode a with
               | None => Py.lit "auto"
               | Some v => v
               end),
            bounded (arg_page_image_dpi a) (config.page_image_dpi cfg) 50 300
          with
          | Some max_dim, Some m, Some dpi =>
              Some {| file_path := file_path;
                      start_page := start_page;
                      end_page := arg_end_page a;
                      filter_header_footer :=
                        match arg_filter_header_footer a with
                        | None => true
                        | Some b => b
                        end;
                      crop_images :=
                        match arg_crop_images a with
                        | None => true
                        | Some b => b
                        end;
                      max_image_dimension := max_dim;
                      extraction_mode := m;
                      page_image_dpi := dpi |}
          | _, _, _ => None
          end
  end.

Record ContentBlock : Type :=
  { type : content_orderer.block_type;
    content : option Py.str }.

(** The two hints of the [image_only] mode, with the values they show. *)
Inductive hint : Type :=
| CorruptedTextHint (char_count : Z) (ratio : float)
| ExtractableTextHint (char_count : Z).

Record PageData : Type :=
  { page_number : Z;
    content_blocks : list ContentBlock;
    text_corrupted : option bool;
    corruption_ratio : option float;
    page_image : option Py.str;
    page_image_width : option Z;
    page_image_height : option Z;
    extractable_char_count : option Z;
    text_hint : option hint }.

Record ReadPDFSuccess : Type :=
  { read_file_path : Py.str;
    pages : list PageData;
    total_pages_read : Z;
    total_images_read : Z }.

(** The messages of the error responses, one constructor per text; the
    last one shows [type(e).__name__] and [str(e)]. *)
Inductive error_message : Type :=
| ValidationMessage (m : validators.message)
| FileNotFoundMessage (pdf_path : Py.str) (similar_files : list Py.str)
| AccessDeniedOutsideWorkingDirectory
| CannotReadFile (pdf_path : Py.str)
| PdfFileNotFoundError (e : Py.exn)
| PermissionDeniedAccessingPdf (e : Py.exn)
| InvalidOrCorruptedPdfFile (e : Py.exn)
| ErrorProcessingPdf (e : Py.exn).

Record ReadPDFError : Type :=
  { error : validators.error_kind;
    message : error_message;
    total_pages : option Z;
    total_images : option Z;
    suggested_ranges : option (list validators.SuggestedRange);
    suggested_files : option (list Py.str) }.

Inductive response : Type :=
| Success (s : ReadPDFSuccess)
| Failure (e : ReadPDFError).

Definition bare_error (kind : validators.error_kind) (m : error_message)
    : ReadPDFError :=
  {| error := kind; message := m; total_pages := None; total_images := None;
     suggested_ranges := None; suggested_files := None |}.

End schemas.

(** ** [src/pdf_tools.py]: [validate_path_security] and [read_pdf_handler] *)

Module pdf_tools.

Import Py (outcome, Returns, Throws, result, Ok, Raises, OutOfFuel).
Import content_orderer.
Import text_extractor (bbox, bbox_top).

(** *** Paths and the file system *)

(** A [pathlib.Path] (POSIX flavour): whether it is anchored at the root,
    and its components. *)
Record path : Type := { is_absolute : bool; parts : list Py.str }.

(** [s.split('/')] *)
Fixpoint split_slash (s : Py.str) (current : Py.str) : list Py.str :=
  match s with
  | [] => [rev current]
  | c :: s' =>
      if c =? 47 then rev current :: split_slash s' []
      else split_slash s' (c :: current)
  end.

(** [Path(s)]: empty components and [.] components are dropped. *)
Definition Path (s : Py.str) : path :=
  {| is_absolute := match s with 47 :: _ => true | _ => false end;
     parts :=
       filter (fun c => negb (Py.str_eqb c [] || Py.str_eqb c [46]))
         (split_slash s []) |}.

(** [str(p)] *)
Definition str_of_path (p : path) : Py.str :=
  (if is_absolute p then [47] else []) ++ Py.join [47] (parts p).

(** [base / p] for a relative [p]. *)
Definition join_path (base p : path) : path :=
  {| is_absolute := is_absolute base; parts := parts base ++ parts p |}.

Fixpoint starts_with (l prefix : list Py.str) : bool :=
  match prefix, l with
  | [], _ => true
  | _ :: _, [] => false
  | a :: prefix', b :: l' => Py.str_eqb a b && starts_with l' prefix'
  end.

(** [p.is_relative_to(base)] *)
Definition is_relative_to (p base : path) : bool :=
  Bool.eqb (is_absolute p) (is_absolute base)
  && starts_with (parts p) (parts base).

(** What the handler asks of the file system. *)
Record file_system : Type :=
  { cwd : path;                                  (* Path.cwd() *)
    resolve : path -> outcome path;              (* Path.resolve() *)
    exists_ : path -> bool;                      (* Path.exists() *)
    readable : path -> bool;                     (* os.access(p, os.R_OK) *)
    find_similar_pdfs : Py.str -> list Py.str }.

(** [validate_path_security]: a [ValueError] or [RuntimeError] of
    [resolve] is caught and answered [False]; any other exception goes on
    to the caller. *)
Definition validate_path_security (fs : file_system)
    (p allowed_base : path) : outcome bool :=
  match resolve fs p with
  | Returns resolved_path =>
      match resolve fs allowed_base with
      | Returns resolved_base =>
          Returns (is_relative_to resolved_path resolved_base)
      | Throws (Py.ValueError _) | Throws (Py.RuntimeError _) => Returns false
      | Throws e => Throws e
      end
  | Throws (Py.ValueError _) | Throws (Py.RuntimeError _) => Returns false
  | Throws e => Throws e
  end.

(** *** The document as the extraction libraries show it *)

(** The page image after white-out, resizing and JPEG encoding. *)
Record rendered : Type :=
  { jpeg_data : Py.str; width : Z; height : Z }.

(** An embedded image that came through extraction, the header and footer
    filter and cropping, as PNG data with the [top] pdfplumber reports for
    it (0 where it reports none). *)
Record embedded : Type := { png_data : Py.str; top : float }.

(** The answers of the libraries for one page: the pdfplumber page, its
    tables, what pdfminer writes to [stderr] for it, its rendering and its
    embedded images.  The rendering and the image steps depend on the
    request's options, so they take the input; a rendering that raises is
    [None], as the handler logs and ignores it.  The calls on the pdfplumber
    page are taken to return: one that raises ends the whole request in the
    handler's [except] clauses, with no page in the response. *)
Record page_source : Type :=
  { plumber_page : text_extractor.page;
    extract_tables : list table_converter.Table;
    find_tables : list bbox;                 (* t.bbox of page.find_tables() *)
    pdfminer_stderr : Py.str;
    render : schemas.ReadPDFInput -> option rendered;
    extract_images : schemas.ReadPDFInput -> list embedded }.

Record environment : Type :=
  { fs : file_system;
    pikepdf_open : Py.str -> outcome validators.pdf;
    pdfplumber_open : Py.str -> outcome (list page_source) }.

(** *** The trace *)

(** The calls the handler makes to the PDF libraries and to the corruption
    heuristics, in call order. *)
Inductive event : Type :=
| ValidationScan (pdf_path : Py.str)
    (* validate_pdf_read_request: open, page and image counts, close *)
| PdfplumberOpen (pdf_path : Py.str)
| PikepdfOpen (pdf_path : Py.str)
| ExtractText (page_num : Z)
| ExtractTables (page_num : Z)
| FindTables (page_num : Z)
| ExtractTextRegions (page_num : Z)
| PdfminerCheck (page_num : Z)
| CharacterHeuristic (page_num : Z)
| RenderPage (page_num : Z)
| ExtractImages (page_num : Z).

(** The events that extract or render the content of a page. *)
Definition is_page_extraction (e : event) : bool :=
  match e with
  | ValidationScan _ | PdfplumberOpen _ | PikepdfOpen _
  | CharacterHeuristic _ => false
  | ExtractText _ | ExtractTables _ | FindTables _ | ExtractTextRegions _
  | PdfminerCheck _ | RenderPage _ | ExtractImages _ => true
  end.

(** *** One page *)

Inductive image_format : Type := jpeg | png.

(** An entry of [extracted_images]. *)
Record image_out : Type := { data : Py.str; format : image_format }.

(** The counters the page loop carries. *)
Record state : Type :=
  { image_index : Z;
    total_images_count : Z;
    extracted_images : list image_out }.

(** [f"[IMAGE_{image_index}]"] *)
Definition placeholder (image_index : Z) : Py.str :=
  Py.lit "[IMAGE_" ++ Py.str_of_int image_index ++ Py.lit "]".

(** The loop over [enumerate(zip(tables_raw, table_objects))], from index
    [i] on: the tables kept, each with its bbox. *)
Fixpoint table_entries (i : Z)
    (pairs : list (table_converter.Table * bbox))
    : list (table_info * bbox) :=
  match pairs with
  | [] => []
  | (table_data, table_bbox) :: rest =>
      let md :=
        match table_data with
        | [] => []
        | _ => table_converter.convert_table_to_markdown table_data
        end in
      match md with
      | [] => table_entries (i + 1) rest
      | _ =>
          ({| table_top := bbox_top table_bbox;
              table_markdown :=
                Py.lit "**Table " ++ Py.str_of_int (i + 1) ++ Py.lit "**"
                ++ [10; 10] ++ md |}, table_bbox)
            :: table_entries (i + 1) rest
      end
  end.

(** The two corruption signals, the parser diagnostics first; the source
    writes this out twice, for the hint of [image_only] and for the text
    modes. *)
Definition detect_corruption (decimal : Z -> bool) (cfg : config.Config)
    (page : page_source) (page_num : Z) (text : Py.str)
    : list event * (bool * float) :=
  let '(pdfminer_corrupted, warning_count) :=
    text_validator.check_pdf_corruption_with_pdfminer (pdfminer_stderr page) in
  if pdfminer_corrupted
  then ([PdfminerCheck page_num], (true, Py.truediv warning_count 10))
  else ([PdfminerCheck page_num; CharacterHeuristic page_num],
        text_validator.is_text_corrupted decimal cfg text None).

(** [re.match(r'^-\s*\d+\s*-$', content)] *)
Definition is_page_number_separator (decimal : Z -> bool) (content : Py.str)
    : bool :=
  match content with
  | 45 :: rest =>
      let rest := Py.lstrip rest in
      let digits := Py.run_length decimal rest in
      match digits with
      | O => false
      | S _ =>
          match Py.lstrip (skipn digits rest) with
          | [45] | [45; 10] => true
          | _ => false
          end
      end
  | _ => false
  end.

Definition is_image (t : block_type) : bool :=
  match t with image => true | _ => false end.

Definition is_text (t : block_type) : bool :=
  match t with text => true | _ => false end.

(** The conversion of the ordered blocks to [ContentBlock]s. *)
Definition to_content_blocks (decimal : Z -> bool)
    (should_skip_text_blocks : bool) (ordered_blocks : list block)
    : list schemas.ContentBlock :=
  if should_skip_text_blocks then
    map (fun b => {| schemas.type := type b;
                     schemas.content := Some (content b) |})
      (filter (fun b => is_image (type b)) ordered_blocks)
  else
    flat_map
      (fun b =>
         if is_text (type b)
            && negb (match content b with [] => true | _ => false end)
         then
           let stripped := Py.strip (content b) in
           if is_page_number_separator decimal stripped then []
           else [ {| schemas.type := type b;
                     schemas.content := Some stripped |} ]
         else [ {| schemas.type := type b;
                   schemas.content := Some (content b) |} ])
      ordered_blocks.

(** The placeholders of the embedded images of a page, from
    [image_index] on. *)
Fixpoint place_images (image_index : Z) (imgs : list embedded)
    : list img_info :=
  match imgs with
  | [] => []
  | i :: rest =>
      {| img_top := top i; img_image_data := placeholder image_index |}
        :: place_images (image_index + 1) rest
  end.

Record page_result : Type :=
  { events : list event;
    page_data : schemas.PageData;
    next_state : state }.

(** The branch [if skip_text_extraction:] of the page loop: no text or
    table is extracted; the page text is probed for the hint only.  It
    yields the calls made, [extractable_char_count] and [text_hint]. *)
Definition probe_text (decimal : Z -> bool) (cfg : config.Config)
    (page : page_source) (page_num : Z)
    : list event * option Z * option schemas.hint :=
  let page_text :=
    match text_extractor.extract_text (plumber_page page) with
    | Some t => t
    | None => []
    end in
  let char_count := Z.of_nat (List.length (Py.strip page_text)) in
  if char_count >? 0 then
    let '(ev, (is_corrupted, ratio)) :=
      detect_corruption decimal cfg page page_num page_text in
    (ExtractText page_num :: ev, Some char_count,
     Some (if is_corrupted
           then schemas.CorruptedTextHint char_count ratio
           else schemas.ExtractableTextHint char_count))
  else ([ExtractText page_num], None, None).

(** The [else] branch: tables first, then the text outside them.  It
    yields the calls made, [tables_with_position],
    [text_lines_for_ordering] and [full_text]. *)
Definition extract_text_and_tables (page : page_source) (page_num : Z)
    : list event * list table_info * list text_region * Py.str :=
  let tables_raw := extract_tables page in
  let '(ev_tables, kept) :=
    match tables_raw with
    | [] => ([ExtractTables page_num], [])
    | _ => ([ExtractTables page_num; FindTables page_num],
            table_entries 0 (combine tables_raw (find_tables page)))
    end in
  let tables_with_position := map fst kept in
  let table_bboxes := map snd kept in
  let text_regions :=
    text_extractor.extract_non_table_text_regions (plumber_page page)
      table_bboxes in
  (ev_tables ++ [ExtractTextRegions page_num],
   tables_with_position, text_regions,
   Py.join [10; 10] (map region_text text_regions)).

(** The text the character heuristic is given: the page text and the
    tables. *)
Definition all_text_for_check (full_text : Py.str)
    (tables_with_position : list table_info) : Py.str :=
  match tables_with_position with
  | [] => full_text
  | _ =>
      let table_texts :=
        Py.join [10; 10] (map table_markdown tables_with_position) in
      match full_text with
      | [] => table_texts
      | _ => full_text ++ [10; 10] ++ table_texts
      end
  end.

(** The block [if should_include_image:].  It yields the call made,
    [page_image_base64], the image's width and height, and the counters. *)
Definition render_page_image (input : schemas.ReadPDFInput)
    (page : page_source) (page_num : Z) (st : state)
    : list event * option Py.str * option Z * option Z * state :=
  match render page input with
  | Some img =>
      ([RenderPage page_num],
       Some (placeholder (image_index st)),
       Some (width img), Some (height img),
       {| image_index := image_index st + 1;
          total_images_count := total_images_count st + 1;
          extracted_images :=
            extracted_images st
            ++ [ {| data := jpeg_data img; format := jpeg |} ] |})
  | None => ([RenderPage page_num], None, None, None, st)
  end.

(** The block [if not skip_image_extraction and pike_pdf:].  It yields the
    call made, [images_with_position] and the counters. *)
Definition extract_embedded_images (input : schemas.ReadPDFInput)
    (page : page_source) (page_num : Z) (st : state)
    : list event * list img_info * state :=
  let imgs := extract_images page input in
  ([ExtractImages page_num],
   place_images (image_index st) imgs,
   {| image_index := image_index st + Z.of_nat (List.length imgs);
      total_images_count :=
        total_images_count st + Z.of_nat (List.length imgs);
      extracted_images :=
        extracted_images st
        ++ map (fun i => {| data := png_data i; format := png |}) imgs |}).

(** The body of the page loop. *)
Definition process_page (decimal : Z -> bool) (cfg : config.Config)
    (input : schemas.ReadPDFInput) (pike_pdf : bool)
    (page : page_source) (page_num : Z) (st : state) : page_result :=
  let mode := schemas.extraction_mode input in
  let skip_text_extraction :=
    match mode with schemas.image_only => true | _ => false end in
  let '(ev1, tables_with_position, text_lines_for_ordering, full_text,
        extractable_char_count, text_hint) :=
    if skip_text_extraction then
      let '(ev, extractable_char_count, text_hint) :=
        probe_text decimal cfg page page_num in
      (ev, [], [], [], extractable_char_count, text_hint)
    else
      let '(ev, tables_with_position, text_lines_for_ordering, full_text) :=
        extract_text_and_tables page page_num in
      (ev, tables_with_position, text_lines_for_ordering, full_text,
       None, None) in
  (* Auto-detect text corruption (only if extracting text) *)
  let '(ev2, (text_corrupted, corruption_ratio)) :=
    if skip_text_extraction then ([], (false, 0%float))
    else
      detect_corruption decimal cfg page page_num
        (all_text_for_check full_text tables_with_position) in
  (* Provide full page as image based on extraction mode *)
  let should_include_image :=
    match mode with
    | schemas.image_only => true
    | schemas.auto => text_corrupted
    | schemas.text_only => false
    end in
  let '(ev3, page_image, page_img_width, page_img_height, st1) :=
    if should_include_image then render_page_image input page page_num st
    else ([], None, None, None, st) in
  (* Extract images with pikepdf (skip if image_only or text_only mode) *)
  let skip_image_extraction :=
    match mode with
    | schemas.image_only | schemas.text_only => true
    | schemas.auto => false
    end in
  let '(ev4, images_with_position, st2) :=
    if negb skip_image_extraction && pike_pdf
    then extract_embedded_images input page page_num st1
    else ([], [], st1) in
  (* Reconstruct content order *)
  let ordered_blocks :=
    merge_adjacent_text_blocks
      (order_content_blocks text_lines_for_ordering tables_with_position
         images_with_position) in
  let should_skip_text_blocks :=
    match mode with
    | schemas.auto => text_corrupted
    | schemas.image_only => true
    | schemas.text_only => false
    end in
  {| events := ev1 ++ ev2 ++ ev3 ++ ev4;
     page_data :=
       {| schemas.page_number := page_num;
          schemas.content_blocks :=
            to_content_blocks decimal should_skip_text_blocks ordered_blocks;
          schemas.text_corrupted :=
            if text_corrupted then Some true else None;
          schemas.corruption_ratio :=
            if text_corrupted then Some corruption_ratio else None;
          schemas.page_image := page_image;
          schemas.page_image_width := page_img_width;
          schemas.page_image_height := page_img_height;
          schemas.extractable_char_count := extractable_char_count;
          schemas.text_hint := text_hint |};
     next_state := st2 |}.

(** *** The handler *)

(** A step of the handler goes on with a value, leaves the handler with a
    [return], raises, or runs out of loop budget; it adds the calls it made
    to the trace. *)
Inductive step (A : Type) : Type :=
| Next (a : A)
| Return (r : schemas.response * list image_out)
| Raise (e : Py.exn)
| Stuck.
Arguments Next {A} a.
Arguments Return {A} r.
Arguments Raise {A} e.
Arguments Stuck {A}.

Definition M (A : Type) : Type := (list event * step A)%type.

Definition ret {A : Type} (a : A) : M A := ([], Next a).

Definition bind {A B : Type} (m : M A) (f : A -> M B) : M B :=
  match m with
  | (t, Next a) => let '(t', r) := f a in (t ++ t', r)
  | (t, Return r) => (t, Return r)
  | (t, Raise e) => (t, Raise e)
  | (t, Stuck) => (t, Stuck)
  end.

Notation "x <- m ;; k" := (bind m (fun x => k))
  (at level 61, m at next level, right associativity).
Notation "m ;;; k" := (bind m (fun _ => k))
  (at level 61, right associativity).

Definition emit (e : event) : M unit := ([e], Next tt).
Definition emit_all (t : list event) : M unit := (t, Next tt).
Definition leave {A : Type} (r : schemas.response) : M A :=
  ([], Return (r, [])).
Definition lift {A : Type} (r : outcome A) : M A :=
  ([], match r with
       | Returns a => Next a
       | Throws e => Raise e
       end).
Definition lift_result {A : Type} (r : result A) : M A :=
  ([], match r with
       | Ok a => Next a
       | Raises e => Raise e
       | OutOfFuel => Stuck
       end).

(** The [except] clauses of [read_pdf_handler]. *)
Definition on_exception (e : Py.exn) : schemas.response :=
  schemas.Failure
    match e with
    | Py.FileNotFoundError _ =>
        schemas.bare_error validators.FILE_NOT_FOUND
          (schemas.PdfFileNotFoundError e)
    | Py.PermissionError _ =>
        schemas.bare_error validators.PERMISSION_DENIED
          (schemas.PermissionDeniedAccessingPdf e)
    | Py.PdfError _ | Py.PDFSyntaxError _ =>
        schemas.bare_error validators.INVALID_PDF
          (schemas.InvalidOrCorruptedPdfFile e)
    | _ =>
        schemas.bare_error validators.INVALID_PDF
          (schemas.ErrorProcessingPdf e)
    end.

(** pydantic's [ValidationError]. *)
Definition validation_error : Py.exn :=
  Py.OtherException (Py.lit "ValidationError") [].

(** The error response built from a failed validation; [ReadPDFError]
    requires its [error] and [message]. *)
Definition rejection (validation : validators.ValidationResult)
    : outcome schemas.response :=
  match validators.error validation, validators.message_field validation with
  | Some kind, Some m =>
      Returns
         (schemas.Failure
            {| schemas.error := kind;
               schemas.message := schemas.ValidationMessage m;
               schemas.total_pages := validators.total_pages validation;
               schemas.total_images := validators.total_images validation;
               schemas.suggested_ranges :=
                 validators.suggested_ranges validation;
               schemas.suggested_files := None |})
  | _, _ => Throws validation_error
  end.

(** The page loop [for page_num in range(start_page, end_page + 1)]. *)
Fixpoint process_pages (decimal : Z -> bool) (cfg : config.Config)
    (input : schemas.ReadPDFInput) (pike_pdf : bool)
    (pdf : list page_source) (page_nums : list Z)
    (st : state) (pages_data : list schemas.PageData)
    : M (list schemas.PageData * state) :=
  match page_nums with
  | [] => ret (pages_data, st)
  | page_num :: rest =>
      if page_num >? Z.of_nat (List.length pdf) then ret (pages_data, st)
      else
        page <- lift (match Py.index pdf (page_num - 1) with
                      | Some page => Returns page
                      | None => Throws Py.IndexError
                      end) ;;
        let r := process_page decimal cfg input pike_pdf page page_num st in
        emit_all (events r) ;;;
        process_pages decimal cfg input pike_pdf pdf rest
          (next_state r) (pages_data ++ [page_data r])
  end.

(** The path the handler works with: [Path(file_path)], made absolute
    against the working directory, then resolved. *)
Definition request_path (fs : file_system) (input : schemas.ReadPDFInput)
    : outcome path :=
  let pdf_path := Path (schemas.file_path input) in
  let pdf_path :=
    if is_absolute pdf_path then pdf_path else join_path (cwd fs) pdf_path in
  resolve fs pdf_path.

(** The body of the [try] of [read_pdf_handler]. *)
Definition read_pdf_body (decimal : Z -> bool) (cfg : config.Config)
    (env : environment) (arguments : schemas.arguments)
    : M (schemas.response * list image_out) :=
  input <- lift (match schemas.parse cfg arguments with
                 | Some input => Returns input
                 | None => Throws validation_error
                 end) ;;
  pdf_path <- lift (request_path (fs env) input) ;;
  (* Check file exists *)
  (if exists_ (fs env) pdf_path then ret tt
   else
     let similar_files :=
       find_similar_pdfs (fs env) (str_of_path pdf_path) in
     leave
       (schemas.Failure
          {| schemas.error := validators.FILE_NOT_FOUND;
             schemas.message :=
               schemas.FileNotFoundMessage (str_of_path pdf_path)
                 similar_files;
             schemas.total_pages := None;
             schemas.total_images := None;
             schemas.suggested_ranges := None;
             schemas.suggested_files :=
               match similar_files with
               | [] => None
               | _ => Some similar_files
               end |})) ;;;
  (* Security: the file must be within the current working directory *)
  resolved_cwd <- lift (resolve (fs env) (cwd (fs env))) ;;
  secure <- lift (validate_path_security (fs env) pdf_path resolved_cwd) ;;
  (if secure then ret tt
   else
     leave
       (schemas.Failure
          (schemas.bare_error validators.PERMISSION_DENIED
             schemas.AccessDeniedOutsideWorkingDirectory))) ;;;
  (* Check read permission *)
  (if readable (fs env) pdf_path then ret tt
   else
     leave
       (schemas.Failure
          (schemas.bare_error validators.PERMISSION_DENIED
             (schemas.CannotReadFile (str_of_path pdf_path))))) ;;;
  (* Validate limits BEFORE processing *)
  emit (ValidationScan (str_of_path pdf_path)) ;;;
  validation <- lift_result
                  (validators.validate_pdf_read_request cfg
                     (pikepdf_open env) (str_of_path pdf_path)
                     (schemas.start_page input)
                     (schemas.end_page input)) ;;
  (if validators.valid validation then ret tt
   else
     r <- lift (rejection validation) ;;
     leave r) ;;;
  (* Open the PDF for extraction *)
  emit (PdfplumberOpen (str_of_path pdf_path)) ;;;
  pdf <- lift (pdfplumber_open env (str_of_path pdf_path)) ;;
  let total_pages := Z.of_nat (List.length pdf) in
  let end_page :=
    Z.min (Py.or_opt_int (schemas.end_page input) total_pages) total_pages in
  let need_pikepdf :=
    match schemas.extraction_mode input with
    | schemas.auto => true
    | _ => false
    end in
  pike_pdf <- (if need_pikepdf then
                 emit (PikepdfOpen (str_of_path pdf_path)) ;;;
                 ret (match pikepdf_open env (str_of_path pdf_path) with
                      | Returns _ => true
                      | Throws _ => false
                      end)
               else ret false) ;;
  done <- process_pages decimal cfg input pike_pdf pdf
            (Py.range (schemas.start_page input) (end_page + 1))
            {| image_index := 0; total_images_count := 0;
               extracted_images := [] |} [] ;;
  let '(pages_data, st) := done in
  ret (schemas.Success
         {| schemas.read_file_path := str_of_path pdf_path;
            schemas.pages := pages_data;
            schemas.total_pages_read := Z.of_nat (List.length pages_data);
            schemas.total_images_read := total_images_count st |},
       extracted_images st).

(** [read_pdf_handler]: the body, and the [except] clauses around it. *)
Definition read_pdf_handler (decimal : Z -> bool) (cfg : config.Config)
    (env : environment) (arguments : schemas.arguments)
    : list event * result (schemas.response * list image_out) :=
  match read_pdf_body decimal cfg env arguments with
  | (t, Next r) => (t, Ok r)
  | (t, Return r) => (t, Ok r)
  | (t, Raise e) => (t, Ok (on_exception e, []))
  | (t, Stuck) => (t, OutOfFuel)
  end.

End pdf_tools.

(** ** [src/pdf_tools.py]: [grep_pdf_handler] *)

Module grep_tool.

Import Py (outcome, Returns, Throws).

(** *** The input model *)

(** The value of an attribute of a pydantic model. *)
Inductive value : Type :=
| VNone
| VBool (b : bool)
| VInt (n : Z)
| VStr (s : Py.str).

(** An instance of a pydantic model: the class name and the declared
    fields with their values, in declaration order. *)
Record instance : Type :=
  { class_name : Py.str;
    fields : list (Py.str * value) }.

(** [AttributeError("'C' object has no attribute 'name'")] *)
Definition AttributeError (class_name name : Py.str) : Py.exn :=
  Py.OtherException (Py.lit "AttributeError")
    (Py.lit "'" ++ class_name ++ Py.lit "' object has no attribute '"
     ++ name ++ Py.lit "'").

Definition TypeError : Py.exn := Py.OtherException (Py.lit "TypeError") [].

Fixpoint lookup (fields : list (Py.str * value)) (name : Py.str)
    : option value :=
  match fields with
  | [] => None
  | (k, v) :: rest => if Py.str_eqb k name then Some v else lookup rest name
  end.

(** [obj.name]: the value of the field [name]; a name that is not a field
    of the model raises [AttributeError]. *)
Definition getattr (obj : instance) (name : Py.str) : outcome value :=
  match lookup (fields obj) name with
  | Some v => Returns v
  | None => Throws (AttributeError (class_name obj) name)
  end.

(** The truth value of a value. *)
Definition truthy (v : value) : bool :=
  match v with
  | VNone => false
  | VBool b => b
  | VInt n => negb (n =? 0)
  | VStr s => match s with [] => false | _ => true end
  end.

(** A value where the code needs a [str] ([Path(v)], a command argument). *)
Definition as_str (v : value) : outcome Py.str :=
  match v with
  | VStr s => Returns s
  | _ => Throws TypeError
  end.

(** A value where the code needs an [int] (a comparison with an [int], a
    page number); [bool] is a subclass of [int]. *)
Definition as_int (v : value) : outcome Z :=
  match v with
  | VInt n => Returns n
  | VBool b => Returns (if b then 1 else 0)
  | _ => Throws TypeError
  end.

(** [str(v)] for the integers the command shows. *)
Definition str_of (v : value) : outcome Py.str :=
  match v with
  | VInt n => Returns (Py.str_of_int n)
  | VStr s => Returns s
  | VBool b => Returns (if b then Py.lit "True" else Py.lit "False")
  | VNone => Returns (Py.lit "None")
  end.

(** The [arguments] dictionary of a call, by the keys the tool's schema
    offers; [None] for a key that is absent. *)
Record arguments : Type :=
  { arg_pattern : option Py.str;
    arg_file_path : option Py.str;
    arg_working_directory : option Py.str;
    arg_ignore_case : option bool;
    arg_fixed_strings : option bool;
    arg_context : option Z;
    arg_max_count : option Z;
    arg_recursive : option bool;
    arg_start_page : option Z;
    arg_end_page : option Z }.

Definition or_default {A : Type} (given : option A) (default : A) : A :=
  match given with
  | Some a => a
  | None => default
  end.

(** The construction of [GrepPDFInput] from the arguments: the validated
    model, or [None] where pydantic raises its [ValidationError].  The model declares eight fields;
    a key of the arguments that is not one of them is ignored. *)
Definition GrepPDFInput (a : arguments) : option instance :=
  match arg_pattern a,
        schemas.bounded (arg_context a) 0 0 5,
        schemas.bounded (arg_max_count a) 20 1 100 with
  | Some pattern, Some context, Some max_count =>
      Some
        {| class_name := Py.lit "GrepPDFInput";
           fields :=
             [ (Py.lit "pattern", VStr pattern);
               (Py.lit "file_path",
                match arg_file_path a with
                | Some p => VStr p
                | None => VNone
                end);
               (Py.lit "working_directory",
                VStr (or_default (arg_working_directory a) (Py.lit ".")));
               (Py.lit "ignore_case",
                VBool (or_default (arg_ignore_case a) false));
               (Py.lit "fixed_strings",
                VBool (or_default (arg_fixed_strings a) false));
               (Py.lit "context", VInt context);
               (Py.lit "max_count", VInt max_count);
               (Py.lit "recursive",
                VBool (or_default (arg_recursive a) true)) ] |}
  | _, _, _ => None
  end.

(** *** The output *)

Inductive error_kind : Type :=
| PDFGREP_NOT_INSTALLED
| DIRECTORY_NOT_FOUND
| FILE_NOT_FOUND
| PERMISSION_DENIED
| INVALID_PATTERN
| INTERNAL_ERROR.

(** The messages, one constructor per format string. *)
Inductive message : Type :=
| PdfgrepIsNotInstalled
| PdfFileNotFound (target_path : Py.str)
| NotAPdfFile (target_path : Py.str)
| DirectoryNotFound (target_path : Py.str)
| NotADirectory (target_path : Py.str)
| SearchTimedOut
| InvalidSearchPattern (error_msg : Py.str)
| PdfgrepError (error_msg : Py.str)
| PermissionDenied (e : Py.exn)
| ErrorDuringSearch (e : Py.exn).

Record GrepPDFError : Type :=
  { error : error_kind;
    message_field : message;
    install_hint : option Py.str }.

Record GrepMatch : Type :=
  { file : Py.str; page : Z; text : Py.str }.

Record GrepPDFOutput : Type :=
  { matches : list GrepMatch;
    total : Z;
    truncated : bool;
    files_searched : Z }.

Inductive response : Type :=
| Output (o : GrepPDFOutput)
| Failure (e : GrepPDFError).

Definition failure (kind : error_kind) (m : message) : response :=
  Failure {| error := kind; message_field := m; install_hint := None |}.

(** *** The environment *)

(** How [subprocess.run] ends: the process completed, the timeout
    expired, or the call raised. *)
Inductive run_outcome : Type :=
| Completed (returncode : Z) (stdout stderr : Py.str)
| TimeoutExpired
| RunRaised (e : Py.exn).

(** What the handler asks of its environment: the file system, whether
    [pdfgrep] is on the path, the run of a command in a directory, and the
    three string functions that depend on the interpreter's Unicode
    database ([str.lower], [str.isdigit], and [int] of a string, [None]
    where it raises [ValueError]). *)
Record environment : Type :=
  { fs : pdf_tools.file_system;
    is_dir : pdf_tools.path -> bool;
    pdfgrep_installed : bool;
    subprocess_run : list Py.str -> Py.str -> run_outcome;
    lower : Py.str -> Py.str;
    isdigit : Py.str -> bool;
    int_of_str : Py.str -> option Z }.

(** The one call the trace records: the run of [pdfgrep]. *)
Inductive event : Type :=
| RunPdfgrep (cmd : list Py.str) (cwd : Py.str).

(** *** Strings and paths *)

(** [s.split(sep)] for a separator of one character. *)
Fixpoint split (sep : Z) (s : Py.str) (current : Py.str) : list Py.str :=
  match s with
  | [] => [rev current]
  | c :: s' =>
      if c =? sep then rev current :: split sep s' []
      else split sep s' (c :: current)
  end.

(** [sub in s], for a non-empty [sub]. *)
Definition contains (s sub : Py.str) : bool := 0 <? Py.count s sub.

(** The index of the last ['.'] of [name], if it has one. *)
Fixpoint rfind_dot (name : Py.str) (i : nat) (found : option nat)
    : option nat :=
  match name with
  | [] => found
  | c :: rest =>
      rfind_dot rest (S i) (if c =? 46 then Some i else found)
  end.

(** [p.suffix]: the last component from its last dot on, unless that dot
    is its first or its last character. *)
Definition suffix (p : pdf_tools.path) : Py.str :=
  let name := last (pdf_tools.parts p) [] in
  match rfind_dot name O None with
  | Some i =>
      if (0 <? i)%nat && (i <? List.length name - 1)%nat
      then skipn i name else []
  | None => []
  end.

(** [p.parent] *)
Definition parent (p : pdf_tools.path) : pdf_tools.path :=
  {| pdf_tools.is_absolute := pdf_tools.is_absolute p;
     pdf_tools.parts := removelast (pdf_tools.parts p) |}.

(** *** The steps of the handler *)

(** A step goes on with a value, leaves the handler with a [return], or
    raises; it adds the calls it made to the trace. *)
Inductive step (A : Type) : Type :=
| Next (a : A)
| Return (r : response)
| Raise (e : Py.exn).
Arguments Next {A} a.
Arguments Return {A} r.
Arguments Raise {A} e.

Definition M (A : Type) : Type := (list event * step A)%type.

Definition ret {A : Type} (a : A) : M A := ([], Next a).

Definition bind {A B : Type} (m : M A) (f : A -> M B) : M B :=
  match m with
  | (t, Next a) => let '(t', r) := f a in (t ++ t', r)
  | (t, Return r) => (t, Return r)
  | (t, Raise e) => (t, Raise e)
  end.

Local Notation "x <- m ;; k" := (bind m (fun x => k))
  (at level 61, m at next level, right associativity).
Local Notation "m ;;; k" := (bind m (fun _ => k))
  (at level 61, right associativity).

Definition leave {A : Type} (r : response) : M A := ([], Return r).
Definition lift {A : Type} (r : outcome A) : M A :=
  ([], match r with
       | Returns a => Next a
       | Throws e => Raise e
       end).

(** [Path(s)], made absolute against the working directory, resolved. *)
Definition resolved (env : environment) (s : Py.str) : M pdf_tools.path :=
  let target_path := pdf_tools.Path s in
  let target_path :=
    if pdf_tools.is_absolute target_path then target_path
    else pdf_tools.join_path (pdf_tools.cwd (fs env)) target_path in
  lift (pdf_tools.resolve (fs env) target_path).

(** Step 3: the target of the search, a file or a directory. *)
Definition resolve_target (env : environment) (input_data : instance)
    : M pdf_tools.path :=
  file_path <- lift (getattr input_data (Py.lit "file_path")) ;;
  if truthy file_path then
    file_path <- lift (getattr input_data (Py.lit "file_path")) ;;
    s <- lift (as_str file_path) ;;
    target_path <- resolved env s ;;
    if negb (pdf_tools.exists_ (fs env) target_path) then
      leave (failure FILE_NOT_FOUND
               (PdfFileNotFound (pdf_tools.str_of_path target_path)))
    else if negb (Py.str_eqb (lower env (suffix target_path))
                    (Py.lit ".pdf")) then
      leave (failure FILE_NOT_FOUND
               (NotAPdfFile (pdf_tools.str_of_path target_path)))
    else ret target_path
  else
    working_directory <-
      lift (getattr input_data (Py.lit "working_directory")) ;;
    s <- lift (as_str working_directory) ;;
    target_path <- resolved env s ;;
    if negb (pdf_tools.exists_ (fs env) target_path) then
      leave (failure DIRECTORY_NOT_FOUND
               (DirectoryNotFound (pdf_tools.str_of_path target_path)))
    else if negb (is_dir env target_path) then
      leave (failure DIRECTORY_NOT_FOUND
               (NotADirectory (pdf_tools.str_of_path target_path)))
    else ret target_path.

(** [v != n] for an integer [n]. *)
Definition differs_from (v : value) (n : Z) : bool :=
  match v with
  | VInt m => negb (m =? n)
  | VBool b => negb ((if b then 1 else 0) =? n)
  | _ => true
  end.

Definition is_not_none (v : value) : bool :=
  match v with
  | VNone => false
  | _ => true
  end.

(** Step 4: the command line, option by option. *)
Definition build_command (input_data : instance)
    (target_path : pdf_tools.path) : M (list Py.str) :=
  let cmd := [Py.lit "pdfgrep"; Py.lit "-n"; Py.lit "-H"] in
  ignore_case <- lift (getattr input_data (Py.lit "ignore_case")) ;;
  let cmd := if truthy ignore_case then cmd ++ [Py.lit "-i"] else cmd in
  fixed_strings <- lift (getattr input_data (Py.lit "fixed_strings")) ;;
  let cmd := if truthy fixed_strings then cmd ++ [Py.lit "-F"] else cmd in
  context <- lift (getattr input_data (Py.lit "context")) ;;
  context <- lift (as_int context) ;;
  cmd <- (if context >? 0 then
            context <- lift (getattr input_data (Py.lit "context")) ;;
            context <- lift (str_of context) ;;
            ret (cmd ++ [Py.lit "-C"; context])
          else ret cmd) ;;
  max_count <- lift (getattr input_data (Py.lit "max_count")) ;;
  cmd <- (if truthy max_count then
            max_count <- lift (getattr input_data (Py.lit "max_count")) ;;
            max_count <- lift (str_of max_count) ;;
            ret (cmd ++ [Py.lit "-m"; max_count])
          else ret cmd) ;;
  recursive <- lift (getattr input_data (Py.lit "recursive")) ;;
  recursive <- (if truthy recursive then
                  file_path <-
                    lift (getattr input_data (Py.lit "file_path")) ;;
                  ret (negb (truthy file_path))
                else ret false) ;;
  let cmd := if recursive then cmd ++ [Py.lit "-r"] else cmd in
  (* Only add --page-range if not using defaults (start=1, end=all) *)
  start_page <- lift (getattr input_data (Py.lit "start_page")) ;;
  ranged <- (if differs_from start_page 1 then ret true
             else
               end_page <- lift (getattr input_data (Py.lit "end_page")) ;;
               ret (is_not_none end_page)) ;;
  cmd <- (if ranged then
            end_page <- lift (getattr input_data (Py.lit "end_page")) ;;
            let end_ := if truthy end_page then end_page else VInt 9999 in
            start_page <- lift (getattr input_data (Py.lit "start_page")) ;;
            start_page <- lift (str_of start_page) ;;
            end_ <- lift (str_of end_) ;;
            ret (cmd ++ [Py.lit "--page-range";
                         start_page ++ Py.lit "-" ++ end_])
          else ret cmd) ;;
  pattern <- lift (getattr input_data (Py.lit "pattern")) ;;
  pattern <- lift (as_str pattern) ;;
  ret (cmd ++ [pattern; pdf_tools.str_of_path target_path]).

(** Step 5: the run, with its timeout. *)
Definition run_pdfgrep (env : environment) (input_data : instance)
    (target_path : pdf_tools.path) (cmd : list Py.str)
    : M (Z * Py.str * Py.str) :=
  file_path <- lift (getattr input_data (Py.lit "file_path")) ;;
  let cwd :=
    if truthy file_path then pdf_tools.str_of_path (parent target_path)
    else pdf_tools.str_of_path target_path in
  ([RunPdfgrep cmd cwd],
   match subprocess_run env cmd cwd with
   | Completed returncode stdout stderr => Next (returncode, stdout, stderr)
   | TimeoutExpired => Return (failure INTERNAL_ERROR SearchTimedOut)
   | RunRaised e => Raise e
   end).

(** Step 6: [pdfgrep] returns 2 for errors. *)
Definition check_returncode (env : environment) (returncode : Z)
    (stderr : Py.str) : M unit :=
  if returncode =? 2 then
    let error_msg :=
      match stderr with
      | [] => Py.lit "Unknown error"
      | _ => Py.strip stderr
      end in
    if contains error_msg (Py.lit "Invalid")
       || contains (lower env error_msg) (Py.lit "regex")
    then leave (failure INVALID_PATTERN (InvalidSearchPattern error_msg))
    else leave (failure INTERNAL_ERROR (PdfgrepError error_msg))
  else ret tt.

(** The loop [for i, part in enumerate(parts)], from index [i] on: the
    parts taken for the file name, and the part found for the page number
    with the parts after it. *)
Fixpoint scan_parts (env : environment) (i : Z) (parts : list Py.str)
    (file_parts : list Py.str)
    : list Py.str * option (Py.str * list Py.str) :=
  match parts with
  | [] => (file_parts, None)
  | part :: rest =>
      if isdigit env part && (0 <? i) then (file_parts, Some (part, rest))
      else scan_parts env (i + 1) rest (file_parts ++ [part])
  end.

(** The match of one line of the form [file:page:text], if it has one. *)
Definition parse_line (env : environment) (line : Py.str)
    : option GrepMatch :=
  let parts := split 58 line [] in
  if (3 <=? List.length parts)%nat then
    match scan_parts env 0 parts [] with
    | (file_parts, Some (page_part, rest)) =>
        match int_of_str env page_part with
        | Some page_num =>
            Some {| file := Py.join [58] file_parts;
                    page := page_num;
                    text := Py.join [58] rest |}
        | None => None
        end
    | (_, None) => None
    end
  else None.

(** Step 7: the matches of the output, line by line. *)
Definition parse_output (env : environment) (stdout : Py.str)
    : list GrepMatch :=
  match Py.strip stdout with
  | [] => []
  | stripped =>
      flat_map
        (fun line =>
           if match line with [] => true | _ => false end
              || Py.str_eqb line (Py.lit "--")
           then []
           else match parse_line env line with
                | Some m => [m]
                | None => []
                end)
        (split 10 stripped [])
  end.

(** The set [files_found], as the list of its elements. *)
Fixpoint distinct (names : list Py.str) : list Py.str :=
  match names with
  | [] => []
  | name :: rest =>
      let found := distinct rest in
      if existsb (Py.str_eqb name) found then found else name :: found
  end.

(** The install hint of the first error. *)
Definition install_hint_text : Py.str :=
  Py.lit "brew install pdfgrep (macOS) or apt install pdfgrep (Ubuntu)".

(** The body of the [try] of [grep_pdf_handler]. *)
Definition grep_pdf_body (env : environment) (arguments : arguments)
    : M response :=
  (* 1. Check pdfgrep installation FIRST *)
  (if pdfgrep_installed env then ret tt
   else
     leave (Failure {| error := PDFGREP_NOT_INSTALLED;
                       message_field := PdfgrepIsNotInstalled;
                       install_hint := Some install_hint_text |})) ;;;
  (* 2. Validate input *)
  input_data <- lift (match GrepPDFInput arguments with
                      | Some input_data => Returns input_data
                      | None => Throws pdf_tools.validation_error
                      end) ;;
  (* 3. Resolve target path *)
  target_path <- resolve_target env input_data ;;
  (* 4. Build pdfgrep command *)
  cmd <- build_command input_data target_path ;;
  (* 5. Execute with timeout *)
  result <- run_pdfgrep env input_data target_path cmd ;;
  let '(returncode, stdout, stderr) := result in
  (* 6. Check for errors *)
  check_returncode env returncode stderr ;;;
  (* 7. Parse output *)
  let matches := parse_output env stdout in
  (* 8. Return output *)
  max_count <- lift (getattr input_data (Py.lit "max_count")) ;;
  max_count <- lift (as_int max_count) ;;
  ret (Output
         {| matches := matches;
            total := Z.of_nat (List.length matches);
            truncated := Z.of_nat (List.length matches) >=? max_count;
            files_searched :=
              Z.of_nat (List.length (distinct (map file matches))) |}).

(** The [except] clauses of [grep_pdf_handler]. *)
Definition on_exception (e : Py.exn) : response :=
  match e with
  | Py.PermissionError _ => failure PERMISSION_DENIED (PermissionDenied e)
  | _ => failure INTERNAL_ERROR (ErrorDuringSearch e)
  end.

(** [grep_pdf_handler]: the body, and the [except] clauses around it. *)
Definition grep_pdf_handler (env : environment) (arguments : arguments)
    : list event * response :=
  match grep_pdf_body env arguments with
  | (t, Next r) => (t, r)
  | (t, Return r) => (t, r)
  | (t, Raise e) => (t, on_exception e)
  end.

End grep_tool.

(* ================================================================== *)
(** * Part II. Properties *)
(* ================================================================== *)

(** ** The order of binary64 values *)

Module FloatOrder.

Import SpecFloat.

Definition cmp (x y : float) : option comparison :=
  SFcompare (Prim2SF x) (Prim2SF y).

Ltac sf_cases :=
  repeat match goal with
  | x : spec_float |- _ => destruct x as [[]|[]| |[] ? ?]
  end;
  cbn [SFcompare] in *;
  change (Pos.compare_cont Eq) with Pos.compare in *.

Ltac cmp_cases :=
  repeat match goal with
  | |- context [Z.compare ?a ?b] => destruct (Z.compare_spec a b)
  | H : context [Z.compare ?a ?b] |- _ => destruct (Z.compare_spec a b)
  | |- context [Pos.compare ?a ?b] => destruct (Pos.compare_spec a b)
  | H : context [Pos.compare ?a ?b] |- _ => destruct (Pos.compare_spec a b)
  end;
  cbn [CompOpp] in *; subst; try congruence; try lia.

(** [SFcompare] is a lexicographic comparison: the facts below hold for
    all specification floats, valid or not. *)
Lemma SFcompare_lt_eq a b c :
  SFcompare a b = Some Lt -> SFcompare b c = Some Eq ->
  SFcompare a c = Some Lt.
Proof. intros H1 H2. sf_cases; try congruence; cmp_cases. Qed.

Lemma SFcompare_lt_lt a b c :
  SFcompare a b = Some Lt -> SFcompare b c = Some Lt ->
  SFcompare a c = Some Lt.
Proof. intros H1 H2. sf_cases; try congruence; cmp_cases. Qed.

Lemma SFcompare_eq_lt a b c :
  SFcompare a b = Some Eq -> SFcompare b c = Some Lt ->
  SFcompare a c = Some Lt.
Proof. intros H1 H2. sf_cases; try congruence; cmp_cases. Qed.

Lemma SFcompare_eq_eq a b c :
  SFcompare a b = Some Eq -> SFcompare b c = Some Eq ->
  SFcompare a c = Some Eq.
Proof. intros H1 H2. sf_cases; try congruence; cmp_cases. Qed.

Lemma SFcompare_opp a b k :
  SFcompare a b = Some k -> SFcompare b a = Some (CompOpp k).
Proof.
  intros H1. sf_cases; try congruence; injection H1 as <-;
    try reflexivity; cmp_cases.
Qed.

Lemma SFcompare_some a b :
  SFcompare a a <> None -> SFcompare b b <> None -> SFcompare a b <> None.
Proof. intros H1 H2. sf_cases; congruence. Qed.

Lemma ltb_cmp x y : PrimFloat.ltb x y = true <-> cmp x y = Some Lt.
Proof.
  rewrite ltb_spec. unfold SFltb, cmp.
  destruct (SFcompare _ _) as [[]|]; split; congruence.
Qed.

Lemma eqb_cmp x y : PrimFloat.eqb x y = true <-> cmp x y = Some Eq.
Proof.
  rewrite eqb_spec. unfold SFeqb, cmp.
  destruct (SFcompare _ _) as [[]|]; split; congruence.
Qed.

Lemma leb_cmp x y :
  PrimFloat.leb x y = true <-> cmp x y = Some Lt \/ cmp x y = Some Eq.
Proof.
  rewrite leb_spec. unfold SFleb, cmp.
  destruct (SFcompare _ _) as [[]|]; split;
    solve [ intuition congruence ].
Qed.

Lemma not_nan_cmp x : PrimFloat.is_nan x = false -> cmp x x <> None.
Proof.
  unfold PrimFloat.is_nan. intros H.
  apply negb_false_iff, eqb_cmp in H. congruence.
Qed.

(** The four facts about [<], [<=] and [==] the sort proofs use. *)
Lemma ltb_leb x y : PrimFloat.ltb x y = true -> PrimFloat.leb x y = true.
Proof. rewrite ltb_cmp, leb_cmp. auto. Qed.

Lemma ltb_eqb_false y x p :
  PrimFloat.ltb y x = true -> PrimFloat.eqb x p = true ->
  PrimFloat.eqb y p = false.
Proof.
  rewrite ltb_cmp, eqb_cmp. intros H1 H2.
  destruct (PrimFloat.eqb y p) eqn:E; [|reflexivity].
  apply eqb_cmp in E.
  pose proof (SFcompare_lt_eq _ _ _ H1 H2) as H3.
  unfold cmp in *. congruence.
Qed.

Lemma not_ltb_leb x y :
  PrimFloat.is_nan x = false -> PrimFloat.is_nan y = false ->
  PrimFloat.ltb y x = false -> PrimFloat.leb x y = true.
Proof.
  intros Hx Hy H. apply leb_cmp.
  pose proof (SFcompare_some _ _ (not_nan_cmp _ Hy) (not_nan_cmp _ Hx)) as T.
  fold (cmp y x) in T.
  destruct (cmp y x) as [[]|] eqn:E; try congruence.
  - right. apply SFcompare_opp in E. exact E.
  - apply ltb_cmp in E. congruence.
  - left. apply SFcompare_opp in E. exact E.
Qed.

Lemma leb_trans x y z :
  PrimFloat.leb x y = true -> PrimFloat.leb y z = true ->
  PrimFloat.leb x z = true.
Proof.
  rewrite !leb_cmp. unfold cmp.
  intros [H1|H1] [H2|H2].
  - left. eapply SFcompare_lt_lt; eassumption.
  - left. eapply SFcompare_lt_eq; eassumption.
  - left. eapply SFcompare_eq_lt; eassumption.
  - right. eapply SFcompare_eq_eq; eassumption.
Qed.

Lemma leb_ltb_trans x y z :
  PrimFloat.leb x y = true -> PrimFloat.ltb y z = true ->
  PrimFloat.ltb x z = true.
Proof.
  rewrite leb_cmp, !ltb_cmp. unfold cmp. intros [H1|H1] H2.
  - eapply SFcompare_lt_lt; eassumption.
  - eapply SFcompare_eq_lt; eassumption.
Qed.

End FloatOrder.

(** ** [order_content_blocks] *)

Module OrdererFacts.

Import content_orderer.

Definition not_nan (x : float) : Prop := PrimFloat.is_nan x = false.

(** [le_key key a b]: the key of [a] is at most the key of [b]. *)
Definition le_key {A : Type} (key : A -> float) (a b : A) : Prop :=
  PrimFloat.leb (key a) (key b) = true.

(** [at_key key p a]: the key of [a] is equal ([==]) to [p]. *)
Definition at_key {A : Type} (key : A -> float) (p : float) (a : A) : bool :=
  PrimFloat.eqb (key a) p.

Section SortFacts.
Context {A : Type} (key : A -> float).

Lemma sort_insert_perm x l : Permutation (Py.sort_insert key x l) (x :: l).
Proof.
  induction l as [|y l IH]; cbn.
  - apply Permutation_refl.
  - destruct (PrimFloat.ltb (key y) (key x)).
    + eapply perm_trans; [apply perm_skip, IH | apply perm_swap].
    + apply Permutation_refl.
Qed.

Lemma sort_perm l : Permutation (Py.sort key l) l.
Proof.
  induction l as [|x l IH]; cbn.
  - constructor.
  - eapply perm_trans; [apply sort_insert_perm | apply perm_skip, IH].
Qed.

Lemma sort_insert_Forall (P : A -> Prop) x l :
  P x -> Forall P l -> Forall P (Py.sort_insert key x l).
Proof.
  intros Hx Hl.
  eapply Permutation_Forall;
    [apply Permutation_sym, sort_insert_perm | constructor; assumption].
Qed.

Lemma sort_Forall (P : A -> Prop) l :
  Forall P l -> Forall P (Py.sort key l).
Proof.
  intros Hl.
  eapply Permutation_Forall; [apply Permutation_sym, sort_perm | exact Hl].
Qed.

Lemma sort_insert_sorted x l :
  not_nan (key x) -> Forall (fun a => not_nan (key a)) l ->
  StronglySorted (le_key key) l ->
  StronglySorted (le_key key) (Py.sort_insert key x l).
Proof.
  intros Hx Hl Hs. induction Hs as [|y l Hs IH Hy]; cbn.
  - repeat constructor.
  - inversion Hl as [|? ? Hny Hnl]; subst.
    destruct (PrimFloat.ltb (key y) (key x)) eqn:E.
    + constructor; [apply IH; exact Hnl|].
      apply sort_insert_Forall; [|exact Hy].
      apply FloatOrder.ltb_leb, E.
    + assert (Hxy : le_key key x y)
        by (apply FloatOrder.not_ltb_leb; assumption).
      constructor; [constructor; assumption|].
      constructor; [exact Hxy|].
      eapply Forall_impl; [|exact Hy].
      intros z Hz. eapply FloatOrder.leb_trans; eassumption.
Qed.

Lemma sort_sorted l :
  Forall (fun a => not_nan (key a)) l ->
  StronglySorted (le_key key) (Py.sort key l).
Proof.
  induction l as [|x l IH]; cbn; intros Hl.
  - constructor.
  - inversion Hl; subst.
    apply sort_insert_sorted; [assumption| |apply IH; assumption].
    apply sort_Forall. assumption.
Qed.

(** Stability: the elements at one key keep their relative order. *)
Lemma sort_insert_stable p x l :
  filter (at_key key p) (Py.sort_insert key x l)
  = filter (at_key key p) (x :: l).
Proof.
  induction l as [|y l IH]; [reflexivity|].
  cbn [Py.sort_insert].
  destruct (PrimFloat.ltb (key y) (key x)) eqn:E; [|reflexivity].
  cbn [filter] in *. rewrite IH.
  destruct (at_key key p x) eqn:Ex; [|reflexivity].
  unfold at_key in *. rewrite (FloatOrder.ltb_eqb_false _ _ _ E Ex).
  reflexivity.
Qed.

Lemma sort_stable p l :
  filter (at_key key p) (Py.sort key l) = filter (at_key key p) l.
Proof.
  induction l as [|x l IH]; [reflexivity|].
  cbn [Py.sort]. rewrite sort_insert_stable. cbn [filter].
  rewrite IH. reflexivity.
Qed.
End SortFacts.

Lemma filter_map_comm {A B : Type} (f : A -> B) (q : B -> bool) l :
  filter q (map f l) = map f (filter (fun a => q (f a)) l).
Proof.
  induction l as [|a l IH]; [reflexivity|].
  cbn. destruct (q (f a)); cbn; rewrite IH; reflexivity.
Qed.

Lemma StronglySorted_map_position l :
  StronglySorted (le_key raw_top) l ->
  StronglySorted (le_key position) (map add_position l).
Proof.
  induction 1 as [|b l Hs IH Hb]; cbn; constructor.
  - exact IH.
  - apply Forall_map. exact Hb.
Qed.

(** The three inputs carry no NaN coordinate. *)
Definition tops_ordered (text_regions : list text_region)
    (tables : list table_info) (images : list img_info) : Prop :=
  Forall (fun r => not_nan (region_top r)) text_regions
  /\ Forall (fun t => not_nan (table_top t)) tables
  /\ Forall (fun i => not_nan (img_top i)) images.

Lemma all_blocks_not_nan text_regions tables images :
  tops_ordered text_regions tables images ->
  Forall (fun b => not_nan (raw_top b))
    (all_blocks text_regions tables images).
Proof.
  intros (Ht & Hb & Hi). unfold all_blocks.
  repeat (apply Forall_app; split); apply Forall_map; assumption.
Qed.

End OrdererFacts.

Import content_orderer OrdererFacts.

Definition ex_text_regions : list text_region :=
  [ {| region_top := 100%float; region_text := Py.lit "Caption" |};
    {| region_top := 20%float; region_text := Py.lit "Title" |} ].
Definition ex_tables : list table_info :=
  [ {| table_top := 100%float; table_markdown := Py.lit "| a |" |} ].
Definition ex_images : list img_info :=
  [ {| img_top := 100%float; img_image_data := Py.lit "[IMAGE_0]" |};
    {| img_top := 0%float; img_image_data := Py.lit "[IMAGE_1]" |} ].

(** C3. Where no coordinate is NaN, the output of [order_content_blocks] is
    sorted by ascending position, and for every position [p] the output
    blocks at [p] are the text fragments at [p], then the table fragments at
    [p], then the image fragments at [p], each group in its input order. *)
Theorem order_content_blocks_sorted_stable
    (text_regions : list text_region) (tables : list table_info)
    (images : list img_info) :
  tops_ordered text_regions tables images ->
  let out := order_content_blocks text_regions tables images in
  StronglySorted (le_key position) out
  /\ forall p : float,
       filter (at_key position p) out
       = map (fun r => add_position (of_text r))
           (filter (at_key region_top p) text_regions)
         ++ map (fun t => add_position (of_table t))
              (filter (at_key table_top p) tables)
         ++ map (fun i => add_position (of_image i))
              (filter (at_key img_top p) images).
Proof.
  intros Hn out. subst out. unfold order_content_blocks. split.
  - apply StronglySorted_map_position, sort_sorted, all_blocks_not_nan, Hn.
  - intros p.
    rewrite filter_map_comm.
    change (fun a => at_key position p (add_position a))
      with (at_key raw_top p).
    rewrite sort_stable. unfold all_blocks.
    rewrite !filter_app, !map_app, !filter_map_comm, !map_map.
    reflexivity.
Qed.

Lemma order_content_blocks_sorted_stable_witness :
  let out := order_content_blocks ex_text_regions ex_tables ex_images in
  StronglySorted (le_key position) out
  /\ forall p : float,
       filter (at_key position p) out
       = map (fun r => add_position (of_text r))
           (filter (at_key region_top p) ex_text_regions)
         ++ map (fun t => add_position (of_table t))
              (filter (at_key table_top p) ex_tables)
         ++ map (fun i => add_position (of_image i))
              (filter (at_key img_top p) ex_images).
Proof.
  apply (order_content_blocks_sorted_stable
           ex_text_regions ex_tables ex_images).
  repeat split; repeat constructor.
Defined.

(** The scenario of the specification: a table and a text region both at
    position 100.0 come out text first. *)
Example order_content_blocks_tie :
  map type (order_content_blocks ex_text_regions ex_tables ex_images)
  = [image; text; text; table; image].
Proof. vm_compute. reflexivity. Qed.

(** C10. [order_content_blocks] neither drops, duplicates nor alters a
    fragment: its output has as many blocks as the three inputs together and
    is a rearrangement of the blocks built from them, a text fragment giving
    a block of type [text] with its text as content and its top as position,
    and likewise for tables and images. *)
Theorem order_content_blocks_preserves
    (text_regions : list text_region) (tables : list table_info)
    (images : list img_info) :
  let out := order_content_blocks text_regions tables images in
  (List.length out
   = List.length text_regions + List.length tables + List.length images)%nat
  /\ Permutation out
       (map (fun r => {| type := text; content := region_text r;
                         image_field := None; position := region_top r |})
            text_regions
        ++ map (fun t => {| type := table; content := table_markdown t;
                            image_field := None; position := table_top t |})
             tables
        ++ map (fun i => {| type := image; content := img_image_data i;
                            image_field := None; position := img_top i |})
             images).
Proof.
  intros out. subst out. unfold order_content_blocks.
  assert (P : Permutation
                (map add_position
                   (Py.sort raw_top (all_blocks text_regions tables images)))
                (map add_position (all_blocks text_regions tables images)))
    by apply Permutation_map, sort_perm.
  split.
  - rewrite (Permutation_length P). unfold all_blocks.
    rewrite !length_map, !length_app, !length_map. lia.
  - eapply perm_trans; [exact P|].
    unfold all_blocks. rewrite !map_app, !map_map.
    apply Permutation_refl.
Qed.

(** ** [fill_merged_cells] *)

Module TableFacts.

Import table_converter.

Lemma set_item_length row k v :
  List.length (set_item row k v) = List.length row.
Proof.
  revert k. induction row as [|c row IH]; intros [|k]; cbn; auto.
Qed.

Lemma set_item_nth_same row k c v :
  nth_error row k = Some c -> nth_error (set_item row k v) k = Some v.
Proof.
  revert k. induction row as [|c' row IH]; intros [|k]; cbn;
    try discriminate; auto.
Qed.

Lemma set_item_nth_other row k j v :
  j <> k -> nth_error (set_item row k v) j = nth_error row j.
Proof.
  revert k j. induction row as [|c row IH]; intros [|k] [|j] H; cbn;
    try reflexivity; try congruence.
  apply IH. congruence.
Qed.

Lemma set_item_same row k c :
  nth_error row k = Some c -> set_item row k c = row.
Proof.
  revert k. induction row as [|c' row IH]; intros [|k]; cbn;
    try discriminate.
  - congruence.
  - intros H. rewrite IH; auto.
Qed.

(** *** One column *)

Lemma fill_column_length k v rows :
  List.length (fill_column k v rows) = List.length rows.
Proof.
  revert v. induction rows as [|row rows IH]; intros v; cbn; auto.
  destruct (nth_error row k) as [c|]; [destruct (is_empty_cell c)|];
    cbn; rewrite IH; reflexivity.
Qed.

Lemma fill_column_row_lengths k v rows :
  map (@List.length cell) (fill_column k v rows)
  = map (@List.length cell) rows.
Proof.
  revert v. induction rows as [|row rows IH]; intros v; cbn; auto.
  destruct (nth_error row k) as [c|]; [destruct (is_empty_cell c)|];
    cbn; rewrite IH, ?set_item_length; reflexivity.
Qed.

(** The cells of another column are not touched. *)
Lemma fill_column_other k j v rows :
  j <> k ->
  map (fun row => nth_error row j) (fill_column k v rows)
  = map (fun row => nth_error row j) rows.
Proof.
  intros Hj. revert v.
  induction rows as [|row rows IH]; intros v; cbn; auto.
  destruct (nth_error row k) as [c|]; [destruct (is_empty_cell c)|];
    cbn; rewrite IH, ?set_item_nth_other; auto.
Qed.

(** What the pass over one column depends on: the cells of that column. *)
Lemma fill_column_fixed_ext k v rows rows' :
  map (fun row => nth_error row k) rows
  = map (fun row => nth_error row k) rows' ->
  fill_column k v rows = rows -> fill_column k v rows' = rows'.
Proof.
  revert v rows'.
  induction rows as [|row rows IH]; intros v [|row' rows'] E H; cbn in *;
    try discriminate; auto.
  injection E as E1 E2. rewrite <- E1.
  destruct (nth_error row k) as [c|] eqn:Ec.
  - destruct (is_empty_cell c) eqn:Ee.
    + injection H as H1 H2.
      assert (Hc : c = Some (or_empty v)).
      { apply (f_equal (fun r => nth_error r k)) in H1.
        rewrite (set_item_nth_same _ _ _ _ Ec) in H1. congruence. }
      f_equal.
      * apply set_item_same. congruence.
      * eapply IH; eassumption.
    + injection H as H2. f_equal. eapply IH; eassumption.
  - injection H as H2. f_equal. eapply IH; eassumption.
Qed.

(** A value carried down a column is absent or a cell that is not
    empty. *)
Definition carried (v : cell) : Prop := v = None \/ is_empty_cell v = false.

(** A second pass over a column changes nothing. *)
Lemma fill_column_twice k v rows :
  carried v ->
  fill_column k v (fill_column k v rows) = fill_column k v rows.
Proof.
  revert v. induction rows as [|row rows IH]; intros v Hv; [reflexivity|].
  cbn [fill_column].
  destruct (nth_error row k) as [c|] eqn:Ec.
  - destruct (is_empty_cell c) eqn:Ee.
    + cbn [fill_column].
      rewrite (set_item_nth_same _ _ _ _ Ec).
      destruct Hv as [->|Hv].
      * cbn. f_equal; [|apply IH; left; reflexivity].
        apply set_item_same, (set_item_nth_same _ _ _ _ Ec).
      * destruct v as [s|]; [|discriminate Hv].
        cbn [or_empty]. rewrite Hv. f_equal. apply IH. right. exact Hv.
    + cbn [fill_column]. rewrite Ec, Ee. f_equal. apply IH. right. exact Ee.
  - cbn [fill_column]. rewrite Ec. f_equal. apply IH. exact Hv.
Qed.

(** *** All the columns *)

Definition fixed (k : nat) (rows : Table) : Prop :=
  fill_column k None rows = rows.

Lemma fixed_fill_column k j rows :
  fixed k rows -> fixed k (fill_column j None rows).
Proof.
  intros H. destruct (Nat.eq_dec j k) as [->|Hjk].
  - unfold fixed in *. rewrite H. exact H.
  - eapply fill_column_fixed_ext; [|exact H].
    symmetry. apply fill_column_other. congruence.
Qed.

Lemma fixed_fill_columns k cols rows :
  fixed k rows -> fixed k (fill_columns cols rows).
Proof.
  unfold fill_columns. revert rows.
  induction cols as [|j cols IH]; intros rows H; cbn; [exact H|].
  apply IH, fixed_fill_column, H.
Qed.

Lemma fill_columns_fixes k cols rows :
  In k cols -> fixed k (fill_columns cols rows).
Proof.
  revert rows. induction cols as [|j cols IH]; intros rows Hk;
    [destruct Hk|destruct Hk as [->|Hk]].
  - apply (fixed_fill_columns k cols). unfold fixed.
    apply fill_column_twice. left. reflexivity.
  - apply (IH (fill_column j None rows) Hk).
Qed.

Lemma fill_columns_id cols rows :
  (forall k, In k cols -> fixed k rows) -> fill_columns cols rows = rows.
Proof.
  unfold fill_columns.
  induction cols as [|j cols IH]; intros H; cbn; [reflexivity|].
  rewrite (H j (or_introl eq_refl)).
  apply IH. intros k Hk. apply H. right. exact Hk.
Qed.

Lemma fill_columns_row_lengths cols rows :
  map (@List.length cell) (fill_columns cols rows)
  = map (@List.length cell) rows.
Proof.
  unfold fill_columns. revert rows.
  induction cols as [|j cols IH]; intros rows; cbn; [reflexivity|].
  rewrite IH. apply fill_column_row_lengths.
Qed.

(** Applying the fill step twice gives what applying it once gives. *)
Lemma fill_merged_cells_idempotent (t : Table) :
  fill_merged_cells (fill_merged_cells t) = fill_merged_cells t.
Proof.
  destruct t as [|first_row rest]; [reflexivity|].
  unfold fill_merged_cells at 2.
  pose proof (fill_columns_row_lengths
                (seq 0 (List.length first_row)) (first_row :: rest)) as L.
  destruct (fill_columns _ (first_row :: rest)) as [|r rs] eqn:E;
    [discriminate L|].
  cbn in L. injection L as L _.
  unfold fill_merged_cells. rewrite L, <- E.
  apply fill_columns_id. intros k Hk. apply fill_columns_fixes, Hk.
Qed.

(** In a column the pass reaches, a cell that is not empty is kept, and
    an empty cell takes the value carried from above. *)
Definition fill_cell (last_value c : cell) : cell :=
  if is_empty_cell c then Some (or_empty last_value) else c.

Definition next_value (last_value c : cell) : cell :=
  if is_empty_cell c then last_value else c.

(** The column read top to bottom: the cells of the rows that have it. *)
Fixpoint spec_fill_cells (last_value : cell) (col : list (option cell))
    : list (option cell) :=
  match col with
  | [] => []
  | None :: col' => None :: spec_fill_cells last_value col'
  | Some c :: col' =>
      Some (fill_cell last_value c)
        :: spec_fill_cells (next_value last_value c) col'
  end.

Lemma fill_column_cells k v rows :
  map (fun row => nth_error row k) (fill_column k v rows)
  = spec_fill_cells v (map (fun row => nth_error row k) rows).
Proof.
  revert v. induction rows as [|row rows IH]; intros v; [reflexivity|].
  cbn [fill_column map].
  destruct (nth_error row k) as [c|] eqn:Ec; cbn [spec_fill_cells].
  - unfold fill_cell, next_value.
    destruct (is_empty_cell c); cbn [map]; rewrite IH.
    + rewrite (set_item_nth_same _ _ _ _ Ec). reflexivity.
    + rewrite Ec. reflexivity.
  - cbn [map]. rewrite IH, Ec. reflexivity.
Qed.

Lemma fill_columns_cells_other k cols rows :
  ~ In k cols ->
  map (fun row => nth_error row k) (fill_columns cols rows)
  = map (fun row => nth_error row k) rows.
Proof.
  unfold fill_columns. revert rows.
  induction cols as [|j cols IH]; intros rows H; cbn; [reflexivity|].
  rewrite IH by (intros Hk; apply H; right; exact Hk).
  apply fill_column_other. intros ->. apply H. left. reflexivity.
Qed.

Lemma fill_columns_cells k cols rows :
  NoDup cols -> In k cols ->
  map (fun row => nth_error row k) (fill_columns cols rows)
  = spec_fill_cells None (map (fun row => nth_error row k) rows).
Proof.
  unfold fill_columns. revert rows.
  induction cols as [|j cols IH]; intros rows Hnd Hk; [destruct Hk|].
  inversion Hnd as [|? ? Hj Hnd']; subst.
  destruct Hk as [->|Hk]; cbn.
  - change (fold_left _ cols ?r) with (fill_columns cols r).
    rewrite (fill_columns_cells_other _ _ _ Hj).
    apply fill_column_cells.
  - rewrite (IH _ Hnd' Hk). f_equal.
    apply fill_column_other. intros ->. contradiction.
Qed.

(** Every column below the width of the first row is filled from above;
    every column from that width on is returned as it came. *)
Lemma fill_merged_cells_columns (first_row : list cell) (rest : Table)
    (k : nat) :
  map (fun row => nth_error row k) (fill_merged_cells (first_row :: rest))
  = if (k <? List.length first_row)%nat
    then spec_fill_cells None
           (map (fun row => nth_error row k) (first_row :: rest))
    else map (fun row => nth_error row k) (first_row :: rest).
Proof.
  unfold fill_merged_cells.
  destruct (Nat.ltb_spec k (List.length first_row)) as [H|H].
  - apply fill_columns_cells; [apply seq_NoDup|].
    apply in_seq. lia.
  - apply fill_columns_cells_other. rewrite in_seq. lia.
Qed.

End TableFacts.

Import table_converter.

(** A table whose later rows are wider than its first row. *)
Definition ex_ragged_table : Table :=
  [ [ Some (Py.lit "a") ];
    [ Some (Py.lit "b"); Some (Py.lit "x") ];
    [ Some (Py.lit "c"); None ] ].

(** C7 (failing input). The cell under ["x"] is absent, and
    [fill_merged_cells] returns the table as it came: the second column lies
    beyond the width of the first row, so no pass visits it. *)
Theorem fill_merged_cells_skips_wide_rows :
  fill_merged_cells ex_ragged_table = ex_ragged_table
  /\ nth_error (nth 2 (fill_merged_cells ex_ragged_table) []) 1 = Some None
  /\ nth_error (nth 1 ex_ragged_table []) 1 = Some (Some (Py.lit "x")).
Proof. vm_compute. repeat split. Qed.

(** ** [calculate_suggested_ranges] *)

Module RangeFacts.

Import Py (result, Ok, Raises, OutOfFuel).
Import config validators.

Lemma range_nil lo hi : hi <= lo -> Py.range lo hi = [].
Proof.
  intros H. unfold Py.range.
  replace (Z.to_nat (hi - lo)) with O by lia. reflexivity.
Qed.

Lemma range_cons lo hi : lo < hi -> Py.range lo hi = lo :: Py.range (lo + 1) hi.
Proof.
  intros H. unfold Py.range.
  replace (Z.to_nat (hi - lo)) with (S (Z.to_nat (hi - (lo + 1)))) by lia.
  cbn [seq map]. f_equal; [lia|].
  rewrite <- seq_shift, map_map.
  apply map_ext. intros k. lia.
Qed.

Lemma index_in_range {A : Type} (l : list A) (i : Z) :
  0 <= i < Z.of_nat (List.length l) -> exists a, Py.index l i = Some a.
Proof.
  intros H. unfold Py.index.
  replace ((0 <=? i) && (i <? Z.of_nat (List.length l))) with true
    by (symmetry; apply andb_true_iff; lia).
  destruct (nth_error l (Z.to_nat i)) as [a|] eqn:E; [eauto|].
  apply nth_error_None in E. lia.
Qed.

(** *** The scan of one candidate range *)

(** Once the first page of a range has been taken, the scan stops at a
    page between the one it has reached and the candidate end, and an
    image total that starts within the limit stays within it. *)
Lemma scan_pages_rest doc current_start max_images n :
  forall q hi current_images,
    Z.to_nat (hi - q) = n ->
    current_start <= q -> 0 <= q ->
    exists ci fe,
      scan_pages doc current_start max_images (Py.range q hi)
        current_images q = Ok (ci, fe)
      /\ q <= fe <= Z.max q hi
      /\ (current_images <= max_images -> ci <= max_images).
Proof.
  induction n as [|n IH]; intros q hi ci Hn Hq H0.
  - rewrite range_nil by lia. cbn. exists ci, q. repeat split; lia.
  - rewrite range_cons by lia. cbn [scan_pages].
    destruct (q >=? Z.of_nat (List.length doc)) eqn:Et.
    + exists ci, q. repeat split; lia.
    + destruct (index_in_range doc q) as [pg ->]; [lia|].
      cbv zeta.
      destruct (ci + Z.of_nat (List.length (images pg)) >? max_images)
        eqn:Ei.
      * replace (q =? current_start - 1) with false
          by (symmetry; apply Z.eqb_neq; lia).
        exists ci, q. repeat split; lia.
      * destruct (IH (q + 1) hi
                    (ci + Z.of_nat (List.length (images pg))))
          as (ci' & fe & E & B1 & B2); try lia.
        exists ci', fe. repeat split; try lia. exact E.
Qed.

(** The scan of a whole candidate range [current_start .. current_end]:
    it ends on a page from [current_start] on, and its image total is within
    the limit unless the range is the single page [current_start]. *)
Lemma scan_pages_first doc current_start current_end max_images :
  1 <= current_start ->
  exists ci fe,
    scan_pages doc current_start max_images
      (Py.range (current_start - 1) current_end) 0 current_start
    = Ok (ci, fe)
    /\ current_start <= fe <= Z.max current_start current_end
    /\ (0 <= max_images -> ci <= max_images \/ fe = current_start).
Proof.
  intros Hs.
  destruct (Z_lt_le_dec (current_start - 1) current_end) as [Hlt|Hge].
  - rewrite range_cons by lia. cbn [scan_pages].
    destruct (current_start - 1 >=? Z.of_nat (List.length doc)) eqn:Et.
    + exists 0, current_start. repeat split; lia.
    + destruct (index_in_range doc (current_start - 1)) as [pg ->]; [lia|].
      cbv zeta. rewrite Z.eqb_refl.
      destruct (0 + Z.of_nat (List.length (images pg)) >? max_images)
        eqn:Ei.
      * eexists _, _. split; [reflexivity|]. repeat split; lia.
      * replace (current_start - 1 + 1) with current_start by lia.
        destruct (scan_pages_rest doc current_start max_images
                    (Z.to_nat (current_end - current_start))
                    current_start current_end
                    (0 + Z.of_nat (List.length (images pg))))
          as (ci & fe & E & B1 & B2); try lia.
        exists ci, fe. repeat split; try lia. exact E.
  - rewrite range_nil by lia. cbn.
    exists 0, current_start. repeat split; lia.
Qed.

(** *** The emitted sequence *)

(** The ranges follow one another from page [s]: the first starts at
    [s], each spans at least one page, and each next one starts on the
    page after the end of the one before. *)
Fixpoint contiguous_from (s : Z) (ranges : list SuggestedRange) : Prop :=
  match ranges with
  | [] => True
  | r :: rest =>
      start_page r = s /\ start_page r <= end_page r
      /\ contiguous_from (end_page r + 1) rest
  end.

(** The page after the last range of a sequence that starts at [s]. *)
Definition next_start (s : Z) (ranges : list SuggestedRange) : Z :=
  fold_left (fun _ r => end_page r + 1) ranges s.

(** A range has the page count of its span, within the page limit, and
    either keeps to the image limit or is a single page. *)
Definition within_limits (max_pages max_images : Z) (r : SuggestedRange)
    : Prop :=
  page_count r = end_page r - start_page r + 1
  /\ page_count r <= max_pages
  /\ (estimated_images r <= max_images \/ page_count r = 1).

Lemma contiguous_from_snoc s ranges r :
  contiguous_from s ranges ->
  start_page r = next_start s ranges -> start_page r <= end_page r ->
  contiguous_from s (ranges ++ [r]).
Proof.
  unfold next_start. revert s.
  induction ranges as [|r0 ranges IH]; intros s H Hs Hr; cbn in *.
  - auto.
  - destruct H as (H1 & H2 & H3). auto.
Qed.

Lemma next_start_snoc s ranges r :
  next_start s (ranges ++ [r]) = end_page r + 1.
Proof. unfold next_start. rewrite fold_left_app. reflexivity. Qed.

Lemma ranges_loop_spec cfg doc end_page max_pages max_images s fuel :
  forall current_start ranges,
    1 <= current_start ->
    (Z.to_nat (end_page + 1 - current_start) <= fuel)%nat ->
    contiguous_from s ranges ->
    next_start s ranges = current_start ->
    exists out,
      ranges_loop fuel cfg doc end_page max_pages max_images
        current_start ranges = Ok out
      /\ contiguous_from s out
      /\ (1 <= max_pages -> 0 <= max_images ->
          Forall (within_limits max_pages max_images) ranges ->
          Forall (within_limits max_pages max_images) out).
Proof.
  induction fuel as [|fuel IH]; intros cs ranges Hcs Hf Hc Hn.
  - cbn [ranges_loop].
    destruct (cs <=? end_page) eqn:E; [apply Z.leb_le in E; lia|].
    cbn. eauto.
  - cbn [ranges_loop].
    destruct ((cs <=? end_page)
              && (Z.of_nat (List.length ranges) <? max_suggested_ranges cfg))
      eqn:E; [|eauto].
    apply andb_true_iff in E. destruct E as [E _]. apply Z.leb_le in E.
    cbv zeta.
    destruct (scan_pages_first doc cs
                (Z.min (cs + max_pages - 1) end_page) max_images Hcs)
      as (ci & fe & -> & B1 & B2).
    replace (fe >=? cs) with true by (symmetry; apply Z.geb_le; lia).
    match goal with
    | |- context [ranges_loop fuel _ _ _ _ _ _ ?rs] =>
        destruct (IH (fe + 1) rs) as (out & Eo & Co & Lo)
    end.
    + lia.
    + lia.
    + apply contiguous_from_snoc; cbn; [exact Hc|lia|lia].
    + apply next_start_snoc.
    + exists out. split; [exact Eo|]. split; [exact Co|].
      intros Hp Hm Hl. apply Lo; try assumption.
      apply Forall_app. split; [exact Hl|].
      constructor; [|constructor].
      unfold within_limits. cbn. specialize (B2 Hm). repeat split; lia.
Qed.

(** For a 1-indexed start page the loop always ends with a result. *)
Lemma calculate_suggested_ranges_total cfg doc start_page end_page
    max_pages max_images :
  1 <= start_page ->
  exists ranges,
    calculate_suggested_ranges cfg doc start_page end_page
      max_pages max_images = Ok ranges.
Proof.
  intros Hs. unfold calculate_suggested_ranges.
  destruct (ranges_loop_spec cfg doc end_page max_pages max_images
              start_page (Z.to_nat (end_page - start_page + 1))
              start_page []) as (out & E & _); try assumption.
  - lia.
  - exact I.
  - reflexivity.
  - exists out. exact E.
Qed.

(** *** Termination for every input *)

Lemma range_lower lo hi : Forall (fun q => lo <= q) (Py.range lo hi).
Proof.
  unfold Py.range. apply Forall_map, Forall_forall. intros k _. lia.
Qed.

Lemma scan_pages_final doc current_start max_images :
  forall page_nums ci fe ci' fe',
    Forall (fun q => current_start - 1 <= q) page_nums ->
    current_start <= fe ->
    scan_pages doc current_start max_images page_nums ci fe = Ok (ci', fe') ->
    current_start <= fe'.
Proof.
  induction page_nums as [|q rest IH]; intros ci fe ci' fe' Hq Hfe H;
    cbn [scan_pages] in H.
  - injection H as _ <-. exact Hfe.
  - inversion Hq as [|? ? Hq1 Hq2]; subst.
    destruct (q >=? Z.of_nat (List.length doc));
      [injection H as _ <-; exact Hfe|].
    destruct (Py.index doc q) as [pg|]; [|discriminate H].
    cbv zeta in H.
    destruct (_ >? max_images).
    + destruct (q =? current_start - 1) eqn:E.
      * injection H as _ <-. apply Z.eqb_eq in E. lia.
      * injection H as _ <-. apply Z.eqb_neq in E. lia.
    + apply IH in H; [exact H|exact Hq2|lia].
Qed.

Lemma scan_pages_not_out_of_fuel doc current_start max_images :
  forall page_nums ci fe,
    scan_pages doc current_start max_images page_nums ci fe <> OutOfFuel.
Proof.
  induction page_nums as [|q rest IH]; intros ci fe; cbn [scan_pages];
    [discriminate|].
  destruct (q >=? Z.of_nat (List.length doc)); [discriminate|].
  destruct (Py.index doc q) as [pg|]; [|discriminate].
  cbv zeta. destruct (_ >? max_images); [|apply IH].
  destruct (q =? current_start - 1); discriminate.
Qed.

Lemma ranges_loop_not_out_of_fuel cfg doc end_page max_pages max_images fuel :
  forall current_start ranges,
    (Z.to_nat (end_page + 1 - current_start) <= fuel)%nat ->
    ranges_loop fuel cfg doc end_page max_pages max_images
      current_start ranges <> OutOfFuel.
Proof.
  induction fuel as [|fuel IH]; intros cs ranges Hf; cbn [ranges_loop].
  - destruct (cs <=? end_page) eqn:E; [apply Z.leb_le in E; lia|].
    cbn. discriminate.
  - destruct ((cs <=? end_page) && _) eqn:E; [|discriminate].
    apply andb_true_iff in E. destruct E as [E _]. apply Z.leb_le in E.
    cbv zeta.
    destruct (scan_pages doc cs max_images _ 0 cs) as [[ci fe]|e|] eqn:Es.
    + apply scan_pages_final in Es; [|apply range_lower|lia].
      apply IH. lia.
    + discriminate.
    + destruct (scan_pages_not_out_of_fuel _ _ _ _ _ _ Es).
Qed.

(** [calculate_suggested_ranges] ends for every input: with its ranges, or
    with the [IndexError] of a page index below the first page. *)
Lemma calculate_suggested_ranges_terminates cfg doc start_page end_page
    max_pages max_images :
  calculate_suggested_ranges cfg doc start_page end_page max_pages max_images
  <> OutOfFuel.
Proof.
  unfold calculate_suggested_ranges.
  apply ranges_loop_not_out_of_fuel. lia.
Qed.

End RangeFacts.

Import Py (result, Ok, Raises, OutOfFuel).
Import config validators RangeFacts.

(** C1 (as amended). For a 1-indexed start page, [start_page <= end_page],
    [max_pages >= 1] and [max_images >= 0], [calculate_suggested_ranges]
    returns a sequence of ranges that follow one another without gap or
    overlap from [start_page]; every range has at most [max_pages] pages,
    and every range either has at most [max_images] images or is a single
    page. *)
Theorem calculate_suggested_ranges_spec (cfg : Config) (doc : pdf)
    (start_page end_page max_pages max_images : Z) :
  1 <= start_page -> start_page <= end_page ->
  1 <= max_pages -> 0 <= max_images ->
  exists ranges,
    calculate_suggested_ranges cfg doc start_page end_page
      max_pages max_images = Ok ranges
    /\ contiguous_from start_page ranges
    /\ Forall (within_limits max_pages max_images) ranges.
Proof.
  intros Hs He Hp Hm. unfold calculate_suggested_ranges.
  destruct (ranges_loop_spec cfg doc end_page max_pages max_images
              start_page (Z.to_nat (end_page - start_page + 1))
              start_page []) as (out & E & C & L); try assumption.
  - lia.
  - exact I.
  - reflexivity.
  - exists out. split; [exact E|]. split; [exact C|].
    apply L; try assumption. constructor.
Qed.

(** A document of three pages, each with two images. *)
Definition ex_dense_doc : pdf :=
  let two := {| images := [Py.lit "/Im0"; Py.lit "/Im1"] |} in
  [two; two; two].

Lemma calculate_suggested_ranges_spec_witness :
  exists ranges,
    calculate_suggested_ranges config.default ex_dense_doc 1 3 2 1 = Ok ranges
    /\ contiguous_from 1 ranges
    /\ Forall (within_limits 2 1) ranges.
Proof.
  apply (calculate_suggested_ranges_spec config.default ex_dense_doc 1 3 2 1);
    lia.
Defined.

(** C1 (counterexample). With at most one image per range allowed, the
    three pages of [ex_dense_doc] come out as three one-page ranges, each
    of them over the image limit: more than one range is degenerate. *)
Lemma calculate_suggested_ranges_many_degenerate :
  let over r := estimated_images r >? 1 in
  exists ranges,
    calculate_suggested_ranges config.default ex_dense_doc 1 3 2 1 = Ok ranges
    /\ map start_page ranges = [1; 2; 3]
    /\ map end_page ranges = [1; 2; 3]
    /\ (List.length (filter over ranges) = 3)%nat.
Proof. eexists. vm_compute. repeat split. Qed.

(** ** [validate_pdf_read_request] *)

Module ValidateFacts.

Import Py (result, Ok, Raises, OutOfFuel).
Import config validators.

(** [check_limits] reports a limit or accepts; it never reports a page
    range error. *)
Lemma check_limits_error cfg doc start_page actual_end r :
  check_limits cfg doc start_page actual_end = Ok r ->
  error r = Some PAGE_LIMIT_EXCEEDED
  \/ error r = Some IMAGE_LIMIT_EXCEEDED
  \/ (error r = None /\ valid r = true).
Proof.
  unfold check_limits. cbv zeta.
  destruct (_ >? max_pages_per_request cfg).
  - destruct (calculate_suggested_ranges _ _ _ _ _ _); try discriminate.
    intros [= <-]. auto.
  - destruct (count_images _ _ _) as [n| |]; try discriminate.
    destruct (n >? _).
    + destruct (calculate_suggested_ranges _ _ _ _ _ _); try discriminate.
      intros [= <-]. auto.
    + intros [= <-]. auto.
Qed.


(** A request that is acceptable as a page range goes on to the limit
    checks, with the clamped end. *)
Lemma validate_opened_in_range cfg doc start_page end_page :
  start_page <= Z.of_nat (List.length doc) ->
  match end_page with
  | None => True
  | Some e => start_page <= e
  end ->
  validate_opened cfg doc start_page end_page
  = check_limits cfg doc start_page
      (actual_end end_page (Z.of_nat (List.length doc))).
Proof.
  intros Hs He. unfold validate_opened. cbv zeta.
  replace (start_page >? Z.of_nat (List.length doc)) with false
    by (symmetry; rewrite Z.gtb_ltb; apply Z.ltb_ge; exact Hs).
  destruct end_page as [e|]; [|reflexivity].
  replace (e <? start_page) with false
    by (symmetry; apply Z.ltb_ge; exact He).
  reflexivity.
Qed.

Lemma count_images_not_out_of_fuel doc page_nums total_images :
  count_images doc page_nums total_images <> OutOfFuel.
Proof.
  revert total_images.
  induction page_nums as [|q rest IH]; intros n; cbn; [discriminate|].
  destruct (q >=? _); [discriminate|].
  destruct (Py.index doc q); [apply IH|discriminate].
Qed.

(** The validator answers every request. *)
Lemma validate_pdf_read_request_answers cfg pikepdf_open pdf_path
    start_page end_page :
  exists validation,
    validate_pdf_read_request cfg pikepdf_open pdf_path start_page end_page
    = Ok validation.
Proof.
  unfold validate_pdf_read_request.
  destruct (pikepdf_open pdf_path) as [doc|e]; [|eauto].
  assert (C : forall a, check_limits cfg doc start_page a <> OutOfFuel).
  { intros a. unfold check_limits. cbv zeta.
    pose proof (RangeFacts.calculate_suggested_ranges_terminates cfg doc
                  start_page a (max_pages_per_request cfg)
                  (max_images_per_request cfg)) as T.
    destruct (_ >? max_pages_per_request cfg).
    - destruct (calculate_suggested_ranges _ _ _ _ _ _);
        [discriminate|discriminate|congruence].
    - destruct (count_images _ _ _) as [n|x|] eqn:Ec;
        [|discriminate|destruct (count_images_not_out_of_fuel _ _ _ Ec)].
      destruct (n >? _); [|discriminate].
      destruct (calculate_suggested_ranges _ _ _ _ _ _);
        [discriminate|discriminate|congruence]. }
  destruct (validate_opened cfg doc start_page end_page) as [r|x|] eqn:E;
    [eauto|eauto|].
  exfalso. revert E. unfold validate_opened. cbv zeta.
  destruct (_ >? _); [discriminate|].
  destruct end_page as [e|]; [destruct (e <? start_page)|];
    try discriminate; apply C.
Qed.

End ValidateFacts.

Import ValidateFacts.

(** The request is acceptable as a page range: the start page is in the
    document, and an explicit end page is not before it. *)
Definition range_acceptable (doc : pdf) (start_page : Z)
    (end_page : option Z) : Prop :=
  start_page <= Z.of_nat (List.length doc)
  /\ match end_page with
     | None => True
     | Some e => start_page <= e
     end.


(** The scenario of the specification: a document of 15 pages without
    images, and a limit of five pages in the second configuration. *)
Definition ex_doc_15 : pdf := repeat {| images := [] |} 15.



(** ** [is_text_corrupted] *)

Import text_validator.

(** C6 (as amended). The corruption ratio [is_text_corrupted] returns for a
    text does not depend on the threshold, whether given or taken from the
    configuration; and for thresholds [t1 <= t2], a text classified clean
    at [t1] is classified clean at [t2]: raising the threshold never turns
    a clean text into a corrupted one. *)
Theorem is_text_corrupted_threshold (decimal : Z -> bool)
    (cfg cfg' : Config) (text : Py.str) :
  (forall threshold threshold' : option float,
     snd (is_text_corrupted decimal cfg text threshold)
     = snd (is_text_corrupted decimal cfg' text threshold'))
  /\ (forall t1 t2 : float,
        PrimFloat.leb t1 t2 = true ->
        fst (is_text_corrupted decimal cfg text (Some t1)) = false ->
        fst (is_text_corrupted decimal cfg text (Some t2)) = false).
Proof.
  split.
  - intros threshold threshold'. unfold is_text_corrupted, ratio_fallback.
    cbv zeta.
    repeat match goal with
           | |- context [if ?c then _ else _] => destruct c; try reflexivity
           end.
  - intros t1 t2 Hle. unfold is_text_corrupted, ratio_fallback. cbv zeta.
    repeat match goal with
           | |- context [if ?c then _ else _] =>
               destruct c; try (intros; assumption)
           end.
    cbn [fst].
    match goal with
    | |- PrimFloat.ltb t1 ?r = false -> PrimFloat.ltb t2 ?r = false =>
        intros H1; destruct (PrimFloat.ltb t2 r) eqn:H2; [|reflexivity];
        rewrite (FloatOrder.leb_ltb_trans _ _ _ Hle H2) in H1; discriminate
    end.
Qed.

Lemma is_text_corrupted_threshold_witness :
  PrimFloat.leb 0.6%float 0.7%float = true
  /\ fst (is_text_corrupted ascii_decimal config.default (Py.lit "a#b$")
            (Some 0.6%float)) = false
  /\ fst (is_text_corrupted ascii_decimal config.default (Py.lit "a#b$")
            (Some 0.7%float)) = false.
Proof.
  assert (L : PrimFloat.leb 0.6%float 0.7%float = true) by reflexivity.
  assert (C : fst (is_text_corrupted ascii_decimal config.default
                     (Py.lit "a#b$") (Some 0.6%float)) = false)
    by (vm_compute; reflexivity).
  split; [exact L|]. split; [exact C|].
  exact (proj2 (is_text_corrupted_threshold ascii_decimal config.default
                  config.default (Py.lit "a#b$"))
           0.6%float 0.7%float L C).
Defined.

(** C6 (counterexample). Two of the four characters of the sample are
    suspicious, so its ratio is 0.5 at the ratio fallback: the sample is
    corrupted at threshold 0.3 and clean at threshold 0.7.  Raising the
    threshold did turn a corrupted classification into a clean one. *)
Lemma is_text_corrupted_flips_to_clean :
  PrimFloat.leb 0.3%float 0.7%float = true
  /\ is_text_corrupted ascii_decimal config.default (Py.lit "a#b$")
       (Some 0.3%float) = (true, 0.5%float)
  /\ is_text_corrupted ascii_decimal config.default (Py.lit "a#b$")
       (Some 0.7%float) = (false, 0.5%float)
  /\ ratio_fallback (Py.lit "a#b$") 0.3%float = (true, 0.5%float)
  /\ ratio_fallback (Py.lit "a#b$") 0.7%float = (false, 0.5%float).
Proof. vm_compute. repeat split. Qed.

(** ** The page pipeline *)

Module PageFacts.

Import content_orderer pdf_tools.

(** The number of warnings the parser diagnostics count for a page. *)
Definition warning_count (page : page_source) : Z :=
  snd (text_validator.check_pdf_corruption_with_pdfminer
         (pdfminer_stderr page)).

Lemma detect_corruption_positive decimal cfg page page_num text :
  3 <= warning_count page ->
  detect_corruption decimal cfg page page_num text
  = ([PdfminerCheck page_num],
     (true, Py.truediv (warning_count page) 10)).
Proof.
  unfold detect_corruption, warning_count,
    text_validator.check_pdf_corruption_with_pdfminer.
  cbn [snd]. intros H.
  replace (_ >=? 3) with true by (symmetry; apply Z.geb_le; lia).
  reflexivity.
Qed.

Lemma detect_corruption_clean decimal cfg page page_num text :
  warning_count page < 3 ->
  detect_corruption decimal cfg page page_num text
  = ([PdfminerCheck page_num; CharacterHeuristic page_num],
     text_validator.is_text_corrupted decimal cfg text None).
Proof.
  unfold detect_corruption, warning_count,
    text_validator.check_pdf_corruption_with_pdfminer.
  cbn [snd]. intros H.
  replace (_ >=? 3) with false
    by (symmetry; rewrite Z.geb_leb; apply Z.leb_gt; lia).
  reflexivity.
Qed.

(** The calls of the text and table step are table and text calls. *)
Lemma extract_text_and_tables_events page page_num :
  forall e, In e (fst (fst (fst (extract_text_and_tables page page_num)))) ->
            e = ExtractTables page_num \/ e = FindTables page_num
            \/ e = ExtractTextRegions page_num.
Proof.
  unfold extract_text_and_tables.
  destruct (extract_tables page); cbn; intros e H;
    repeat (destruct H as [H|H]; [subst; auto|]); destruct H.
Qed.

Lemma render_page_image_events input page page_num st :
  fst (fst (fst (fst (render_page_image input page page_num st))))
  = [RenderPage page_num].
Proof. unfold render_page_image. destruct (render page input); reflexivity. Qed.

Lemma render_page_image_present input page page_num st :
  render page input <> None ->
  snd (fst (fst (fst (render_page_image input page page_num st)))) <> None.
Proof.
  unfold render_page_image. destruct (render page input); cbn; congruence.
Qed.

Lemma to_content_blocks_skip decimal ordered_blocks :
  Forall (fun b => schemas.type b = image)
    (to_content_blocks decimal true ordered_blocks).
Proof.
  unfold to_content_blocks. apply Forall_map.
  induction ordered_blocks as [|b l IH]; cbn; [constructor|].
  destruct (type b) eqn:E; cbn; try exact IH.
  constructor; [exact E|exact IH].
Qed.

(** The calls, the text checked and the detection of a page in a text
    mode. *)
Definition text_events (page : page_source) (page_num : Z) : list event :=
  fst (fst (fst (extract_text_and_tables page page_num))).

Definition checked_text (page : page_source) (page_num : Z) : Py.str :=
  all_text_for_check
    (snd (extract_text_and_tables page page_num))
    (snd (fst (fst (extract_text_and_tables page page_num)))).

Definition detection (decimal : Z -> bool) (cfg : config.Config)
    (page : page_source) (page_num : Z) : list event * (bool * float) :=
  detect_corruption decimal cfg page page_num (checked_text page page_num).

(** In a text mode the page is processed in four steps: text and tables,
    detection, the page image (in [auto], exactly when the detection is
    positive), the embedded images. *)
Lemma process_page_text_mode decimal cfg input pike_pdf page page_num st :
  schemas.extraction_mode input <> schemas.image_only ->
  let r := process_page decimal cfg input pike_pdf page page_num st in
  let d := detection decimal cfg page page_num in
  exists ev3 ev4,
    events r = text_events page page_num ++ fst d ++ ev3 ++ ev4
    /\ schemas.text_corrupted (page_data r)
       = (if fst (snd d) then Some true else None)
    /\ schemas.corruption_ratio (page_data r)
       = (if fst (snd d) then Some (snd (snd d)) else None)
    /\ (ev4 = [] \/ ev4 = [ExtractImages page_num])
    /\ (ev3 = [RenderPage page_num]
        /\ schemas.extraction_mode input = schemas.auto
        /\ fst (snd d) = true
        /\ (render page input <> None ->
            schemas.page_image (page_data r) <> None)
        \/ ev3 = []
           /\ schemas.page_image (page_data r) = None
           /\ (schemas.extraction_mode input = schemas.auto ->
               fst (snd d) = false)).
Proof.
  intros Hm r d. subst r d.
  unfold detection, checked_text, text_events, process_page.
  destruct (schemas.extraction_mode input) eqn:Em; [| |congruence];
    cbv beta iota zeta;
    destruct (extract_text_and_tables page page_num)
      as [[[ev1 twp] tl] ft];
    cbn [fst snd];
    destruct (detect_corruption decimal cfg page page_num
                (all_text_for_check ft twp)) as [ev2 [tc ratio]];
    cbn [fst snd].
  - (* auto *)
    destruct tc.
    + pose proof (render_page_image_events input page page_num st) as Hr.
      pose proof (render_page_image_present input page page_num st) as Hp.
      destruct (render_page_image input page page_num st)
        as [[[[ev3 pimg] w] h] st1].
      cbn [fst snd] in Hr, Hp. subst ev3.
      destruct pike_pdf; cbn [negb andb];
        unfold extract_embedded_images; cbv beta iota zeta; cbn [events page_data
          schemas.text_corrupted schemas.corruption_ratio schemas.page_image];
        eexists _, _; (split; [reflexivity|]);
        (split; [reflexivity|]); (split; [reflexivity|]);
        (split; [auto|]); left; auto.
    + destruct pike_pdf; cbn [negb andb];
        unfold extract_embedded_images; cbv beta iota zeta; cbn [events page_data
          schemas.text_corrupted schemas.corruption_ratio schemas.page_image];
        eexists _, _; (split; [reflexivity|]);
        (split; [reflexivity|]); (split; [reflexivity|]);
        (split; [auto|]); right; auto.
  - (* text_only *)
    cbn [negb andb events page_data schemas.text_corrupted
           schemas.corruption_ratio schemas.page_image].
    exists [], []. split; [reflexivity|].
    destruct tc; repeat split; auto; right; repeat split; auto;
      discriminate.
Qed.

Lemma text_events_kind page page_num e :
  In e (text_events page page_num) ->
  e = ExtractTables page_num \/ e = FindTables page_num
  \/ e = ExtractTextRegions page_num.
Proof. apply extract_text_and_tables_events. Qed.

(** The content blocks of a page of [auto] mode found corrupted. *)
Lemma process_page_auto_blocks decimal cfg input pike_pdf page page_num st :
  schemas.extraction_mode input = schemas.auto ->
  let r := process_page decimal cfg input pike_pdf page page_num st in
  schemas.text_corrupted (page_data r) = Some true ->
  Forall (fun b => schemas.type b = image)
    (schemas.content_blocks (page_data r)).
Proof.
  intros Hm r. subst r. unfold process_page. rewrite Hm.
  cbv beta iota zeta.
  destruct (extract_text_and_tables page page_num) as [[[ev1 twp] tl] ft].
  destruct (detect_corruption decimal cfg page page_num
              (all_text_for_check ft twp)) as [ev2 [tc ratio]].
  destruct tc.
  - destruct (render_page_image input page page_num st)
      as [[[[ev3 pimg] w] h] st1].
    destruct (negb false && pike_pdf);
      [destruct (extract_embedded_images input page page_num st1)
         as [[ev4 iwp] st2]|];
      cbn [page_data schemas.content_blocks];
      intros _; apply to_content_blocks_skip.
  - destruct (negb false && pike_pdf);
      [destruct (extract_embedded_images input page page_num st)
         as [[ev4 iwp] st2]|];
      cbn [page_data schemas.text_corrupted]; discriminate.
Qed.











End PageFacts.


Import pdf_tools PageFacts.

(** A request in [auto] mode for the file [doc.pdf]. *)
Definition ex_arguments : schemas.arguments :=
  {| schemas.arg_file_path := Some (Py.lit "doc.pdf");
     schemas.arg_start_page := None;
     schemas.arg_end_page := None;
     schemas.arg_filter_header_footer := None;
     schemas.arg_crop_images := None;
     schemas.arg_max_image_dimension := None;
     schemas.arg_extraction_mode := None;
     schemas.arg_page_image_dpi := None |}.

Definition ex_input : schemas.ReadPDFInput :=
  {| schemas.file_path := Py.lit "doc.pdf";
     schemas.start_page := 1;
     schemas.end_page := None;
     schemas.filter_header_footer := true;
     schemas.crop_images := true;
     schemas.max_image_dimension := 842;
     schemas.extraction_mode := schemas.auto;
     schemas.page_image_dpi := 100 |}.

(** A page with one text region, one embedded image, and three parser
    warnings. *)
Definition ex_page_damaged : page_source :=
  {| plumber_page :=
       {| text_extractor.extract_text := Some (Py.lit "Annual report");
          text_extractor.within_bbox_text := fun _ => None;
          text_extractor.width := 595%float;
          text_extractor.height := 842%float |};
     extract_tables := [];
     find_tables := [];
     pdfminer_stderr :=
       Py.lit "Ignoring wrong pointing object 1 0 (offset 0)"
       ++ [10] ++ Py.lit "Ignoring wrong pointing object 2 0 (offset 0)"
       ++ [10] ++ Py.lit "Ignoring wrong pointing object 3 0 (offset 0)";
     render := fun _ =>
       Some {| jpeg_data := Py.lit "JFIF";
               pdf_tools.width := 826; pdf_tools.height := 1169 |};
     extract_images := fun _ =>
       [ {| png_data := Py.lit "PNG"; top := 300%float |} ] |}.

(** The same page without parser warnings. *)
Definition ex_page_sound : page_source :=
  {| plumber_page := plumber_page ex_page_damaged;
     extract_tables := [];
     find_tables := [];
     pdfminer_stderr := [];
     render := render ex_page_damaged;
     extract_images := extract_images ex_page_damaged |}.

Definition ex_state : state :=
  {| image_index := 0; total_images_count := 0; extracted_images := [] |}.





(** C5. For a page processed in a text-extracting mode ([auto] or
    [text_only]): with three or more parser warnings the page is marked
    corrupted with ratio [warning_count / 10] and the character heuristic
    is not called; the heuristic is called only for a page with fewer than
    three warnings, after the parser-diagnostic check, and then decides. *)
Theorem parser_diagnostic_takes_precedence (decimal : Z -> bool)
    (cfg : config.Config) (input : schemas.ReadPDFInput) (pike_pdf : bool)
    (page : page_source) (page_num : Z) (st : state) :
  schemas.extraction_mode input <> schemas.image_only ->
  let r := process_page decimal cfg input pike_pdf page page_num st in
  (3 <= warning_count page ->
   schemas.text_corrupted (page_data r) = Some true
   /\ schemas.corruption_ratio (page_data r)
      = Some (Py.truediv (warning_count page) 10)
   /\ forall n, ~ In (CharacterHeuristic n) (events r))
  /\ (forall n, In (CharacterHeuristic n) (events r) ->
                warning_count page < 3)
  /\ (warning_count page < 3 ->
      schemas.text_corrupted (page_data r)
      = (if fst (text_validator.is_text_corrupted decimal cfg
                   (checked_text page page_num) None)
         then Some true else None)
      /\ exists before after,
           events r
           = before ++ PdfminerCheck page_num
               :: CharacterHeuristic page_num :: after
           /\ forall n, ~ In (CharacterHeuristic n) (before ++ after)).
Proof.
  intros Hn r.
  destruct (process_page_text_mode decimal cfg input pike_pdf page page_num
              st Hn) as (ev3 & ev4 & He & Hc & Hq & H4 & H3).
  fold r in He, Hc, Hq.
  assert (T : forall n, ~ In (CharacterHeuristic n) (text_events page page_num)).
  { intros n H. apply text_events_kind in H.
    destruct H as [H|[H|H]]; discriminate H. }
  assert (R : forall n, ~ In (CharacterHeuristic n) (ev3 ++ ev4)).
  { intros n H. apply in_app_iff in H. destruct H as [H|H].
    - destruct H3 as [(-> & _)|(-> & _)]; [|destruct H].
      destruct H as [H|[]]. discriminate H.
    - destruct H4 as [->| ->]; [destruct H|].
      destruct H as [H|[]]. discriminate H. }
  assert (P : 3 <= warning_count page ->
              schemas.text_corrupted (page_data r) = Some true
              /\ schemas.corruption_ratio (page_data r)
                 = Some (Py.truediv (warning_count page) 10)
              /\ forall n, ~ In (CharacterHeuristic n) (events r)).
  { intros Hw. unfold detection in He, Hc, Hq.
    rewrite (detect_corruption_positive _ _ _ _ _ Hw) in He, Hc, Hq.
    cbn [fst snd] in He, Hc, Hq.
    repeat split; [exact Hc|exact Hq|].
    intros n. rewrite He, !in_app_iff. intros [H|[H|H]].
    - exact (T n H).
    - destruct H as [H|[]]. discriminate H.
    - apply (R n), in_app_iff, H. }
  split; [exact P|]. split.
  - intros n Hin.
    destruct (Z_lt_le_dec (warning_count page) 3) as [Hw|Hw]; [exact Hw|].
    destruct (P Hw) as (_ & _ & Hno). destruct (Hno n Hin).
  - intros Hw. unfold detection in He, Hc.
    rewrite (detect_corruption_clean _ _ _ _ _ Hw) in He, Hc.
    cbn [fst snd] in He, Hc. split; [exact Hc|].
    exists (text_events page page_num), (ev3 ++ ev4).
    split; [rewrite He; reflexivity|].
    intros n H. apply in_app_iff in H. destruct H as [H|H].
    + exact (T n H).
    + exact (R n H).
Qed.

Lemma parser_diagnostic_takes_precedence_witness :
  let r := process_page text_validator.ascii_decimal config.default ex_input
             true ex_page_damaged 1 ex_state in
  warning_count ex_page_damaged = 3
  /\ schemas.text_corrupted (page_data r) = Some true
  /\ schemas.corruption_ratio (page_data r) = Some (Py.truediv 3 10)
  /\ forall n, ~ In (CharacterHeuristic n) (events r).
Proof.
  assert (M : schemas.extraction_mode ex_input <> schemas.image_only)
    by discriminate.
  assert (W : 3 <= warning_count ex_page_damaged)
    by (vm_compute; discriminate).
  intros r. split; [vm_compute; reflexivity|].
  exact (proj1 (parser_diagnostic_takes_precedence
                  text_validator.ascii_decimal config.default ex_input true
                  ex_page_damaged 1 ex_state M) W).
Defined.

(** The same page without warnings goes to the character heuristic, which
    finds its text clean: text and image blocks are returned and no page
    image is rendered. *)
Example process_page_sound :
  let r := process_page text_validator.ascii_decimal config.default ex_input
             true ex_page_sound 1 ex_state in
  events r = [ExtractTables 1; ExtractTextRegions 1; PdfminerCheck 1;
              CharacterHeuristic 1; ExtractImages 1]
  /\ schemas.text_corrupted (page_data r) = None
  /\ schemas.page_image (page_data r) = None
  /\ map schemas.type (schemas.content_blocks (page_data r))
     = [content_orderer.text; content_orderer.image].
Proof. vm_compute. repeat split. Qed.

(** ** The read handler *)

Module HandlerFacts.

Import Py (outcome, Returns, Throws, result, Ok, Raises, OutOfFuel).
Import pdf_tools.

(** *** The steps of the handler *)

Lemma bind_ret {A B : Type} (a : A) (f : A -> M B) : bind (ret a) f = f a.
Proof. unfold bind, ret. destruct (f a). reflexivity. Qed.

Lemma bind_lift_ok {A B : Type} (a : A) (f : A -> M B) :
  bind (lift (Returns a)) f = f a.
Proof. unfold bind, lift. destruct (f a). reflexivity. Qed.

Lemma bind_lift_throws {A B : Type} (e : Py.exn) (f : A -> M B) :
  bind (lift (Throws e)) f = ([], Raise e).
Proof. reflexivity. Qed.

Lemma bind_lift_result_ok {A B : Type} (a : A) (f : A -> M B) :
  bind (lift_result (Ok a)) f = f a.
Proof. unfold bind, lift_result. destruct (f a). reflexivity. Qed.

Lemma bind_leave {A B : Type} (r : schemas.response) (f : A -> M B) :
  bind (leave r) f = ([], Return (r, [])).
Proof. reflexivity. Qed.

Lemma bind_emit {B : Type} (e : event) (f : unit -> M B) :
  bind (emit e) f = (e :: fst (f tt), snd (f tt)).
Proof. unfold bind, emit. destruct (f tt). reflexivity. Qed.

(** Where both paths resolve, the security check is the prefix test on the
    resolved paths. *)
Lemma validate_path_security_resolved fs p allowed_base p' base' :
  resolve fs p = Returns p' ->
  resolve fs allowed_base = Returns base' ->
  validate_path_security fs p allowed_base
  = Returns (is_relative_to p' base').
Proof.
  intros Hp Hb. unfold validate_path_security. rewrite Hp, Hb. reflexivity.
Qed.

(** The file passes the three checks that precede validation: it exists,
    it is within the working directory, it is readable. *)
Definition admitted (fs : file_system) (pdf_path : path) : Prop :=
  exists_ fs pdf_path = true
  /\ (exists resolved_cwd,
        resolve fs (cwd fs) = Returns resolved_cwd
        /\ validate_path_security fs pdf_path resolved_cwd = Returns true)
  /\ readable fs pdf_path = true.

(** The response to a request that fails validation. *)
Definition rejection_response (validation : validators.ValidationResult)
    : schemas.response :=
  match rejection validation with
  | Returns r => r
  | Throws e => on_exception e
  end.

Lemma rejection_response_failure validation :
  exists e, rejection_response validation = schemas.Failure e.
Proof.
  unfold rejection_response, rejection.
  destruct (validators.error validation),
    (validators.message_field validation);
    cbn; unfold on_exception; eauto.
Qed.

(** The handler up to the validation, for a request that reaches it. *)
Lemma read_pdf_body_validation decimal cfg env arguments input pdf_path :
  schemas.parse cfg arguments = Some input ->
  request_path (fs env) input = Returns pdf_path ->
  admitted (fs env) pdf_path ->
  forall validation,
    validators.validate_pdf_read_request cfg (pikepdf_open env)
      (str_of_path pdf_path) (schemas.start_page input)
      (schemas.end_page input) = Ok validation ->
    validators.valid validation = false ->
    read_pdf_handler decimal cfg env arguments
    = ([ValidationScan (str_of_path pdf_path)],
       Ok (rejection_response validation, [])).
Proof.
  intros Hp Hr (He & (rc & Hc & Hs) & Ha) validation Hv Hinv.
  unfold read_pdf_handler, read_pdf_body.
  rewrite Hp, bind_lift_ok, Hr, bind_lift_ok, He, bind_ret.
  rewrite Hc, bind_lift_ok, Hs, bind_lift_ok, bind_ret, Ha, bind_ret.
  rewrite bind_emit, Hv, bind_lift_result_ok, Hinv.
  unfold rejection_response, rejection.
  destruct (validators.error validation),
    (validators.message_field validation); reflexivity.
Qed.

(** *** The pages of a response *)

Lemma bind_next_inv {A B : Type} (m : M A) (f : A -> M B) t b :
  bind m f = (t, Next b) ->
  exists t1 a t2, m = (t1, Next a) /\ f a = (t2, Next b) /\ t = t1 ++ t2.
Proof.
  unfold bind. destruct m as [t1 [a|r|e|]]; try discriminate.
  destruct (f a) as [t2 r2] eqn:E. intros [= <- ->].
  exists t1, a, t2. auto.
Qed.

Lemma bind_return_inv {A B : Type} (m : M A) (f : A -> M B) t r :
  bind m f = (t, Return r) ->
  m = (t, Return r)
  \/ exists t1 a t2, m = (t1, Next a) /\ f a = (t2, Return r).
Proof.
  unfold bind. destruct m as [t1 [a|r1|e|]]; try discriminate.
  - destruct (f a) as [t2 r2] eqn:E. intros [= <- ->].
    right. exists t1, a, t2. auto.
  - intros [= <- <-]. left. reflexivity.
Qed.

(** The page loop holds no [return]. *)
Lemma process_pages_no_return decimal cfg input pike_pdf pdf :
  forall page_nums st pages_data t r,
    process_pages decimal cfg input pike_pdf pdf page_nums st pages_data
    <> (t, Return r).
Proof.
  induction page_nums as [|page_num rest IH]; intros st acc t r H;
    cbn [process_pages] in H; [discriminate H|].
  destruct (page_num >? Z.of_nat (List.length pdf)); [discriminate H|].
  apply bind_return_inv in H.
  destruct H as [H|(t1 & page & t2 & _ & H)].
  - destruct (Py.index pdf (page_num - 1)); discriminate H.
  - apply bind_return_inv in H.
    destruct H as [H|(t3 & [] & t4 & _ & H)]; [discriminate H|].
    exact (IH _ _ _ _ H).
Qed.

(** Every page the loop adds is the page data of one run of its body, on
    a page of the document. *)
Lemma process_pages_each decimal cfg input pike_pdf pdf
    (P : schemas.PageData -> Prop) :
  (forall page page_num st,
     Py.index pdf (page_num - 1) = Some page ->
     P (page_data
          (process_page decimal cfg input pike_pdf page page_num st))) ->
  forall page_nums st pages_data t out st',
    Forall P pages_data ->
    process_pages decimal cfg input pike_pdf pdf page_nums st pages_data
    = (t, Next (out, st')) ->
    Forall P out.
Proof.
  intros Hbody. induction page_nums as [|page_num rest IH];
    intros st acc t out st' Hacc H; cbn [process_pages] in H.
  - injection H as _ <- _. exact Hacc.
  - destruct (page_num >? Z.of_nat (List.length pdf)).
    + injection H as _ <- _. exact Hacc.
    + destruct (Py.index pdf (page_num - 1)) as [page|] eqn:Ei;
        [|discriminate H].
      rewrite bind_lift_ok in H.
      apply bind_next_inv in H.
      destruct H as (t3 & [] & t4 & _ & H & _).
      apply IH in H; [exact H|].
      apply Forall_app. split; [exact Hacc|].
      constructor; [apply Hbody, Ei|constructor].
Qed.

(** The pages of a successful response are page data of the loop body, run
    on the validated input and on pages of the opened document. *)
Lemma read_pdf_handler_pages decimal cfg env arguments
    (P : schemas.ReadPDFInput -> list page_source -> schemas.PageData -> Prop) :
  (forall input pdf pike_pdf page page_num st,
     Py.index pdf (page_num - 1) = Some page ->
     P input pdf
       (page_data
          (process_page decimal cfg input pike_pdf page page_num st))) ->
  forall t s imgs,
    read_pdf_handler decimal cfg env arguments
    = (t, Ok (schemas.Success s, imgs)) ->
    exists input pdf_path pdf,
      schemas.parse cfg arguments = Some input
      /\ request_path (fs env) input = Returns pdf_path
      /\ pdfplumber_open env (str_of_path pdf_path) = Returns pdf
      /\ Forall (P input pdf) (schemas.pages s).
Proof.
  intros Hbody t s imgs. unfold read_pdf_handler.
  destruct (read_pdf_body decimal cfg env arguments) as [t0 st0] eqn:E.
  revert E. unfold read_pdf_body.
  destruct (schemas.parse cfg arguments) as [input|];
    [|cbn; intros [= <- <-]; discriminate].
  rewrite bind_lift_ok.
  destruct (request_path (fs env) input) as [pdf_path|e] eqn:Er;
    [|cbn; intros [= <- <-]; discriminate].
  rewrite bind_lift_ok.
  destruct (exists_ (fs env) pdf_path);
    [|rewrite bind_leave; intros [= <- <-]; discriminate].
  rewrite bind_ret.
  destruct (resolve (fs env) (cwd (fs env))) as [rc|e];
    [|cbn; intros [= <- <-]; discriminate].
  rewrite bind_lift_ok.
  destruct (validate_path_security (fs env) pdf_path rc) as [[]|e];
    [|rewrite bind_lift_ok, bind_leave; intros [= <- <-]; discriminate
     |cbn; intros [= <- <-]; discriminate].
  rewrite bind_lift_ok, bind_ret.
  destruct (readable (fs env) pdf_path);
    [|rewrite bind_leave; intros [= <- <-]; discriminate].
  rewrite bind_ret, bind_emit.
  destruct (validators.validate_pdf_read_request _ _ _ _ _)
    as [validation|e|]; [|cbn; intros [= <- <-]; discriminate..].
  rewrite bind_lift_result_ok.
  destruct (validators.valid validation).
  2:{ unfold rejection.
      destruct (validators.error validation),
        (validators.message_field validation);
        cbn; intros [= <- <-]; discriminate. }
  rewrite bind_ret, bind_emit.
  destruct (pdfplumber_open env (str_of_path pdf_path)) as [pdf|e] eqn:Eo;
    [|cbn; intros [= <- <-]; discriminate].
  rewrite bind_lift_ok. cbv zeta.
  match goal with
  | |- context [bind ?m _] =>
      destruct m as [tp [pike_pdf|r|e|]] eqn:Epk
  end.
  2-4: destruct (schemas.extraction_mode input); cbn in Epk; discriminate.
  cbn [bind fst snd].
  match goal with
  | |- context [process_pages ?d ?c ?i ?k ?p ?n ?s0 ?a] =>
      destruct (process_pages d c i k p n s0 a) as [t5 [[out st']|r|e|]] eqn:Ep
  end; cbn; try (intros [= <- <-]; discriminate).
  2:{ destruct (process_pages_no_return _ _ _ _ _ _ _ _ _ _ Ep). }
  intros [= <- <-] H. injection H as _ <- _.
  exists input, pdf_path, pdf.
  split; [reflexivity|]. split; [exact Er|]. split; [exact Eo|]. cbn.
  eapply process_pages_each; [|constructor|exact Ep].
  intros page page_num st Hi. apply Hbody, Hi.
Qed.

Lemma process_page_number decimal cfg input pike_pdf page page_num st :
  schemas.page_number
    (page_data (process_page decimal cfg input pike_pdf page page_num st))
  = page_num.
Proof.
  unfold process_page. cbv zeta.
  repeat match goal with
         | |- context [let '(_, _) := ?x in _] =>
             let E := fresh in destruct x eqn:E
         | |- context [match ?x with (_, _) => _ end] =>
             let E := fresh in destruct x eqn:E
         end.
  reflexivity.
Qed.

(** In [auto] mode, every page of a response that is marked corrupted
    holds image blocks only, and only such a page carries a page image. *)
Lemma read_pdf_handler_auto_pages decimal cfg env arguments t s imgs :
  read_pdf_handler decimal cfg env arguments
  = (t, Ok (schemas.Success s, imgs)) ->
  exists input,
    schemas.parse cfg arguments = Some input
    /\ (schemas.extraction_mode input = schemas.auto ->
        Forall (fun pd =>
                  (schemas.text_corrupted pd = Some true ->
                   Forall (fun b => schemas.type b = content_orderer.image)
                     (schemas.content_blocks pd))
                  /\ (schemas.page_image pd <> None ->
                      schemas.text_corrupted pd = Some true))
          (schemas.pages s)).
Proof.
  intros H.
  destruct (read_pdf_handler_pages decimal cfg env arguments
              (fun input _ pd =>
                 schemas.extraction_mode input = schemas.auto ->
                 (schemas.text_corrupted pd = Some true ->
                  Forall (fun b => schemas.type b = content_orderer.image)
                    (schemas.content_blocks pd))
                 /\ (schemas.page_image pd <> None ->
                     schemas.text_corrupted pd = Some true)))
    with (t := t) (s := s) (imgs := imgs)
    as (input & pdf_path & pdf & Hp & _ & _ & Hall).
  - intros input pdf pike_pdf page page_num st _ Hm. split.
    + apply PageFacts.process_page_auto_blocks, Hm.
    + assert (Hn : schemas.extraction_mode input <> schemas.image_only)
        by (rewrite Hm; discriminate).
      destruct (PageFacts.process_page_text_mode decimal cfg input pike_pdf
                  page page_num st Hn)
        as (ev3 & ev4 & _ & Hc & _ & _ & [(_ & _ & Hpos & _)|(_ & Hpi & _)]).
      * intros _. rewrite Hc, Hpos. reflexivity.
      * intros Hx. rewrite Hpi in Hx. congruence.
  - exact H.
  - exists input. split; [exact Hp|]. intros Hm.
    eapply Forall_impl; [|exact Hall]. cbn. intros pd Hpd. apply Hpd, Hm.
Qed.

(** In a text mode, every page of a response whose page of the document
    has three or more parser warnings is marked corrupted, with the ratio
    [warning_count / 10]. *)
Lemma read_pdf_handler_text_pages decimal cfg env arguments t s imgs :
  read_pdf_handler decimal cfg env arguments
  = (t, Ok (schemas.Success s, imgs)) ->
  exists input pdf_path pdf,
    schemas.parse cfg arguments = Some input
    /\ request_path (fs env) input = Returns pdf_path
    /\ pdfplumber_open env (str_of_path pdf_path) = Returns pdf
    /\ (schemas.extraction_mode input <> schemas.image_only ->
        Forall (fun pd =>
                  exists page,
                    Py.index pdf (schemas.page_number pd - 1) = Some page
                    /\ (3 <= PageFacts.warning_count page ->
                        schemas.text_corrupted pd = Some true
                        /\ schemas.corruption_ratio pd
                           = Some (Py.truediv
                                     (PageFacts.warning_count page) 10)))
          (schemas.pages s)).
Proof.
  intros H.
  destruct (read_pdf_handler_pages decimal cfg env arguments
              (fun input pdf pd =>
                 schemas.extraction_mode input <> schemas.image_only ->
                 exists page,
                   Py.index pdf (schemas.page_number pd - 1) = Some page
                   /\ (3 <= PageFacts.warning_count page ->
                       schemas.text_corrupted pd = Some true
                       /\ schemas.corruption_ratio pd
                          = Some (Py.truediv
                                    (PageFacts.warning_count page) 10))))
    with (t := t) (s := s) (imgs := imgs)
    as (input & pdf_path & pdf & Hp & Hr & Ho & Hall).
  - intros input pdf pike_pdf page page_num st Hi Hn.
    exists page. rewrite process_page_number. split; [exact Hi|].
    intros Hw.
    destruct (PageFacts.process_page_text_mode decimal cfg input pike_pdf
                page page_num st Hn) as (ev3 & ev4 & _ & Hc & Hq & _).
    unfold PageFacts.detection in Hc, Hq.
    rewrite (PageFacts.detect_corruption_positive _ _ _ _ _ Hw) in Hc, Hq.
    split; [exact Hc|exact Hq].
  - exact H.
  - exists input, pdf_path, pdf. repeat split; try assumption.
    intros Hn. eapply Forall_impl; [|exact Hall].
    cbn. intros pd Hpd. apply Hpd, Hn.
Qed.

(** Whatever the request, a call that extracts or renders page content
    appears in the trace only if validation ran and accepted the request. *)
Lemma extraction_requires_valid_request decimal cfg env arguments e :
  In e (fst (read_pdf_handler decimal cfg env arguments)) ->
  is_page_extraction e = true ->
  exists input pdf_path validation,
    schemas.parse cfg arguments = Some input
    /\ request_path (fs env) input = Returns pdf_path
    /\ validators.validate_pdf_read_request cfg (pikepdf_open env)
         (str_of_path pdf_path) (schemas.start_page input)
         (schemas.end_page input) = Ok validation
    /\ validators.valid validation = true.
Proof.
  assert (Q : forall (t : list event)
                     (st : step (schemas.response * list image_out)),
            fst (match st with
                 | Next r | Return r => (t, Ok r)
                 | Raise x => (t, Ok (on_exception x, []))
                 | Stuck => (t, OutOfFuel)
                 end) = t)
    by (intros t []; reflexivity).
  unfold read_pdf_handler.
  destruct (read_pdf_body decimal cfg env arguments) as [t0 st0] eqn:E.
  rewrite Q. revert E. unfold read_pdf_body.
  destruct (schemas.parse cfg arguments) as [input|];
    [|cbn; intros [= <- <-] []].
  rewrite bind_lift_ok.
  destruct (request_path (fs env) input) as [pdf_path|x] eqn:Er;
    [|cbn; intros [= <- <-] []].
  rewrite bind_lift_ok.
  destruct (exists_ (fs env) pdf_path);
    [|rewrite bind_leave; intros [= <- <-] []].
  rewrite bind_ret.
  destruct (resolve (fs env) (cwd (fs env))) as [rc|x];
    [|cbn; intros [= <- <-] []].
  rewrite bind_lift_ok.
  destruct (validate_path_security (fs env) pdf_path rc) as [[]|x];
    [|rewrite bind_lift_ok, bind_leave; intros [= <- <-] []
     |cbn; intros [= <- <-] []].
  rewrite bind_lift_ok, bind_ret.
  destruct (readable (fs env) pdf_path);
    [|rewrite bind_leave; intros [= <- <-] []].
  rewrite bind_ret, bind_emit.
  destruct (validators.validate_pdf_read_request _ _ _ _ _)
    as [validation|x|] eqn:Ev;
    [|cbn; intros [= <- <-] [<-|[]]; discriminate..].
  rewrite bind_lift_result_ok.
  destruct (validators.valid validation) eqn:Hv.
  - intros _ _ _. exists input, pdf_path, validation.
    repeat split; [exact Er|exact Ev|exact Hv].
  - unfold rejection.
    destruct (validators.error validation),
      (validators.message_field validation);
      cbn; intros [= <- <-] [<-|[]]; discriminate.
Qed.

(** *** The handler answers every request *)

Lemma bind_stuck_inv {A B : Type} (m : M A) (f : A -> M B) t :
  bind m f = (t, Stuck) ->
  m = (t, Stuck) \/ exists t1 a t2, m = (t1, Next a) /\ f a = (t2, Stuck).
Proof.
  unfold bind. destruct m as [t1 [a|r1|e|]]; try discriminate.
  - destruct (f a) as [t2 r2] eqn:E. intros [= <- ->].
    right. exists t1, a, t2. auto.
  - intros [= <-]. left. reflexivity.
Qed.

Lemma process_pages_not_stuck decimal cfg input pike_pdf pdf :
  forall page_nums st pages_data t,
    process_pages decimal cfg input pike_pdf pdf page_nums st pages_data
    <> (t, Stuck).
Proof.
  induction page_nums as [|page_num rest IH]; intros st acc t H;
    cbn [process_pages] in H; [discriminate H|].
  destruct (page_num >? Z.of_nat (List.length pdf)); [discriminate H|].
  apply bind_stuck_inv in H.
  destruct H as [H|(t1 & page & t2 & _ & H)].
  - destruct (Py.index pdf (page_num - 1)); discriminate H.
  - apply bind_stuck_inv in H.
    destruct H as [H|(t3 & [] & t4 & _ & H)]; [discriminate H|].
    exact (IH _ _ _ H).
Qed.

(** Whatever the request and the answers of the libraries, the handler
    returns a response. *)
Lemma read_pdf_handler_answers decimal cfg env arguments :
  exists t r, read_pdf_handler decimal cfg env arguments = (t, Ok r).
Proof.
  unfold read_pdf_handler.
  destruct (read_pdf_body decimal cfg env arguments) as [t0 [r|r|e|]] eqn:E;
    eauto.
  exfalso. revert E. unfold read_pdf_body.
  destruct (schemas.parse cfg arguments) as [input|]; [|discriminate].
  rewrite bind_lift_ok.
  destruct (request_path (fs env) input) as [pdf_path|x]; [|discriminate].
  rewrite bind_lift_ok.
  destruct (exists_ (fs env) pdf_path); [|discriminate].
  rewrite bind_ret.
  destruct (resolve (fs env) (cwd (fs env))) as [rc|x]; [|discriminate].
  rewrite bind_lift_ok.
  destruct (validate_path_security (fs env) pdf_path rc) as [[]|x];
    [|discriminate..].
  rewrite bind_lift_ok, bind_ret.
  destruct (readable (fs env) pdf_path); [|discriminate].
  rewrite bind_ret, bind_emit.
  destruct (ValidateFacts.validate_pdf_read_request_answers cfg
              (pikepdf_open env) (str_of_path pdf_path)
              (schemas.start_page input) (schemas.end_page input))
    as [validation ->].
  rewrite bind_lift_result_ok.
  destruct (validators.valid validation).
  2:{ unfold rejection.
      destruct (validators.error validation),
        (validators.message_field validation); discriminate. }
  rewrite bind_ret, bind_emit.
  destruct (pdfplumber_open env (str_of_path pdf_path)) as [pdf|x];
    [|discriminate].
  rewrite bind_lift_ok. cbv zeta.
  match goal with
  | |- context [bind ?m _] =>
      destruct m as [tp [pike_pdf|r|x|]] eqn:Epk
  end.
  2-4: destruct (schemas.extraction_mode input); cbn in Epk; discriminate.
  cbn [bind fst snd].
  match goal with
  | |- context [process_pages ?d ?c ?i ?k ?p ?n ?s0 ?a] =>
      destruct (process_pages d c i k p n s0 a) as [t5 [[out st']|r|x|]] eqn:Ep
  end; cbn; try discriminate.
  destruct (process_pages_not_stuck _ _ _ _ _ _ _ _ _ Ep).
Qed.

End HandlerFacts.

Import Py (outcome, Returns, Throws).
Import HandlerFacts.

(** The working directory [/work] holds [doc.pdf]; paths resolve to
    themselves, and [/etc/secret.pdf] exists outside the working
    directory. *)
Definition ex_fs : file_system :=
  {| cwd := Path (Py.lit "/work");
     resolve := fun p => Returns p;
     exists_ := fun p =>
       Py.str_eqb (str_of_path p) (Py.lit "/work/doc.pdf")
       || Py.str_eqb (str_of_path p) (Py.lit "/etc/secret.pdf");
     readable := fun _ => true;
     find_similar_pdfs := fun _ => [] |}.

(** [doc.pdf] has twelve pages without images. *)
Definition ex_env : environment :=
  {| fs := ex_fs;
     pikepdf_open := fun _ =>
       Returns (repeat {| validators.images := [] |} 12);
     pdfplumber_open := fun _ => Returns (repeat ex_page_sound 12) |}.

Definition ex_outside_arguments : schemas.arguments :=
  {| schemas.arg_file_path := Some (Py.lit "/work/../etc/secret.pdf");
     schemas.arg_start_page := None;
     schemas.arg_end_page := None;
     schemas.arg_filter_header_footer := None;
     schemas.arg_crop_images := None;
     schemas.arg_max_image_dimension := None;
     schemas.arg_extraction_mode := None;
     schemas.arg_page_image_dpi := None |}.

(** The file system above, with [..] components resolved. *)
Definition ex_fs_dotdot : file_system :=
  {| cwd := cwd ex_fs;
     resolve := fun p =>
       if Py.str_eqb (str_of_path p) (Py.lit "/work/../etc/secret.pdf")
       then Returns (Path (Py.lit "/etc/secret.pdf"))
       else Returns p;
     exists_ := exists_ ex_fs;
     readable := readable ex_fs;
     find_similar_pdfs := find_similar_pdfs ex_fs |}.

Definition ex_env_dotdot : environment :=
  {| fs := ex_fs_dotdot;
     pikepdf_open := pikepdf_open ex_env;
     pdfplumber_open := pdfplumber_open ex_env |}.

(** C4. A request that reaches validation and fails it is answered with
    the error built from the validation result, and the only library call
    in the trace is the validation scan: no page text, table or image is
    extracted.  In particular a request for more pages than
    [max_pages_per_request] fails validation with [PAGE_LIMIT_EXCEEDED]. *)
Theorem validation_failure_precedes_extraction (decimal : Z -> bool)
    (cfg : config.Config) (env : environment)
    (arguments : schemas.arguments) (input : schemas.ReadPDFInput)
    (pdf_path : path) :
  schemas.parse cfg arguments = Some input ->
  request_path (fs env) input = Returns pdf_path ->
  admitted (fs env) pdf_path ->
  (forall validation,
     validators.validate_pdf_read_request cfg (pikepdf_open env)
       (str_of_path pdf_path) (schemas.start_page input)
       (schemas.end_page input) = Ok validation ->
     validators.valid validation = false ->
     read_pdf_handler decimal cfg env arguments
     = ([ValidationScan (str_of_path pdf_path)],
        Ok (rejection_response validation, []))
     /\ (exists e, rejection_response validation = schemas.Failure e)
     /\ Forall (fun e => is_page_extraction e = false)
          (fst (read_pdf_handler decimal cfg env arguments)))
  /\ (forall doc,
        pikepdf_open env (str_of_path pdf_path) = Returns doc ->
        let total_pages := Z.of_nat (List.length doc) in
        let page_count :=
          validators.actual_end (schemas.end_page input) total_pages
          - schemas.start_page input + 1 in
        schemas.start_page input <= total_pages ->
        page_count > config.max_pages_per_request cfg ->
        exists ranges,
          read_pdf_handler decimal cfg env arguments
          = ([ValidationScan (str_of_path pdf_path)],
             Ok (schemas.Failure
                   {| schemas.error := validators.PAGE_LIMIT_EXCEEDED;
                      schemas.message :=
                        schemas.ValidationMessage
                          (validators.PageCountExceedsLimit page_count
                             (config.max_pages_per_request cfg) total_pages);
                      schemas.total_pages := Some total_pages;
                      schemas.total_images := None;
                      schemas.suggested_ranges := Some ranges;
                      schemas.suggested_files := None |}, []))).
Proof.
  intros Hp Hr Ha.
  pose proof (read_pdf_body_validation decimal cfg env arguments input
                pdf_path Hp Hr Ha) as Hbody.
  split.
  - intros validation Hv Hinv.
    rewrite (Hbody validation Hv Hinv).
    split; [reflexivity|]. split; [apply rejection_response_failure|].
    repeat constructor.
  - intros doc Hd total_pages page_count Hs Hc.
    assert (S1 : 1 <= schemas.start_page input).
    { revert Hp. unfold schemas.parse.
      destruct (schemas.arg_file_path arguments); [|discriminate].
      destruct (_ <? 1) eqn:E; [discriminate|].
      apply Z.ltb_ge in E.
      destruct (negb _); [discriminate|].
      destruct (schemas.bounded _ _ _ _); [|discriminate].
      destruct (schemas.mode_of_str _); [|discriminate].
      destruct (schemas.bounded _ _ _ _); [|discriminate].
      intros [= <-]. exact E. }
    assert (S2 : match schemas.end_page input with
                 | None => True
                 | Some e => schemas.start_page input <= e
                 end).
    { revert Hp. unfold schemas.parse.
      destruct (schemas.arg_file_path arguments); [|discriminate].
      destruct (_ <? 1); [discriminate|].
      destruct (schemas.arg_end_page arguments) as [e|] eqn:Ee.
      - destruct ((1 <=? e) && negb (e <? _)) eqn:E; [|discriminate].
        apply andb_true_iff in E. destruct E as [_ E].
        apply negb_true_iff, Z.ltb_ge in E. cbn [negb].
        destruct (schemas.bounded _ _ _ _); [|discriminate].
        destruct (schemas.mode_of_str _); [|discriminate].
        destruct (schemas.bounded _ _ _ _); [|discriminate].
        intros [= <-]. cbn. exact E.
      - cbn [negb].
        destruct (schemas.bounded _ _ _ _); [|discriminate].
        destruct (schemas.mode_of_str _); [|discriminate].
        destruct (schemas.bounded _ _ _ _); [|discriminate].
        intros [= <-]. cbn. exact I. }
    destruct (calculate_suggested_ranges_total cfg doc
                (schemas.start_page input)
                (validators.actual_end (schemas.end_page input) total_pages)
                (config.max_pages_per_request cfg)
                (config.max_images_per_request cfg) S1) as (ranges & Er).
    exists ranges.
    assert (Ev : validators.validate_pdf_read_request cfg (pikepdf_open env)
                   (str_of_path pdf_path) (schemas.start_page input)
                   (schemas.end_page input)
                 = Ok {| validators.valid := false;
                         validators.error := Some validators.PAGE_LIMIT_EXCEEDED;
                         validators.message_field :=
                           Some (validators.PageCountExceedsLimit page_count
                                   (config.max_pages_per_request cfg)
                                   total_pages);
                         validators.total_pages := Some total_pages;
                         validators.total_images := None;
                         validators.suggested_ranges := Some ranges |}).
    { unfold validators.validate_pdf_read_request. rewrite Hd.
      rewrite (validate_opened_in_range cfg doc _ _ Hs S2).
      fold total_pages.
      unfold validators.check_limits. cbv zeta. fold total_pages.
      fold page_count.
      replace (page_count >? config.max_pages_per_request cfg) with true
        by (symmetry; apply Z.gtb_lt; lia).
      rewrite Er. reflexivity. }
    rewrite (Hbody _ Ev eq_refl). reflexivity.
Qed.

Lemma validation_failure_precedes_extraction_witness :
  exists ranges,
    read_pdf_handler text_validator.ascii_decimal config.default ex_env
      ex_arguments
    = ([ValidationScan (Py.lit "/work/doc.pdf")],
       Ok (schemas.Failure
             {| schemas.error := validators.PAGE_LIMIT_EXCEEDED;
                schemas.message :=
                  schemas.ValidationMessage
                    (validators.PageCountExceedsLimit 12 10 12);
                schemas.total_pages := Some 12;
                schemas.total_images := None;
                schemas.suggested_ranges := Some ranges;
                schemas.suggested_files := None |}, [])).
Proof.
  assert (A : admitted (fs ex_env) (Path (Py.lit "/work/doc.pdf"))).
  { split; [reflexivity|]. split; [|reflexivity].
    exists (Path (Py.lit "/work")). split; reflexivity. }
  destruct (validation_failure_precedes_extraction
              text_validator.ascii_decimal config.default ex_env
              ex_arguments ex_input (Path (Py.lit "/work/doc.pdf"))
              eq_refl eq_refl A) as [_ H].
  apply (H (repeat {| validators.images := [] |} 12) eq_refl);
    vm_compute; congruence.
Defined.

(** The ranges suggested for the twelve pages under the default limits. *)
Example read_pdf_handler_suggests :
  snd (read_pdf_handler text_validator.ascii_decimal config.default ex_env
         ex_arguments)
  = Ok (schemas.Failure
          {| schemas.error := validators.PAGE_LIMIT_EXCEEDED;
             schemas.message :=
               schemas.ValidationMessage
                 (validators.PageCountExceedsLimit 12 10 12);
             schemas.total_pages := Some 12;
             schemas.total_images := None;
             schemas.suggested_ranges :=
               Some [ {| validators.start_page := 1;
                         validators.end_page := 10;
                         validators.estimated_images := 0;
                         validators.page_count := 10 |};
                      {| validators.start_page := 11;
                         validators.end_page := 12;
                         validators.estimated_images := 0;
                         validators.page_count := 2 |} ];
             schemas.suggested_files := None |}, []).
Proof. vm_compute. reflexivity. Qed.

(** C9. A request whose resolved path exists and is not within the
    resolved working directory is answered [PERMISSION_DENIED], with no
    library call at all: neither the validation scan nor any extraction. *)
Theorem path_outside_working_directory_denied (decimal : Z -> bool)
    (cfg : config.Config) (env : environment)
    (arguments : schemas.arguments) (input : schemas.ReadPDFInput)
    (pdf_path resolved_cwd : path) :
  schemas.parse cfg arguments = Some input ->
  request_path (fs env) input = Returns pdf_path ->
  exists_ (fs env) pdf_path = true ->
  resolve (fs env) (cwd (fs env)) = Returns resolved_cwd ->
  validate_path_security (fs env) pdf_path resolved_cwd = Returns false ->
  read_pdf_handler decimal cfg env arguments
  = ([],
     Ok (schemas.Failure
           {| schemas.error := validators.PERMISSION_DENIED;
              schemas.message := schemas.AccessDeniedOutsideWorkingDirectory;
              schemas.total_pages := None;
              schemas.total_images := None;
              schemas.suggested_ranges := None;
              schemas.suggested_files := None |}, [])).
Proof.
  intros Hp Hr He Hc Hs.
  unfold read_pdf_handler, read_pdf_body.
  rewrite Hp, bind_lift_ok, Hr, bind_lift_ok, He, bind_ret.
  rewrite Hc, bind_lift_ok, Hs, bind_lift_ok, bind_leave.
  reflexivity.
Qed.

Lemma path_outside_working_directory_denied_witness :
  request_path (fs ex_env_dotdot) 
    {| schemas.file_path := Py.lit "/work/../etc/secret.pdf";
       schemas.start_page := 1;
       schemas.end_page := None;
       schemas.filter_header_footer := true;
       schemas.crop_images := true;
       schemas.max_image_dimension := 842;
       schemas.extraction_mode := schemas.auto;
       schemas.page_image_dpi := 100 |}
  = Returns (Path (Py.lit "/etc/secret.pdf"))
  /\ is_relative_to (Path (Py.lit "/etc/secret.pdf")) (Path (Py.lit "/work"))
     = false
  /\ read_pdf_handler text_validator.ascii_decimal config.default
       ex_env_dotdot ex_outside_arguments
     = ([],
        Ok (schemas.Failure
              {| schemas.error := validators.PERMISSION_DENIED;
                 schemas.message :=
                   schemas.AccessDeniedOutsideWorkingDirectory;
                 schemas.total_pages := None;
                 schemas.total_images := None;
                 schemas.suggested_ranges := None;
                 schemas.suggested_files := None |}, [])).
Proof.
  split; [reflexivity|]. split; [reflexivity|].
  apply (path_outside_working_directory_denied text_validator.ascii_decimal
           config.default ex_env_dotdot ex_outside_arguments
           {| schemas.file_path := Py.lit "/work/../etc/secret.pdf";
              schemas.start_page := 1;
              schemas.end_page := None;
              schemas.filter_header_footer := true;
              schemas.crop_images := true;
              schemas.max_image_dimension := 842;
              schemas.extraction_mode := schemas.auto;
              schemas.page_image_dpi := 100 |}
           (Path (Py.lit "/etc/secret.pdf")) (Path (Py.lit "/work")));
    reflexivity.
Defined.

(* ================================================================== *)
(** * Part III. Further properties *)
(* ================================================================== *)

(** ** More on [calculate_suggested_ranges] and the validator *)

Module CoverageFacts.

Import Py (result, Ok, Raises, OutOfFuel).
Import config validators RangeFacts.

(** The number of images on the 1-indexed page [p] of [doc]; 0 for a page
    the document does not have. *)
Definition images_on (doc : pdf) (p : Z) : Z :=
  match Py.index doc (p - 1) with
  | Some page => Z.of_nat (List.length (images page))
  | None => 0
  end.

(** The number of images on the pages [a], ..., [b]. *)
Definition images_between (doc : pdf) (a b : Z) : Z :=
  fold_right Z.add 0 (map (images_on doc) (Py.range a (b + 1))).

Lemma images_between_empty doc a b : b < a -> images_between doc a b = 0.
Proof.
  intros H. unfold images_between. rewrite range_nil by lia. reflexivity.
Qed.

Lemma images_between_first doc a b :
  a <= b ->
  images_between doc a b = images_on doc a + images_between doc (a + 1) b.
Proof.
  intros H. unfold images_between. rewrite range_cons by lia. reflexivity.
Qed.

(** The scan after the first page, with the images it has counted: the
    total it yields is the total it started with and the images of the
    pages it went over. *)
Lemma scan_pages_rest_sum doc current_start max_images n :
  forall q hi current_images,
    Z.to_nat (hi - q) = n ->
    current_start <= q -> 0 <= q ->
    exists ci fe,
      scan_pages doc current_start max_images (Py.range q hi)
        current_images q = Ok (ci, fe)
      /\ q <= fe <= Z.max q hi
      /\ ci = current_images + images_between doc (q + 1) fe.
Proof.
  induction n as [|n IH]; intros q hi ci Hn Hq H0.
  - rewrite range_nil by lia. cbn. exists ci, q.
    rewrite images_between_empty by lia. repeat split; lia.
  - rewrite range_cons by lia. cbn [scan_pages].
    destruct (q >=? Z.of_nat (List.length doc)) eqn:Et.
    + exists ci, q. rewrite images_between_empty by lia. repeat split; lia.
    + assert (Ei : images_on doc (q + 1)
                   = match Py.index doc q with
                     | Some page => Z.of_nat (List.length (images page))
                     | None => 0
                     end)
        by (unfold images_on; replace (q + 1 - 1) with q by lia; reflexivity).
      destruct (index_in_range doc q) as [pg Epg]; [lia|].
      rewrite Epg in Ei |- *. cbv zeta.
      destruct (ci + Z.of_nat (List.length (images pg)) >? max_images).
      * replace (q =? current_start - 1) with false
          by (symmetry; apply Z.eqb_neq; lia).
        exists ci, q. rewrite images_between_empty by lia.
        repeat split; lia.
      * destruct (IH (q + 1) hi
                    (ci + Z.of_nat (List.length (images pg))))
          as (ci' & fe & E & B1 & B2); try lia.
        exists ci', fe. split; [exact E|]. split; [lia|].
        rewrite (images_between_first doc (q + 1) fe) by lia.
        rewrite Ei. lia.
Qed.

(** The scan of a candidate range of at least one page: it ends within
    the candidate range, and its image total is the number of images on the
    pages of the range it settles on. *)
Lemma scan_pages_first_sum doc current_start current_end max_images :
  1 <= current_start -> current_start <= current_end ->
  exists ci fe,
    scan_pages doc current_start max_images
      (Py.range (current_start - 1) current_end) 0 current_start
    = Ok (ci, fe)
    /\ current_start <= fe <= current_end
    /\ ci = images_between doc current_start fe.
Proof.
  intros Hs He.
  rewrite range_cons by lia. cbn [scan_pages].
  assert (Ei : images_on doc current_start
               = match Py.index doc (current_start - 1) with
                 | Some page => Z.of_nat (List.length (images page))
                 | None => 0
                 end) by reflexivity.
  destruct (current_start - 1 >=? Z.of_nat (List.length doc)) eqn:Et.
  - exists 0, current_start. split; [reflexivity|]. split; [lia|].
    rewrite images_between_first, images_between_empty by lia.
    unfold images_on, Py.index.
    replace ((0 <=? current_start - 1)
             && (current_start - 1 <? Z.of_nat (List.length doc)))
      with false by (symmetry; apply andb_false_iff; right; lia).
    replace ((- Z.of_nat (List.length doc) <=? current_start - 1)
             && (current_start - 1 <? 0))
      with false by (symmetry; apply andb_false_iff; right; lia).
    reflexivity.
  - destruct (index_in_range doc (current_start - 1)) as [pg Epg]; [lia|].
    rewrite Epg in Ei |- *. cbv zeta. rewrite Z.eqb_refl.
    destruct (0 + Z.of_nat (List.length (images pg)) >? max_images).
    + exists (0 + Z.of_nat (List.length (images pg))), (current_start - 1 + 1).
      split; [reflexivity|]. split; [lia|].
      replace (current_start - 1 + 1) with current_start by lia.
      rewrite images_between_first, images_between_empty by lia. lia.
    + replace (current_start - 1 + 1) with current_start by lia.
      destruct (scan_pages_rest_sum doc current_start max_images
                  (Z.to_nat (current_end - current_start))
                  current_start current_end
                  (0 + Z.of_nat (List.length (images pg))))
        as (ci & fe & E & B1 & B2); try lia.
      exists ci, fe. split; [exact E|]. split; [lia|].
      rewrite (images_between_first doc current_start fe) by lia. lia.
Qed.

(** *** The whole loop *)

(** A range lies within the pages [lo .. hi]. *)
Definition inside (lo hi : Z) (r : SuggestedRange) : Prop :=
  lo <= start_page r /\ end_page r <= hi.

(** The image estimate of a range is the number of images on its pages. *)
Definition exact_images (doc : pdf) (r : SuggestedRange) : Prop :=
  estimated_images r = images_between doc (start_page r) (end_page r).

Lemma ranges_loop_more cfg doc end_page max_pages max_images s fuel :
  forall current_start ranges,
    1 <= current_start -> s <= current_start ->
    current_start <= end_page + 1 ->
    (Z.to_nat (end_page + 1 - current_start) <= fuel)%nat ->
    next_start s ranges = current_start ->
    exists out,
      ranges_loop fuel cfg doc end_page max_pages max_images
        current_start ranges = Ok out
      /\ (Forall (inside s end_page) ranges -> Forall (inside s end_page) out)
      /\ (1 <= max_pages ->
          Forall (exact_images doc) ranges -> Forall (exact_images doc) out)
      /\ (Z.of_nat (List.length ranges) <= Z.max 0 (max_suggested_ranges cfg) ->
          Z.of_nat (List.length out) <= Z.max 0 (max_suggested_ranges cfg))
      /\ (Z.of_nat (List.length out) < max_suggested_ranges cfg ->
          next_start s out = end_page + 1).
Proof.
  induction fuel as [|fuel IH]; intros cs ranges Hcs Hs Hce Hf Hn.
  - cbn [ranges_loop].
    destruct (cs <=? end_page) eqn:E; [apply Z.leb_le in E; lia|].
    cbn. exists ranges. apply Z.leb_gt in E.
    repeat split; auto. intros _. lia.
  - cbn [ranges_loop].
    destruct ((cs <=? end_page)
              && (Z.of_nat (List.length ranges) <? max_suggested_ranges cfg))
      eqn:E.
    + apply andb_true_iff in E. destruct E as [E El].
      apply Z.leb_le in E. apply Z.ltb_lt in El. cbv zeta.
      destruct (scan_pages_first doc cs
                  (Z.min (cs + max_pages - 1) end_page) max_images Hcs)
        as (ci & fe & Esc & B1 & _).
      rewrite Esc.
      replace (fe >=? cs) with true by (symmetry; apply Z.geb_le; lia).
      match goal with
      | |- context [ranges_loop fuel _ _ _ _ _ _ ?rs] =>
          destruct (IH (fe + 1) rs) as (out & Eo & Io & Xo & Lo & Co)
      end; try lia.
      { apply next_start_snoc. }
      exists out. split; [exact Eo|]. split; [|split; [|split]].
      * intros H. apply Io, Forall_app. split; [exact H|].
        constructor; [|constructor]. unfold inside. cbn. lia.
      * intros Hp H. apply (Xo Hp), Forall_app. split; [exact H|].
        constructor; [|constructor]. unfold exact_images. cbn.
        destruct (scan_pages_first_sum doc cs
                    (Z.min (cs + max_pages - 1) end_page) max_images Hcs)
          as (ci' & fe' & Esc' & _ & Hsum); [lia|].
        rewrite Esc in Esc'. injection Esc' as <- <-. exact Hsum.
      * intros _. apply Lo. rewrite length_app, Nat2Z.inj_add. cbn. lia.
      * exact Co.
    + exists ranges. split; [reflexivity|]. repeat split; auto.
      intros Hl. apply andb_false_iff in E. destruct E as [E|E].
      * apply Z.leb_gt in E. lia.
      * apply Z.ltb_ge in E. lia.
Qed.

(** Ranges that follow one another from [s] hold every page from [s] up
    to the page before the next start. *)
Lemma contiguous_from_cover ranges :
  forall s p,
    contiguous_from s ranges -> s <= p < next_start s ranges ->
    exists r, In r ranges /\ start_page r <= p <= end_page r.
Proof.
  unfold next_start.
  induction ranges as [|r rest IH]; intros s p Hc Hp; cbn in *; [lia|].
  destruct Hc as (H1 & H2 & H3).
  destruct (Z_le_gt_dec p (end_page r)) as [Hle|Hgt].
  - exists r. split; [left; reflexivity|lia].
  - destruct (IH (end_page r + 1) p H3) as (r' & Hin & Hr'); [lia|].
    exists r'. split; [right; exact Hin|exact Hr'].
Qed.

(** The image-counting loop of the validator counts the images on the
    pages of the range. *)
Lemma count_images_sum doc n :
  forall q hi total_images,
    Z.to_nat (hi - q) = n -> 0 <= q ->
    hi <= Z.of_nat (List.length doc) ->
    count_images doc (Py.range q hi) total_images
    = Ok (total_images + images_between doc (q + 1) hi).
Proof.
  induction n as [|n IH]; intros q hi acc Hn Hq Hhi.
  - rewrite range_nil by lia. rewrite images_between_empty by lia.
    cbn. f_equal. lia.
  - rewrite range_cons by lia. cbn [count_images].
    replace (q >=? Z.of_nat (List.length doc)) with false
      by (symmetry; rewrite Z.geb_leb; apply Z.leb_gt; lia).
    rewrite (images_between_first doc (q + 1) hi) by lia.
    unfold images_on at 1. replace (q + 1 - 1) with q by lia.
    destruct (index_in_range doc q) as [pg ->]; [lia|].
    rewrite IH by lia. f_equal. lia.
Qed.

End CoverageFacts.

Import Py (result, Ok, Raises, OutOfFuel).
Import config validators RangeFacts CoverageFacts.

(** X1. For a 1-indexed start page, [calculate_suggested_ranges] returns at
    most [max_suggested_ranges] ranges (none when that setting is not
    positive), and every range it returns lies within the requested pages
    [start_page .. end_page]. *)
Theorem suggested_ranges_bounded (cfg : Config) (doc : pdf)
    (start_page end_page max_pages max_images : Z) :
  1 <= start_page ->
  exists ranges,
    calculate_suggested_ranges cfg doc start_page end_page
      max_pages max_images = Ok ranges
    /\ Z.of_nat (List.length ranges) <= Z.max 0 (max_suggested_ranges cfg)
    /\ Forall (inside start_page end_page) ranges.
Proof.
  intros Hs. unfold calculate_suggested_ranges.
  destruct (Z_le_gt_dec start_page (end_page + 1)) as [Hle|Hgt].
  - destruct (ranges_loop_more cfg doc end_page max_pages max_images
                start_page (Z.to_nat (end_page - start_page + 1))
                start_page [])
      as (out & E & I & _ & L & _); try lia; try reflexivity.
    exists out. split; [exact E|]. split; [apply L; cbn; lia|].
    apply I. constructor.
  - replace (Z.to_nat (end_page - start_page + 1)) with O by lia.
    cbn [ranges_loop].
    replace (start_page <=? end_page) with false
      by (symmetry; apply Z.leb_gt; lia).
    exists []. cbn. split; [reflexivity|]. split; [lia|constructor].
Qed.

Lemma suggested_ranges_bounded_witness :
  exists ranges,
    calculate_suggested_ranges config.default ex_dense_doc 1 3 2 1 = Ok ranges
    /\ Z.of_nat (List.length ranges) <= Z.max 0 5
    /\ Forall (inside 1 3) ranges.
Proof.
  apply (suggested_ranges_bounded config.default ex_dense_doc 1 3 2 1). lia.
Defined.

(** X2. For a 1-indexed start page not after the end page: unless the list
    was cut off at [max_suggested_ranges], the suggested ranges hold every
    requested page. *)
Theorem suggested_ranges_cover (cfg : Config) (doc : pdf)
    (start_page end_page max_pages max_images : Z) :
  1 <= start_page -> start_page <= end_page ->
  exists ranges,
    calculate_suggested_ranges cfg doc start_page end_page
      max_pages max_images = Ok ranges
    /\ (Z.of_nat (List.length ranges) < max_suggested_ranges cfg ->
        forall p, start_page <= p <= end_page ->
                  exists r, In r ranges
                            /\ validators.start_page r <= p
                               <= validators.end_page r).
Proof.
  intros Hs He.
  destruct (ranges_loop_more cfg doc end_page max_pages max_images
              start_page (Z.to_nat (end_page - start_page + 1))
              start_page [])
    as (out & E & _ & _ & _ & C); try lia; try reflexivity.
  destruct (ranges_loop_spec cfg doc end_page max_pages max_images
              start_page (Z.to_nat (end_page - start_page + 1))
              start_page [])
    as (out' & E' & Hc & _); [lia|lia|exact I|reflexivity|].
  rewrite E in E'. injection E' as <-.
  exists out. split; [exact E|].
  intros Hl p Hp. apply (contiguous_from_cover out start_page p Hc).
  rewrite (C Hl). lia.
Qed.

Lemma suggested_ranges_cover_witness :
  exists ranges,
    calculate_suggested_ranges config.default ex_dense_doc 1 3 2 1 = Ok ranges
    /\ (Z.of_nat (List.length ranges) < 5 ->
        forall p, 1 <= p <= 3 ->
                  exists r, In r ranges
                            /\ validators.start_page r <= p
                               <= validators.end_page r).
Proof.
  apply (suggested_ranges_cover config.default ex_dense_doc 1 3 2 1); lia.
Defined.

(** X3. For a 1-indexed start page and a page limit of at least one, the
    [estimated_images] of every suggested range is the number of images on
    the pages of that range (a page beyond the end of the document counting
    none). *)
Theorem estimated_images_exact (cfg : Config) (doc : pdf)
    (start_page end_page max_pages max_images : Z) :
  1 <= start_page -> 1 <= max_pages ->
  exists ranges,
    calculate_suggested_ranges cfg doc start_page end_page
      max_pages max_images = Ok ranges
    /\ Forall (exact_images doc) ranges.
Proof.
  intros Hs Hp. unfold calculate_suggested_ranges.
  destruct (Z_le_gt_dec start_page (end_page + 1)) as [Hle|Hgt].
  - destruct (ranges_loop_more cfg doc end_page max_pages max_images
                start_page (Z.to_nat (end_page - start_page + 1))
                start_page [])
      as (out & E & _ & X & _ & _); try lia; try reflexivity.
    exists out. split; [exact E|]. apply (X Hp). constructor.
  - replace (Z.to_nat (end_page - start_page + 1)) with O by lia.
    cbn [ranges_loop].
    replace (start_page <=? end_page) with false
      by (symmetry; apply Z.leb_gt; lia).
    exists []. cbn. split; [reflexivity|constructor].
Qed.

Lemma estimated_images_exact_witness :
  exists ranges,
    calculate_suggested_ranges config.default ex_dense_doc 1 3 2 1 = Ok ranges
    /\ Forall (exact_images ex_dense_doc) ranges.
Proof.
  apply (estimated_images_exact config.default ex_dense_doc 1 3 2 1); lia.
Defined.

(** The limit checks, for a 1-indexed start page and an end within the
    document: what they answer for each of the three outcomes. *)
Lemma check_limits_cases cfg doc start_page actual_end :
  1 <= start_page -> actual_end <= Z.of_nat (List.length doc) ->
  let page_count := actual_end - start_page + 1 in
  let total_images := images_between doc start_page actual_end in
  exists ranges,
    calculate_suggested_ranges cfg doc start_page actual_end
      (max_pages_per_request cfg) (max_images_per_request cfg) = Ok ranges
    /\ check_limits cfg doc start_page actual_end
       = Ok (if page_count >? max_pages_per_request cfg then
               {| valid := false; error := Some PAGE_LIMIT_EXCEEDED;
                  message_field :=
                    Some (PageCountExceedsLimit page_count
                            (max_pages_per_request cfg)
                            (Z.of_nat (List.length doc)));
                  total_pages := Some (Z.of_nat (List.length doc));
                  total_images := None;
                  suggested_ranges := Some ranges |}
             else if total_images >? max_images_per_request cfg then
               {| valid := false; error := Some IMAGE_LIMIT_EXCEEDED;
                  message_field :=
                    Some (ImageCountExceedsLimit total_images
                            (max_images_per_request cfg));
                  total_pages := Some (Z.of_nat (List.length doc));
                  total_images := Some total_images;
                  suggested_ranges := Some ranges |}
             else valid_result).
Proof.
  intros Hs Ha page_count total_images.
  destruct (calculate_suggested_ranges_total cfg doc start_page actual_end
              (max_pages_per_request cfg) (max_images_per_request cfg) Hs)
    as (ranges & Er).
  exists ranges. split; [exact Er|].
  unfold check_limits. cbv zeta. fold page_count. rewrite Er.
  destruct (page_count >? max_pages_per_request cfg); [reflexivity|].
  rewrite (count_images_sum doc (Z.to_nat (actual_end - (start_page - 1))))
    by lia.
  replace (start_page - 1 + 1) with start_page by lia.
  cbn [Z.add]. fold total_images.
  destruct (total_images >? max_images_per_request cfg); reflexivity.
Qed.

(** What an accepted request is known to satisfy. *)
Lemma accepted_request cfg pikepdf_open pdf_path start_page end_page r :
  1 <= start_page ->
  validate_pdf_read_request cfg pikepdf_open pdf_path start_page end_page
  = Ok r ->
  valid r = true ->
  exists doc,
    pikepdf_open pdf_path = Py.Returns doc
    /\ start_page <= Z.of_nat (List.length doc)
    /\ match end_page with
       | None => True
       | Some e => start_page <= e
       end
    /\ actual_end end_page (Z.of_nat (List.length doc)) - start_page + 1
       <= max_pages_per_request cfg
    /\ images_between doc start_page
         (actual_end end_page (Z.of_nat (List.length doc)))
       <= max_images_per_request cfg.
Proof.
  intros Hs. unfold validate_pdf_read_request.
  destruct (pikepdf_open pdf_path) as [doc|x];
    [|intros [= <-]; destruct x; discriminate].
  set (total_pages := Z.of_nat (List.length doc)).
  set (last := actual_end end_page total_pages).
  assert (Hl : last <= total_pages) by (unfold last, actual_end; lia).
  destruct (check_limits_cases cfg doc start_page last Hs Hl)
    as (ranges & _ & Ec).
  cbv zeta in Ec.
  intros Hr Hv. exists doc. split; [reflexivity|].
  revert Hr Hv. unfold validate_opened. cbv zeta. fold total_pages.
  destruct (start_page >? total_pages) eqn:E1;
    [intros [= <-]; discriminate|].
  rewrite Z.gtb_ltb in E1. apply Z.ltb_ge in E1.
  assert (C : match check_limits cfg doc start_page last with
              | Ok r0 => Ok r0
              | Raises x => Ok (on_exception pdf_path x)
              | OutOfFuel => OutOfFuel
              end = Ok r ->
              valid r = true ->
              last - start_page + 1 <= max_pages_per_request cfg
              /\ images_between doc start_page last
                 <= max_images_per_request cfg).
  { rewrite Ec.
    destruct (_ >? max_pages_per_request cfg) eqn:E3;
      [intros [= <-]; discriminate|].
    destruct (_ >? max_images_per_request cfg) eqn:E4;
      [intros [= <-]; discriminate|].
    rewrite Z.gtb_ltb in E3, E4. apply Z.ltb_ge in E3, E4.
    intros _ _. split; assumption. }
  destruct end_page as [e|].
  - destruct (e <? start_page) eqn:E2; [intros [= <-]; discriminate|].
    apply Z.ltb_ge in E2. fold last. intros Hr Hv.
    destruct (C Hr Hv). repeat split; assumption.
  - fold last. intros Hr Hv.
    destruct (C Hr Hv). repeat split; assumption.
Qed.

(** X4. For a 1-indexed start page, the validator accepts a request on an
    opened document exactly when the start page is in the document, an
    explicit end page is not before it, the clamped span has at most
    [max_pages_per_request] pages, and these pages hold at most
    [max_images_per_request] images. *)
Theorem validation_accepts_iff (cfg : Config)
    (pikepdf_open : Py.str -> Py.outcome pdf) (pdf_path : Py.str)
    (doc : pdf) (start_page : Z) (end_page : option Z) :
  pikepdf_open pdf_path = Py.Returns doc -> 1 <= start_page ->
  let total_pages := Z.of_nat (List.length doc) in
  let last := actual_end end_page total_pages in
  let acceptable :=
    start_page <= total_pages
    /\ match end_page with
       | None => True
       | Some e => start_page <= e
       end
    /\ last - start_page + 1 <= max_pages_per_request cfg
    /\ images_between doc start_page last <= max_images_per_request cfg in
  (acceptable ->
   validate_pdf_read_request cfg pikepdf_open pdf_path start_page end_page
   = Ok valid_result)
  /\ (forall r,
        validate_pdf_read_request cfg pikepdf_open pdf_path start_page
          end_page = Ok r ->
        valid r = true -> acceptable).
Proof.
  intros Ho Hs total_pages last acceptable. subst acceptable.
  split.
  - intros (H1 & H2 & H3 & H4).
    assert (Hl : last <= total_pages) by (unfold last, actual_end; lia).
    destruct (check_limits_cases cfg doc start_page last Hs Hl)
      as (ranges & _ & Ec).
    cbv zeta in Ec.
    unfold validate_pdf_read_request. rewrite Ho.
    rewrite (ValidateFacts.validate_opened_in_range cfg doc _ _ H1 H2).
    fold total_pages. fold last. rewrite Ec.
    replace (_ >? max_pages_per_request cfg) with false
      by (symmetry; rewrite Z.gtb_ltb; apply Z.ltb_ge; lia).
    replace (_ >? max_images_per_request cfg) with false
      by (symmetry; rewrite Z.gtb_ltb; apply Z.ltb_ge; lia).
    reflexivity.
  - intros r Hr Hv.
    destruct (accepted_request cfg pikepdf_open pdf_path start_page end_page
                r Hs Hr Hv) as (doc' & Ho' & H).
    rewrite Ho in Ho'. injection Ho' as <-. exact H.
Qed.

Lemma validation_accepts_iff_witness :
  validate_pdf_read_request config.default (fun _ => Py.Returns ex_doc_15)
    [] 10 (Some 19)
  = Ok valid_result.
Proof.
  apply (validation_accepts_iff config.default
           (fun _ => Py.Returns ex_doc_15) [] ex_doc_15 10 (Some 19)
           eq_refl);
    [lia|vm_compute; repeat split; discriminate].
Defined.

(** X5. For a 1-indexed start page in the document and an end page that is
    absent or not before it: when the clamped span is within the page limit
    and holds more images than [max_images_per_request], the validator
    answers [IMAGE_LIMIT_EXCEEDED], reports the number of images on the
    pages of the span, and suggests the ranges
    [calculate_suggested_ranges] computes for the span. *)
Theorem validation_image_limit (cfg : Config)
    (pikepdf_open : Py.str -> Py.outcome pdf) (pdf_path : Py.str)
    (doc : pdf) (start_page : Z) (end_page : option Z) :
  pikepdf_open pdf_path = Py.Returns doc ->
  1 <= start_page -> range_acceptable doc start_page end_page ->
  let total_pages := Z.of_nat (List.length doc) in
  let last := actual_end end_page total_pages in
  let total_images := images_between doc start_page last in
  last - start_page + 1 <= max_pages_per_request cfg ->
  total_images > max_images_per_request cfg ->
  exists ranges,
    calculate_suggested_ranges cfg doc start_page last
      (max_pages_per_request cfg) (max_images_per_request cfg) = Ok ranges
    /\ validate_pdf_read_request cfg pikepdf_open pdf_path start_page end_page
       = Ok {| valid := false; error := Some IMAGE_LIMIT_EXCEEDED;
               message_field :=
                 Some (ImageCountExceedsLimit total_images
                         (max_images_per_request cfg));
               total_pages := Some total_pages;
               total_images := Some total_images;
               suggested_ranges := Some ranges |}.
Proof.
  intros Ho Hs [H1 H2] total_pages last total_images Hp Hi.
  assert (Hl : last <= total_pages) by (unfold last, actual_end; lia).
  destruct (check_limits_cases cfg doc start_page last Hs Hl)
    as (ranges & Er & Ec).
  cbv zeta in Ec.
  exists ranges. split; [exact Er|].
  unfold validate_pdf_read_request. rewrite Ho.
  rewrite (ValidateFacts.validate_opened_in_range cfg doc _ _ H1 H2).
  fold total_pages. fold last. rewrite Ec.
  replace (_ >? max_pages_per_request cfg) with false
    by (symmetry; rewrite Z.gtb_ltb; apply Z.ltb_ge; lia).
  fold total_images.
  replace (total_images >? max_images_per_request cfg) with true
    by (symmetry; apply Z.gtb_lt; lia).
  reflexivity.
Qed.

(** The three pages of [ex_dense_doc] hold six images; at most five are
    allowed here. *)
Definition ex_cfg_images_5 : Config :=
  {| max_pages_per_request := 10; max_images_per_request := 5;
     max_suggested_ranges := 5; max_image_dimension := 842;
     page_image_dpi := 100; corruption_threshold := 0.3%float |}.

Lemma validation_image_limit_witness :
  exists ranges,
    calculate_suggested_ranges ex_cfg_images_5 ex_dense_doc 1 3 10 5
    = Ok ranges
    /\ validate_pdf_read_request ex_cfg_images_5
         (fun _ => Py.Returns ex_dense_doc) [] 1 None
       = Ok {| valid := false; error := Some IMAGE_LIMIT_EXCEEDED;
               message_field := Some (ImageCountExceedsLimit 6 5);
               total_pages := Some 3;
               total_images := Some 6;
               suggested_ranges := Some ranges |}.
Proof.
  assert (A : range_acceptable ex_dense_doc 1 None) by (split; cbn; lia).
  apply (validation_image_limit ex_cfg_images_5
           (fun _ => Py.Returns ex_dense_doc) [] ex_dense_doc 1 None
           eq_refl);
    [lia|exact A|vm_compute; discriminate|vm_compute; reflexivity].
Defined.

(** ** More on the table converter *)

Module MarkdownFacts.

Import table_converter TableFacts.

Definition no_empty_cell (rows : Table) : Prop :=
  Forall (Forall (fun c => is_empty_cell c = false)) rows.

(** A pass over a column without an empty cell changes nothing. *)
Lemma fill_column_no_empty k rows :
  no_empty_cell rows -> forall v, fill_column k v rows = rows.
Proof.
  induction 1 as [|row rows Hrow _ IH]; intros v; cbn; [reflexivity|].
  destruct (nth_error row k) as [c|] eqn:Ec.
  - apply nth_error_In in Ec.
    rewrite (proj1 (Forall_forall _ _) Hrow c Ec), IH. reflexivity.
  - rewrite IH. reflexivity.
Qed.

(** A filled cell is never absent. *)
Lemma spec_fill_cells_present col :
  forall v x, In x (spec_fill_cells v col) ->
              x = None \/ exists s, x = Some (Some s).
Proof.
  induction col as [|[c|] col IH]; intros v x H; cbn in H.
  - destruct H.
  - destruct H as [<-|H]; [|exact (IH _ _ H)].
    right. unfold fill_cell.
    destruct (is_empty_cell c) eqn:E; [eauto|].
    destruct c as [s|]; [eauto|discriminate E].
  - destruct H as [<-|H]; [auto|exact (IH _ _ H)].
Qed.

Lemma row_lengths_bound (w : nat) (rows rows' : Table) :
  map (@List.length cell) rows' = map (@List.length cell) rows ->
  Forall (fun row => (List.length row <= w)%nat) rows ->
  Forall (fun row => (List.length row <= w)%nat) rows'.
Proof.
  intros E H.
  apply (Forall_map (@List.length cell) (fun n => (n <= w)%nat)).
  rewrite E. apply Forall_map. exact H.
Qed.

(** *** The rows of the Markdown table *)

Lemma normalize_row_length max_cols row :
  (List.length row <= max_cols)%nat ->
  List.length (normalize_row max_cols row) = max_cols.
Proof.
  intros H. unfold normalize_row.
  rewrite length_firstn, length_app, repeat_length. lia.
Qed.

Lemma list_max_bound l : Forall (fun n => (n <= list_max l)%nat) l.
Proof. apply list_max_le. apply Nat.le_refl. Qed.

Lemma markdown_line_not_empty row : markdown_line row <> [].
Proof. unfold markdown_line. cbn. discriminate. Qed.

Lemma join_not_empty sep s rest : s <> [] -> Py.join sep (s :: rest) <> [].
Proof.
  intros H. cbn. destruct rest; [exact H|].
  destruct s; [congruence|discriminate].
Qed.

(** *** The lines and the cells of the Markdown text *)

(** [s.split(sep)] puts back apart what [sep.join] put together, when no
    item holds the separator. *)
Lemma split_skip (sep : Z) (s : Py.str) :
  forall rest current,
    ~ In sep s ->
    grep_tool.split sep (s ++ rest) current
    = grep_tool.split sep rest (rev s ++ current).
Proof.
  induction s as [|c s IH]; intros rest current H; [reflexivity|].
  cbn [app grep_tool.split rev].
  destruct (c =? sep) eqn:E.
  - apply Z.eqb_eq in E. destruct H. left. exact E.
  - rewrite IH by (intros Hs; apply H; right; exact Hs).
    now rewrite <- app_assoc.
Qed.

Lemma split_of_join (sep : Z) (items : list Py.str) :
  items <> [] ->
  Forall (fun s => ~ In sep s) items ->
  grep_tool.split sep (Py.join [sep] items) [] = items.
Proof.
  intros Hn H. induction H as [|s items Hs _ IH]; [contradiction|].
  destruct items as [|s' items].
  - cbn [Py.join]. rewrite <- (app_nil_r s) at 1.
    rewrite split_skip by exact Hs. cbn [grep_tool.split].
    now rewrite app_nil_r, rev_involutive.
  - change (Py.join [sep] (s :: s' :: items))
      with (s ++ sep :: Py.join [sep] (s' :: items)).
    rewrite split_skip by exact Hs. cbn [grep_tool.split].
    rewrite Z.eqb_refl, app_nil_r, rev_involutive, IH by discriminate.
    reflexivity.
Qed.

Lemma in_join (c : Z) (sep : Py.str) (items : list Py.str) :
  In c (Py.join sep items) ->
  In c sep \/ exists s, In s items /\ In c s.
Proof.
  induction items as [|s items IH]; [intros []|].
  destruct items as [|s' items].
  - cbn [Py.join]. intros H. right. exists s. split; [left|]; auto.
  - change (Py.join sep (s :: s' :: items))
      with (s ++ sep ++ Py.join sep (s' :: items)).
    rewrite !in_app_iff. intros [H|[H|H]].
    + right. exists s. split; [left|]; auto.
    + left. exact H.
    + destruct (IH H) as [Hs|(x & Hx & Hc)]; [left; exact Hs|].
      right. exists x. split; [right|]; auto.
Qed.

Lemma in_lstrip (c : Z) (s : Py.str) : In c (Py.lstrip s) -> In c s.
Proof.
  induction s as [|x s IH]; [intros []|]. cbn [Py.lstrip].
  destruct (Py.isspace x); [right; auto|auto].
Qed.

Lemma in_strip (c : Z) (s : Py.str) : In c (Py.strip s) -> In c s.
Proof.
  unfold Py.strip. intros H.
  apply in_rev, in_lstrip, in_rev, in_lstrip in H. exact H.
Qed.

(** A cell without a line break and without a bar. *)
Definition plain_text (s : Py.str) : Prop := ~ In 10 s /\ ~ In 124 s.

Definition plain_cell (c : cell) : Prop :=
  match c with
  | Some s => plain_text s
  | None => True
  end.

Lemma plain_empty : plain_text [].
Proof. split; intros []. Qed.

Lemma set_item_Forall (P : cell -> Prop) (v : cell) :
  P v -> forall row k, Forall P row -> Forall P (set_item row k v).
Proof.
  intros Hv row. induction row as [|c row IH]; intros k H; [constructor|].
  inversion H; subst. destruct k; cbn; constructor; auto.
Qed.

Lemma fill_column_plain (k : nat) (rows : Table) :
  Forall (Forall plain_cell) rows ->
  forall last_value,
    plain_text (or_empty last_value) ->
    Forall (Forall plain_cell) (fill_column k last_value rows).
Proof.
  induction 1 as [|row rows Hrow _ IH]; intros last_value Hv;
    cbn [fill_column]; [constructor|].
  destruct (nth_error row k) as [c|] eqn:Ec.
  - destruct (is_empty_cell c) eqn:Ee.
    + constructor; [|apply IH, Hv].
      apply set_item_Forall; [exact Hv|exact Hrow].
    + constructor; [exact Hrow|]. apply IH.
      apply nth_error_In in Ec.
      pose proof (proj1 (Forall_forall _ _) Hrow c Ec) as Hc.
      destruct c as [s|]; [exact Hc|discriminate Ee].
  - constructor; [exact Hrow|apply IH, Hv].
Qed.

Lemma fill_merged_cells_plain (t : Table) :
  Forall (Forall plain_cell) t ->
  Forall (Forall plain_cell) (fill_merged_cells t).
Proof.
  unfold fill_merged_cells. destruct t as [|first_row rest]; [auto|].
  unfold fill_columns. generalize (first_row :: rest).
  induction (seq 0 (List.length first_row)) as [|k cols IH];
    intros rows H; cbn [fold_left]; [exact H|].
  apply IH, fill_column_plain; [exact H|apply plain_empty].
Qed.

Lemma clean_cell_plain (c : cell) : plain_cell c -> plain_text (clean_cell c).
Proof.
  destruct c as [s|]; cbn; [|intros _; apply plain_empty].
  intros [H1 H2]. split; intros H; apply in_strip in H; auto.
Qed.

Lemma normalize_row_plain (max_cols : nat) (row : list Py.str) :
  Forall plain_text row -> Forall plain_text (normalize_row max_cols row).
Proof.
  intros H. unfold normalize_row.
  assert (F : Forall plain_text
                (row ++ repeat [] (max_cols - List.length row))).
  { apply Forall_app. split; [exact H|].
    apply Forall_forall. intros s Hs. apply repeat_spec in Hs. subst s.
    apply plain_empty. }
  revert F. generalize (row ++ repeat [] (max_cols - List.length row)).
  induction max_cols as [|n IH]; intros l F; [constructor|].
  destruct F as [|s l Hs F]; cbn [firstn]; constructor; auto.
Qed.

(** A cell between its two spaces. *)
Definition padded (s : Py.str) : Py.str := [32] ++ s ++ [32].

(** A line of the table, seen from its bars. *)
Lemma markdown_line_bars (row : list Py.str) :
  row <> [] ->
  markdown_line row = Py.join [124] ([] :: map padded row ++ [[]]).
Proof.
  intros Hn.
  assert (H : [32] ++ Py.join (Py.lit " | ") row ++ [32; 124]
              = Py.join [124] (map padded row ++ [[]])).
  { induction row as [|s row IH]; [contradiction|].
    destruct row as [|s' row].
    - cbn. now rewrite <- !app_assoc.
    - change (Py.join (Py.lit " | ") (s :: s' :: row))
        with (s ++ [32; 124; 32] ++ Py.join (Py.lit " | ") (s' :: row)).
      change (Py.join [124] (map padded (s :: s' :: row) ++ [[]]))
        with (padded s ++ [124]
              ++ Py.join [124] (map padded (s' :: row) ++ [[]])).
      rewrite <- IH by discriminate. unfold padded.
      rewrite <- !app_assoc. reflexivity. }
  destruct row as [|s row]; [contradiction|].
  change (Py.join [124] ([] :: map padded (s :: row) ++ [[]]))
    with ([124] ++ Py.join [124] (map padded (s :: row) ++ [[]])).
  rewrite <- H. unfold markdown_line. reflexivity.
Qed.

Lemma bar_parts_plain (c : Z) (row : list Py.str) :
  c <> 32 ->
  Forall (fun s => ~ In c s) row ->
  Forall (fun s => ~ In c s) ([] :: map padded row ++ [[]]).
Proof.
  intros Hc H. constructor; [intros []|].
  apply Forall_app. split; [|constructor; [intros []|constructor]].
  apply Forall_map. apply Forall_forall. intros s Hs.
  unfold padded. rewrite !in_app_iff. intros [[E|[]]|[Hin|[E|[]]]].
  - congruence.
  - exact (proj1 (Forall_forall _ _) H s Hs Hin).
  - congruence.
Qed.

(** A line of plain cells has no line break, and its bars stand between
    its cells. *)
Lemma markdown_line_plain (row : list Py.str) :
  row <> [] ->
  Forall plain_text row ->
  ~ In 10 (markdown_line row)
  /\ grep_tool.split 124 (markdown_line row) []
     = [] :: map padded row ++ [[]].
Proof.
  intros Hn H. rewrite (markdown_line_bars row Hn). split.
  - intros Hin. apply in_join in Hin. destruct Hin as [[E|[]]|(s & Hs & Hc)].
    + discriminate E.
    + assert (P : Forall (fun s => ~ In 10 s) ([] :: map padded row ++ [[]])).
      { apply bar_parts_plain; [discriminate|].
        eapply Forall_impl; [|exact H]. intros a [Ha _]. exact Ha. }
      exact (proj1 (Forall_forall _ _) P s Hs Hc).
  - apply split_of_join; [discriminate|].
    apply bar_parts_plain; [discriminate|].
    eapply Forall_impl; [|exact H]. intros a [_ Ha]. exact Ha.
Qed.

Lemma separator_plain (max_cols : nat) :
  Forall plain_text (repeat (Py.lit "---") max_cols).
Proof.
  apply Forall_forall. intros s Hs. apply repeat_spec in Hs. subst s.
  split; cbn; intuition discriminate.
Qed.

(** The rows of the Markdown table: the filled rows, cleaned and brought to
    the width of the widest row. *)
Definition markdown_rows (t : Table) : list (list Py.str) :=
  map (normalize_row (list_max (map (@List.length cell) t)))
    (map (map clean_cell) (fill_merged_cells t)).

Lemma markdown_rows_spec (first_row : list cell) (rest : Table) :
  let t := first_row :: rest in
  let max_cols := list_max (map (@List.length cell) t) in
  exists header rows,
    markdown_rows t = header :: rows
    /\ convert_table_to_markdown t
       = Py.join [10]
           (map markdown_line
              (header :: repeat (Py.lit "---") max_cols :: rows))
    /\ List.length rows = List.length rest
    /\ Forall (fun row => List.length row = max_cols) (header :: rows).
Proof.
  intros t max_cols.
  assert (Hw : map (@List.length Py.str)
                 (map (map clean_cell) (fill_merged_cells t))
               = map (@List.length cell) t).
  { rewrite map_map.
    rewrite (map_ext _ (@List.length cell))
      by (intros row; apply length_map).
    apply fill_columns_row_lengths. }
  unfold markdown_rows, convert_table_to_markdown. fold t. cbv zeta.
  rewrite Hw. fold max_cols.
  assert (Hn : Forall (fun row => List.length row = max_cols)
                 (map (normalize_row max_cols)
                    (map (map clean_cell) (fill_merged_cells t)))).
  { apply Forall_map.
    apply Forall_forall. intros row Hrow.
    apply normalize_row_length.
    apply (in_map (@List.length Py.str)) in Hrow. rewrite Hw in Hrow.
    exact (proj1 (Forall_forall _ _)
             (list_max_bound (map (@List.length cell) t)) _ Hrow). }
  assert (Hl : List.length
                 (map (normalize_row max_cols)
                    (map (map clean_cell) (fill_merged_cells t)))
               = S (List.length rest)).
  { rewrite !length_map.
    change (List.length (fill_merged_cells t))
      with (List.length (fill_columns (seq 0 (List.length first_row)) t)).
    pose proof (f_equal (@List.length nat)
                  (fill_columns_row_lengths
                     (seq 0 (List.length first_row)) t)) as E.
    rewrite !length_map in E. exact E. }
  destruct (map (normalize_row max_cols) _) as [|header rows];
    [discriminate Hl|].
  exists header, rows. injection Hl as Hl.
  split; [reflexivity|]. split; [reflexivity|]. split; assumption.
Qed.

Lemma markdown_rows_plain (t : Table) :
  Forall (Forall plain_cell) t ->
  Forall (Forall plain_text) (markdown_rows t).
Proof.
  intros H. unfold markdown_rows.
  apply Forall_map, Forall_map.
  eapply Forall_impl; [|apply fill_merged_cells_plain, H].
  intros row Hrow. apply normalize_row_plain, Forall_map.
  eapply Forall_impl; [|exact Hrow]. apply clean_cell_plain.
Qed.

(** Nothing in a cell is escaped: a line break in a cell breaks the line
    of its row, and a bar in a cell adds a cell to it. *)
Lemma cells_are_not_escaped :
  grep_tool.split 10
    (convert_table_to_markdown
       [ [ Some (Py.lit "a" ++ [10] ++ Py.lit "b") ] ]) []
  = [ Py.lit "| a"; Py.lit "b |"; Py.lit "| --- |" ]
  /\ grep_tool.split 124
       (convert_table_to_markdown [ [ Some (Py.lit "a|b") ] ]) []
     = [ []; Py.lit " a"; Py.lit "b "; [10]; Py.lit " --- "; [] ].
Proof. vm_compute. split; reflexivity. Qed.

End MarkdownFacts.

Import table_converter TableFacts MarkdownFacts.

(** X6. [fill_merged_cells] keeps the shape of the table (the number of
    rows and the width of each row), and applying it to its own result
    changes nothing. *)
Theorem fill_merged_cells_shape_and_fixpoint (t : Table) :
  map (@List.length cell) (fill_merged_cells t) = map (@List.length cell) t
  /\ fill_merged_cells (fill_merged_cells t) = fill_merged_cells t.
Proof.
  split; [|apply fill_merged_cells_idempotent].
  destruct t as [|first_row rest]; [reflexivity|].
  apply fill_columns_row_lengths.
Qed.

(** X7. A table without an empty cell (no [None], no blank string) is
    returned by [fill_merged_cells] as it came. *)
Theorem fill_merged_cells_full_table (t : Table) :
  no_empty_cell t -> fill_merged_cells t = t.
Proof.
  intros H. destruct t as [|first_row rest]; [reflexivity|].
  unfold fill_merged_cells. apply fill_columns_id.
  intros k _. apply fill_column_no_empty, H.
Qed.

Definition ex_full_table : Table :=
  [ [ Some (Py.lit "Region"); Some (Py.lit "Q1") ];
    [ Some (Py.lit "North"); Some (Py.lit "10") ] ].

Lemma fill_merged_cells_full_table_witness :
  fill_merged_cells ex_full_table = ex_full_table.
Proof.
  apply (fill_merged_cells_full_table ex_full_table).
  repeat constructor.
Defined.

(** X8. In a table whose rows are no wider than its first row,
    [fill_merged_cells] leaves no cell absent: every cell of the result is
    a string. *)
Theorem fill_merged_cells_no_absent_cell (first_row : list cell)
    (rest : Table) :
  Forall (fun row => (List.length row <= List.length first_row)%nat) rest ->
  Forall (Forall (fun c => c <> None))
    (fill_merged_cells (first_row :: rest)).
Proof.
  intros Hw.
  assert (Hall : Forall (fun row =>
                           (List.length row <= List.length first_row)%nat)
                   (fill_merged_cells (first_row :: rest))).
  { eapply row_lengths_bound; [apply fill_columns_row_lengths|].
    constructor; [apply Nat.le_refl|exact Hw]. }
  apply Forall_forall. intros row' Hrow'. apply Forall_forall. intros c Hc.
  apply In_nth_error in Hc. destruct Hc as [k Hk].
  assert (Hlt : (k < List.length first_row)%nat).
  { pose proof (proj1 (Forall_forall _ _) Hall row' Hrow') as Hl.
    cbv beta in Hl.
    assert (k < List.length row')%nat
      by (apply nth_error_Some; congruence).
    exact (Nat.lt_le_trans _ _ _ H Hl). }
  pose proof (fill_merged_cells_columns first_row rest k) as Hcol.
  apply Nat.ltb_lt in Hlt. rewrite Hlt in Hcol.
  assert (Hin : In (nth_error row' k)
                   (map (fun row : list cell => nth_error row k)
                      (fill_merged_cells (first_row :: rest))))
    by exact (in_map (fun row : list cell => nth_error row k) _ _ Hrow').
  rewrite Hcol, Hk in Hin.
  apply spec_fill_cells_present in Hin.
  destruct Hin as [H|[s H]]; [discriminate H|].
  injection H as ->. discriminate.
Qed.

Lemma fill_merged_cells_no_absent_cell_witness :
  Forall (Forall (fun c => c <> None))
    (fill_merged_cells
       [ [ Some (Py.lit "Group"); Some (Py.lit "Item") ];
         [ None; Some (Py.lit "a") ];
         [ None ] ]).
Proof.
  apply (fill_merged_cells_no_absent_cell
           [ Some (Py.lit "Group"); Some (Py.lit "Item") ]
           [ [ None; Some (Py.lit "a") ]; [ None ] ]).
  repeat constructor.
Defined.

(** X9. For a table with a column whose cells hold no line break and no
    bar: the Markdown text is not empty; it has one line for the first row,
    the separator line, and one line for each further row; and every line,
    split at its bars, is an empty part, then as many cells as the widest
    row has, each between two spaces, then an empty part.  The cells are
    the filled cells, stripped; short rows are padded with empty cells.
    The condition on the cells is needed: the converter strips a cell but
    escapes nothing in it. *)
Theorem convert_table_to_markdown_lines (first_row : list cell)
    (rest : Table) :
  let t := first_row :: rest in
  let max_cols := list_max (map (@List.length cell) t) in
  (0 < max_cols)%nat ->
  Forall (Forall plain_cell) t ->
  convert_table_to_markdown t <> []
  /\ exists header rows,
    markdown_rows t = header :: rows
    /\ List.length rows = List.length rest
    /\ grep_tool.split 10 (convert_table_to_markdown t) []
       = map markdown_line
           (header :: repeat (Py.lit "---") max_cols :: rows)
    /\ Forall (fun row =>
                 List.length row = max_cols
                 /\ grep_tool.split 124 (markdown_line row) []
                    = [] :: map padded row ++ [[]])
         (header :: repeat (Py.lit "---") max_cols :: rows).
Proof.
  intros t max_cols Hc Hp.
  destruct (markdown_rows_spec first_row rest)
    as (header & rows & Er & Em & Hl & Hw).
  fold t max_cols in Er, Em, Hw.
  pose proof (markdown_rows_plain t Hp) as Hrows. rewrite Er in Hrows.
  assert (Hall : Forall (fun row => List.length row = max_cols
                                    /\ Forall plain_text row)
                   (header :: repeat (Py.lit "---") max_cols :: rows)).
  { inversion Hw; subst. inversion Hrows; subst.
    constructor; [split; assumption|].
    constructor; [split; [apply repeat_length|apply separator_plain]|].
    apply Forall_forall. intros row Hrow. split.
    - exact (proj1 (Forall_forall _ _) H2 row Hrow).
    - exact (proj1 (Forall_forall _ _) H4 row Hrow). }
  assert (Hlines : Forall (fun row =>
                             ~ In 10 (markdown_line row)
                             /\ grep_tool.split 124 (markdown_line row) []
                                = [] :: map padded row ++ [[]])
                     (header :: repeat (Py.lit "---") max_cols :: rows)).
  { eapply Forall_impl; [|exact Hall]. intros row [Hlen Hplain].
    apply markdown_line_plain; [|exact Hplain].
    intros ->. change (O = max_cols) in Hlen. lia. }
  split; [rewrite Em; apply join_not_empty, markdown_line_not_empty|].
  exists header, rows.
  split; [exact Er|]. split; [exact Hl|]. split.
  - rewrite Em. apply split_of_join; [discriminate|].
    apply Forall_map. eapply Forall_impl; [|exact Hlines].
    intros row [H _]. exact H.
  - apply Forall_forall. intros row Hrow. split.
    + exact (proj1 (proj1 (Forall_forall _ _) Hall row Hrow)).
    + exact (proj2 (proj1 (Forall_forall _ _) Hlines row Hrow)).
Qed.

Lemma convert_table_to_markdown_lines_witness :
  convert_table_to_markdown ex_ragged_table <> []
  /\ exists header rows,
    markdown_rows ex_ragged_table = header :: rows
    /\ List.length rows = 2%nat
    /\ grep_tool.split 10 (convert_table_to_markdown ex_ragged_table) []
       = map markdown_line (header :: repeat (Py.lit "---") 2 :: rows)
    /\ Forall (fun row =>
                 List.length row = 2%nat
                 /\ grep_tool.split 124 (markdown_line row) []
                    = [] :: map padded row ++ [[]])
         (header :: repeat (Py.lit "---") 2 :: rows).
Proof.
  apply (convert_table_to_markdown_lines
           [ Some (Py.lit "a") ]
           [ [ Some (Py.lit "b"); Some (Py.lit "x") ];
             [ Some (Py.lit "c"); None ] ]).
  - vm_compute. lia.
  - repeat constructor; cbn; intuition discriminate.
Defined.

Import content_orderer pdf_tools.

Lemma table_entries_markdown (tables : list Table) :
  forall (i : Z) (bboxes : list text_extractor.bbox),
    map (fun e => table_markdown (fst e))
      (table_entries i (combine tables bboxes))
    = markdown_from i (firstn (List.length bboxes) tables).
Proof.
  induction tables as [|table tables IH]; intros i bboxes.
  - rewrite firstn_nil. reflexivity.
  - destruct bboxes as [|b bboxes]; [reflexivity|].
    cbn [combine table_entries List.length firstn markdown_from].
    assert (E : match table with
                | [] => []
                | _ :: _ => convert_table_to_markdown table
                end = convert_table_to_markdown table)
      by (destruct table; reflexivity).
    rewrite E.
    destruct (convert_table_to_markdown table); cbn [map fst table_markdown];
      rewrite IH; reflexivity.
Qed.

(** X10. The table blocks the page loop builds carry the strings
    [convert_tables_to_markdown] returns for the tables of the page, taken
    as far as pdfplumber reports a table object for them: both number a
    table by its place among the extracted tables, empty tables included. *)
Theorem page_tables_are_converted_tables (page : page_source) (page_num : Z) :
  map table_markdown
    (snd (fst (fst (extract_text_and_tables page page_num))))
  = convert_tables_to_markdown
      (firstn (List.length (find_tables page)) (extract_tables page)).
Proof.
  unfold extract_text_and_tables, convert_tables_to_markdown.
  destruct (extract_tables page) as [|table tables] eqn:Et.
  - cbn. rewrite firstn_nil. reflexivity.
  - cbv beta iota zeta. cbn [fst snd]. rewrite map_map.
    apply table_entries_markdown.
Qed.

(** ** More on [is_text_corrupted] *)

Module DetectorFacts.

Import config text_validator.

(** *** Binary64 values compared bit for bit *)

Definition sf_eqb (a b : SpecFloat.spec_float) : bool :=
  match a, b with
  | SpecFloat.S754_zero s, SpecFloat.S754_zero s' => Bool.eqb s s'
  | SpecFloat.S754_infinity s, SpecFloat.S754_infinity s' => Bool.eqb s s'
  | SpecFloat.S754_nan, SpecFloat.S754_nan => true
  | SpecFloat.S754_finite s m e, SpecFloat.S754_finite s' m' e' =>
      Bool.eqb s s' && Pos.eqb m m' && Z.eqb e e'
  | _, _ => false
  end.

Definition float_eqb (x y : float) : bool :=
  sf_eqb (FloatOps.Prim2SF x) (FloatOps.Prim2SF y).

Lemma float_eqb_eq x y : float_eqb x y = true -> x = y.
Proof.
  unfold float_eqb. intros H. apply FloatAxioms.Prim2SF_inj.
  destruct (FloatOps.Prim2SF x) as [s|s| |s m e],
    (FloatOps.Prim2SF y) as [s'|s'| |s' m' e']; cbn in H;
    try discriminate; try reflexivity.
  - apply Bool.eqb_prop in H. congruence.
  - apply Bool.eqb_prop in H. congruence.
  - apply andb_true_iff in H. destruct H as [H He].
    apply andb_true_iff in H. destruct H as [Hs Hm].
    apply Bool.eqb_prop in Hs. apply Pos.eqb_eq in Hm. apply Z.eqb_eq in He.
    congruence.
Qed.

(** *** The quotients of the sample *)

Lemma range_In lo hi x : lo <= x < hi -> In x (Py.range lo hi).
Proof.
  intros H. unfold Py.range. apply in_map_iff.
  exists (Z.to_nat (x - lo)). split; [lia|].
  apply in_seq. lia.
Qed.

(** The sample has at most 500 characters, so the quotients the detector
    forms are the [k / n] with [0 <= k <= n <= 500]; each of them lies
    between 0 and 1. *)
Lemma quotients_in_unit_interval :
  forallb
    (fun n =>
       forallb
         (fun k =>
            PrimFloat.leb 0%float (Py.truediv k n)
            && PrimFloat.leb (Py.truediv k n) 1%float)
         (Py.range 0 (n + 1)))
    (Py.range 1 501)
  = true.
Proof. vm_compute. reflexivity. Qed.

Lemma truediv_unit_interval n k :
  1 <= n <= 500 -> 0 <= k <= n ->
  PrimFloat.leb 0%float (Py.truediv k n) = true
  /\ PrimFloat.leb (Py.truediv k n) 1%float = true.
Proof.
  intros Hn Hk.
  pose proof quotients_in_unit_interval as T.
  rewrite forallb_forall in T.
  specialize (T n (range_In 1 501 n ltac:(lia))).
  rewrite forallb_forall in T.
  specialize (T k (range_In 0 (n + 1) k ltac:(lia))).
  apply andb_true_iff in T. exact T.
Qed.

(** For a sample of [n] characters, [0 / n] is 0, and 0 is not above
    [n * 0.05]. *)
Lemma zero_quotients :
  forallb
    (fun n =>
       float_eqb (Py.truediv 0 n) 0%float
       && negb (PrimFloat.ltb
                  (PrimFloat.mul (Py.float_of_int n) 0.05%float)
                  (Py.float_of_int 0)))
    (Py.range 1 501)
  = true.
Proof. vm_compute. reflexivity. Qed.

Lemma truediv_zero n :
  1 <= n <= 500 ->
  Py.truediv 0 n = 0%float
  /\ PrimFloat.ltb (PrimFloat.mul (Py.float_of_int n) 0.05%float)
       (Py.float_of_int 0) = false.
Proof.
  intros Hn.
  pose proof zero_quotients as T. rewrite forallb_forall in T.
  specialize (T n (range_In 1 501 n ltac:(lia))).
  apply andb_true_iff in T. destruct T as [T1 T2].
  split; [apply float_eqb_eq, T1|apply negb_true_iff, T2].
Qed.

Lemma count_if_bounds f s : 0 <= count_if f s <= Z.of_nat (List.length s).
Proof.
  unfold count_if. pose proof (filter_length_le f s). lia.
Qed.

Lemma sample_length (text : Py.str) :
  Z.of_nat (List.length (firstn 500 text)) <= 500.
Proof. rewrite length_firstn. lia. Qed.

(** *** Texts without a character of the special classes *)

Lemma count_matches_none (P : Z -> Prop) (match_at : Py.str -> option nat) :
  (forall c t, P c -> match_at (c :: t) = None) ->
  forall s skip, Forall P s -> Py.count_matches match_at skip s = O.
Proof.
  intros Hm. induction s as [|c s IH]; intros skip Hs; [reflexivity|].
  inversion Hs as [|? ? Hc Hs']; subst. cbn [Py.count_matches].
  destruct skip as [|k]; [|apply IH, Hs'].
  rewrite (Hm c s Hc). apply IH, Hs'.
Qed.

Lemma count_if_none (P : Z -> Prop) (f : Z -> bool) :
  (forall c, P c -> f c = false) ->
  forall s, Forall P s -> count_if f s = 0.
Proof.
  intros Hf s Hs. unfold count_if.
  induction Hs as [|c s Hc _ IH]; [reflexivity|].
  cbn [filter]. rewrite (Hf c Hc). exact IH.
Qed.

Lemma mem_app x l1 l2 : Py.mem x (l1 ++ l2) = Py.mem x l1 || Py.mem x l2.
Proof. unfold Py.mem. apply existsb_app. Qed.

(** An ASCII character outside the class of the mixed pattern: none of
    [# $ % & * + / < = > @ \ ^ ` | ~], no quote, no parenthesis. *)
Definition plain (c : Z) : bool :=
  (c <=? 127) && negb (Py.mem c mixed_special_class).

Lemma plain_not_known c :
  plain c = true -> Py.mem c known_corrupted_chars = false.
Proof.
  unfold plain. intros H. apply andb_true_iff in H. destruct H as [H _].
  apply Z.leb_le in H.
  destruct (Py.mem c known_corrupted_chars) eqn:E; [|reflexivity].
  unfold Py.mem in E. apply existsb_exists in E.
  destruct E as (k & Hk & Ek). apply Z.eqb_eq in Ek. subst k.
  assert (T : forallb (fun k => 127 <? k) known_corrupted_chars = true)
    by (vm_compute; reflexivity).
  rewrite forallb_forall in T. specialize (T c Hk).
  apply Z.ltb_lt in T. lia.
Qed.

Lemma plain_not_mixed c :
  plain c = true -> Py.mem c mixed_special_class = false.
Proof.
  unfold plain. intros H. apply andb_true_iff in H. destruct H as [_ H].
  apply negb_true_iff, H.
Qed.

Lemma plain_not_suspicious c :
  plain c = true -> Py.mem c suspicious_ascii = false.
Proof.
  intros H. apply plain_not_mixed in H.
  unfold mixed_special_class in H. rewrite mem_app in H.
  apply orb_false_iff in H. apply H.
Qed.

Lemma plain_not_counted c : plain c = true -> counts_as_corrupted c = false.
Proof.
  intros H. unfold counts_as_corrupted.
  pose proof (plain_not_suspicious c H) as Hs.
  unfold plain in H. apply andb_true_iff in H. destruct H as [H _].
  rewrite H. exact Hs.
Qed.

Lemma match_run_none cls n c t :
  Py.mem c cls = false -> match_run cls (S n) (c :: t) = None.
Proof. intros H. unfold match_run. cbn. rewrite H. reflexivity. Qed.

Lemma match_cid_none decimal c t :
  plain c = true -> match_cid decimal (c :: t) = None.
Proof.
  intros H. apply plain_not_mixed in H.
  unfold match_cid. cbn [Py.lit list_ascii_of_string map Py.drop_prefix].
  destruct (Z.eqb_spec (Z.of_N (N_of_ascii "(")) c) as [<-|Hne];
    [|reflexivity].
  vm_compute in H. discriminate H.
Qed.

(** *** Blank texts *)

Lemma lstrip_nil s : Py.lstrip s = [] <-> forallb Py.isspace s = true.
Proof.
  induction s as [|c s IH]; cbn; [tauto|].
  destruct (Py.isspace c); cbn; [exact IH|].
  split; discriminate.
Qed.

Lemma forallb_rev {A : Type} (f : A -> bool) l :
  forallb f (rev l) = forallb f l.
Proof.
  induction l as [|a l IH]; [reflexivity|].
  cbn. rewrite forallb_app, IH. cbn. rewrite andb_true_r. apply andb_comm.
Qed.

Lemma lstrip_spaces s :
  forallb Py.isspace (Py.lstrip s) = forallb Py.isspace s.
Proof.
  induction s as [|c s IH]; [reflexivity|].
  cbn [Py.lstrip]. destruct (Py.isspace c) eqn:E; [|reflexivity].
  cbn [forallb]. rewrite E. exact IH.
Qed.

(** [s.strip()] is empty exactly when every character of [s] is white
    space. *)
Lemma strip_nil s : Py.strip s = [] <-> forallb Py.isspace s = true.
Proof.
  unfold Py.strip.
  rewrite <- (lstrip_spaces s), <- (forallb_rev _ (Py.lstrip s)).
  rewrite <- lstrip_nil. split.
  - intros H. apply (f_equal (@rev Z)) in H. rewrite rev_involutive in H.
    exact H.
  - intros ->. reflexivity.
Qed.

Lemma blank_prefix n s :
  forallb Py.isspace s = true -> forallb Py.isspace (firstn n s) = true.
Proof.
  revert s. induction n as [|n IH]; intros [|c s]; cbn; auto.
  intros H. apply andb_true_iff in H. destruct H as [-> H]. cbn.
  apply IH, H.
Qed.

End DetectorFacts.

Import config text_validator DetectorFacts.

(** X11. Whatever the text and the threshold, the corruption ratio
    [is_text_corrupted] returns lies between 0 and 1. *)
Theorem corruption_ratio_in_unit_interval (decimal : Z -> bool)
    (cfg : Config) (text : Py.str) (threshold : option float) :
  let ratio := snd (is_text_corrupted decimal cfg text threshold) in
  PrimFloat.leb 0%float ratio = true /\ PrimFloat.leb ratio 1%float = true.
Proof.
  unfold is_text_corrupted, ratio_fallback. cbv zeta.
  destruct (_ || _); [split; reflexivity|].
  pose proof (sample_length text) as Hlen.
  destruct (Z.of_nat (List.length (firstn 500 text)) =? 0) eqn:E0;
    [split; reflexivity|].
  apply Z.eqb_neq in E0.
  destruct (3 <? _)%nat; [split; reflexivity|].
  destruct (PrimFloat.ltb _ _).
  - cbn [snd]. apply truediv_unit_interval; [lia|apply count_if_bounds].
  - destruct (3 <=? _)%nat; [split; reflexivity|].
    destruct (2 <=? _)%nat; [split; reflexivity|].
    cbn [snd]. apply truediv_unit_interval; [lia|apply count_if_bounds].
Qed.

(** X12. A text made of ASCII characters other than
    [# $ % & * + / < = > @ \ ^ ` | ~], the quotes and the parentheses is
    classified clean, with ratio 0, at every threshold that is not
    negative. *)
Theorem plain_text_is_clean (decimal : Z -> bool) (cfg : Config)
    (text : Py.str) (threshold : option float) :
  forallb plain text = true ->
  PrimFloat.leb 0%float
    (match threshold with
     | None => corruption_threshold cfg
     | Some t => t
     end) = true ->
  is_text_corrupted decimal cfg text threshold = (false, 0%float).
Proof.
  intros Hp Ht. unfold is_text_corrupted, ratio_fallback. cbv zeta.
  destruct (_ || _); [reflexivity|].
  pose proof (sample_length text) as Hlen.
  destruct (Z.of_nat (List.length (firstn 500 text)) =? 0) eqn:E0;
    [reflexivity|].
  apply Z.eqb_neq in E0.
  assert (Hs : Forall (fun c => plain c = true) (firstn 500 text)).
  { apply Forall_forall. intros c Hc.
    rewrite forallb_forall in Hp. apply Hp.
    rewrite <- (firstn_skipn 500 text). apply in_or_app. left. exact Hc. }
  rewrite (count_matches_none _ _ (match_cid_none decimal) _ _ Hs).
  cbn [Nat.ltb Nat.leb].
  rewrite (count_if_none _ _ plain_not_known _ Hs).
  destruct (truediv_zero (Z.of_nat (List.length (firstn 500 text))))
    as [Hz Hk]; [lia|].
  rewrite Hk.
  rewrite (count_matches_none _ (match_run suspicious_ascii 3)
             (fun c t H => match_run_none _ _ c t (plain_not_suspicious c H))
             _ _ Hs).
  rewrite (count_matches_none _ (match_run mixed_special_class 5)
             (fun c t H => match_run_none _ _ c t (plain_not_mixed c H))
             _ _ Hs).
  cbn [Nat.leb].
  rewrite (count_if_none _ _ plain_not_counted _ Hs), Hz.
  destruct (PrimFloat.ltb _ 0%float) eqn:El; [|reflexivity].
  pose proof (FloatOrder.leb_ltb_trans _ _ _ Ht El) as F.
  vm_compute in F. discriminate F.
Qed.

Lemma plain_text_is_clean_witness :
  is_text_corrupted ascii_decimal config.default
    (Py.lit "Revenue grew by 12.5 percent, year over year.") None
  = (false, 0%float).
Proof.
  apply (plain_text_is_clean ascii_decimal config.default
           (Py.lit "Revenue grew by 12.5 percent, year over year.") None);
    vm_compute; reflexivity.
Defined.

(** X13. Only the first 500 characters of a text count: two texts with the
    same first 500 characters, not all of them white space, get the same
    verdict and the same ratio. *)
Theorem is_text_corrupted_reads_sample (decimal : Z -> bool) (cfg : Config)
    (text text' : Py.str) (threshold : option float) :
  firstn 500 text = firstn 500 text' ->
  Py.strip (firstn 500 text) <> [] ->
  is_text_corrupted decimal cfg text threshold
  = is_text_corrupted decimal cfg text' threshold.
Proof.
  intros Hs Hb.
  assert (B : forall t : Py.str,
            firstn 500 t = firstn 500 text ->
            (match t with [] => true | _ => false end
             || (Z.of_nat (List.length (Py.strip t)) =? 0)) = false).
  { intros t Ht. apply orb_false_iff. split.
    - destruct t; [|reflexivity].
      rewrite firstn_nil in Ht. rewrite <- Ht in Hb. destruct (Hb eq_refl).
    - apply Z.eqb_neq. intros H0.
      assert (Hn : Py.strip t = [])
        by (destruct (Py.strip t); [reflexivity|discriminate H0]).
      apply strip_nil in Hn. apply (blank_prefix 500) in Hn.
      rewrite Ht in Hn. apply strip_nil in Hn. exact (Hb Hn). }
  unfold is_text_corrupted.
  rewrite (B text eq_refl), (B text' (eq_sym Hs)), Hs. reflexivity.
Qed.

Lemma is_text_corrupted_reads_sample_witness :
  is_text_corrupted ascii_decimal config.default
    (repeat 97 500 ++ Py.lit "####") None
  = is_text_corrupted ascii_decimal config.default
      (repeat 97 500 ++ Py.lit "plain") None.
Proof.
  apply (is_text_corrupted_reads_sample ascii_decimal config.default
           (repeat 97 500 ++ Py.lit "####")
           (repeat 97 500 ++ Py.lit "plain") None);
    [vm_compute; reflexivity|vm_compute; discriminate].
Defined.

(** ** [extract_non_table_text_regions] *)

Module RegionFacts.

Import content_orderer text_extractor.

(** A region holds text, and starts at the top of the page or at the
    bottom of one of the tables. *)
Definition well_placed (tables : list bbox) (r : text_region) : Prop :=
  region_text r <> []
  /\ (region_top r = 0%float
      \/ exists b, In b tables /\ region_top r = bbox_bottom b).

Lemma region_length pg b top : (List.length (region pg b top) <= 1)%nat.
Proof.
  unfold region. destruct (within_bbox_text pg b) as [[|c t]|]; cbn;
    try lia.
  destruct (_ && _); cbn; lia.
Qed.

Lemma region_text_not_blank pg b top r :
  In r (region pg b top) ->
  region_top r = top /\ region_text r <> []
  /\ Py.strip_is_empty (region_text r) = false.
Proof.
  unfold region. destruct (within_bbox_text pg b) as [[|c t]|];
    try (intros []).
  destruct (Py.strip_is_empty (c :: t)) eqn:E; [intros []|].
  intros [<-|[]]. cbn. repeat split; [discriminate|exact E].
Qed.

Lemma between_cons pg current_table next_table rest :
  between pg (current_table :: next_table :: rest)
  = (if PrimFloat.ltb (bbox_bottom current_table) (bbox_top next_table)
     then region pg
            (0%float, bbox_bottom current_table, width pg,
             bbox_top next_table)
            (bbox_bottom current_table)
     else [])
    ++ between pg (next_table :: rest).
Proof. reflexivity. Qed.

Lemma between_length pg sorted_tables :
  (List.length (between pg sorted_tables)
   <= Nat.pred (List.length sorted_tables))%nat.
Proof.
  induction sorted_tables as [|current_table rest IH];
    [cbn; apply Nat.le_refl|].
  destruct rest as [|next_table rest']; [cbn; apply Nat.le_refl|].
  rewrite between_cons, length_app.
  assert (L : forall (c : bool) b top,
            (List.length (if c then region pg b top else []) <= 1)%nat)
    by (intros [] b top; [apply region_length|cbn; lia]).
  eapply Nat.le_trans; [apply Nat.add_le_mono; [apply L|exact IH]|].
  cbn [List.length Nat.pred]. lia.
Qed.

Lemma between_regions pg sorted_tables r :
  In r (between pg sorted_tables) ->
  region_text r <> []
  /\ exists b, In b sorted_tables /\ region_top r = bbox_bottom b.
Proof.
  induction sorted_tables as [|current_table rest IH]; [intros []|].
  destruct rest as [|next_table rest']; [intros []|].
  rewrite between_cons. intros H. apply in_app_or in H.
  destruct H as [H|H].
  - destruct (PrimFloat.ltb _ _); [|destruct H].
    apply region_text_not_blank in H. destruct H as (Ht & Hn & _).
    split; [exact Hn|]. exists current_table. split; [left; reflexivity|].
    exact Ht.
  - destruct (IH H) as (Hn & b & Hb & Ht).
    split; [exact Hn|]. exists b. split; [right; exact Hb|exact Ht].
Qed.

Lemma last_In {A : Type} (l : list A) (d : A) : l <> [] -> In (last l d) l.
Proof.
  induction l as [|a l IH]; [congruence|]. intros _.
  destruct l as [|b l]; [left; reflexivity|].
  right. apply IH. discriminate.
Qed.

End RegionFacts.

Import content_orderer text_extractor RegionFacts.

(** X14. [extract_non_table_text_regions] returns at most one region more
    than there are tables; every region holds text, and starts at the top
    of the page (0) or at the bottom edge of one of the tables. *)
Theorem text_regions_between_tables (pg : page) (table_bboxes : list bbox) :
  let regions := extract_non_table_text_regions pg table_bboxes in
  (List.length regions <= List.length table_bboxes + 1)%nat
  /\ Forall (well_placed table_bboxes) regions.
Proof.
  unfold extract_non_table_text_regions.
  destruct table_bboxes as [|b0 bs].
  - destruct (extract_text pg) as [[|c t]|]; cbn; split; auto.
    constructor; [|constructor]. split; [discriminate|left; reflexivity].
  - set (tables := b0 :: bs).
    pose proof (OrdererFacts.sort_perm bbox_top tables) as Hperm.
    assert (Hlen : List.length (Py.sort bbox_top tables)
                   = List.length tables)
      by (apply Permutation_length, Hperm).
    assert (Hin : forall b, In b (Py.sort bbox_top tables) -> In b tables)
      by (intros b; apply Permutation_in, Hperm).
    pose proof (between_length pg (Py.sort bbox_top tables)) as Hb.
    pose proof (between_regions pg (Py.sort bbox_top tables)) as Hr.
    pose proof (fun d => last_In (Py.sort bbox_top tables) d) as Hlast.
    destruct (Py.sort bbox_top tables) as [|first_table rest] eqn:Es;
      [discriminate Hlen|].
    cbv zeta. split.
    + rewrite !length_app.
      assert (L : forall (c : bool) b top,
                (List.length (if c then region pg b top else []) <= 1)%nat)
        by (intros [] b top; [apply region_length|cbn; lia]).
      eapply Nat.le_trans;
        [apply Nat.add_le_mono;
         [apply L|apply Nat.add_le_mono; [exact Hb|apply L]]|].
      rewrite <- Hlen. cbn [List.length Nat.pred]. lia.
    + apply Forall_forall. intros r H.
      apply in_app_or in H. destruct H as [H|H].
      * destruct (PrimFloat.ltb _ _); [|destruct H].
        apply region_text_not_blank in H. destruct H as (Ht & Hn & _).
        split; [exact Hn|left; exact Ht].
      * apply in_app_or in H. destruct H as [H|H].
        -- destruct (Hr r H) as (Hn & b & Hb' & Ht).
           split; [exact Hn|]. right. exists b. split; [apply Hin, Hb'|exact Ht].
        -- destruct (PrimFloat.ltb _ _); [|destruct H].
           apply region_text_not_blank in H. destruct H as (Ht & Hn & _).
           split; [exact Hn|]. right.
           exists (last (first_table :: rest) first_table).
           split; [apply Hin, Hlast; discriminate|exact Ht].
Qed.

(** ** The images of a response *)

Module ImageFacts.

Import content_orderer pdf_tools RangeFacts.

Definition optional {A : Type} (x : option A) : list A :=
  match x with
  | Some a => [a]
  | None => []
  end.

(** The image references of a list of content blocks: the contents of its
    image blocks. *)
Definition block_refs (blocks : list schemas.ContentBlock) : list Py.str :=
  flat_map
    (fun b => if is_image (schemas.type b) then optional (schemas.content b)
              else [])
    blocks.

(** The image references of a page: its page image, then those of its
    content blocks. *)
Definition image_refs (pd : schemas.PageData) : list Py.str :=
  optional (schemas.page_image pd) ++ block_refs (schemas.content_blocks pd).

(** The counters of the page loop agree: the next image index and the
    image count are both the number of images extracted so far. *)
Definition counted (st : state) : Prop :=
  image_index st = Z.of_nat (List.length (extracted_images st))
  /\ total_images_count st = image_index st.

Lemma range_empty lo : Py.range lo lo = [].
Proof. apply range_nil. lia. Qed.

Lemma range_app lo mid hi :
  lo <= mid <= hi -> Py.range lo mid ++ Py.range mid hi = Py.range lo hi.
Proof.
  intros H. remember (Z.to_nat (mid - lo)) as n eqn:En.
  revert lo H En. induction n as [|n IH]; intros lo H En.
  - replace mid with lo by lia. rewrite range_empty. reflexivity.
  - rewrite (range_cons lo mid), (range_cons lo hi) by lia.
    cbn [app]. f_equal. apply IH; lia.
Qed.

Lemma range_one lo : Py.range lo (lo + 1) = [lo].
Proof. rewrite range_cons by lia. rewrite range_empty. reflexivity. Qed.

Lemma place_images_data imgs :
  forall image_index,
    map img_image_data (place_images image_index imgs)
    = map placeholder
        (Py.range image_index (image_index + Z.of_nat (List.length imgs))).
Proof.
  induction imgs as [|i imgs IH]; intros idx.
  - cbn. rewrite Z.add_0_r, range_empty. reflexivity.
  - cbn [place_images map List.length]. rewrite range_cons by lia.
    cbn [map]. f_equal. rewrite IH. f_equal. f_equal. lia.
Qed.

Lemma Permutation_filter {A : Type} (f : A -> bool) (l l' : list A) :
  Permutation l l' -> Permutation (filter f l) (filter f l').
Proof.
  induction 1 as [|x l l' _ IH|x y l|l l' l'' _ IH1 _ IH2]; cbn.
  - constructor.
  - destruct (f x); [apply perm_skip|]; exact IH.
  - destruct (f x), (f y); try apply Permutation_refl. apply perm_swap.
  - eapply perm_trans; eassumption.
Qed.

Lemma filter_none {A : Type} (f : A -> bool) (l : list A) :
  Forall (fun a => f a = false) l -> filter f l = [].
Proof.
  induction 1 as [|a l Ha _ IH]; [reflexivity|]. cbn. rewrite Ha. exact IH.
Qed.

Lemma filter_all {A : Type} (f : A -> bool) (l : list A) :
  Forall (fun a => f a = true) l -> filter f l = l.
Proof.
  induction 1 as [|a l Ha _ IH]; [reflexivity|]. cbn. rewrite Ha, IH.
  reflexivity.
Qed.

(** The image blocks among the ordered blocks are the images handed to
    [order_content_blocks], rearranged. *)
Lemma ordered_image_blocks text_regions tables images :
  Permutation
    (map content
       (filter (fun b => is_image (type b))
          (order_content_blocks text_regions tables images)))
    (map img_image_data images).
Proof.
  unfold order_content_blocks.
  rewrite OrdererFacts.filter_map_comm, map_map.
  change (fun a => is_image (type (add_position a)))
    with (fun a => is_image (raw_type a)).
  eapply perm_trans.
  - apply Permutation_map, Permutation_filter, OrdererFacts.sort_perm.
  - unfold all_blocks. rewrite !filter_app.
    rewrite (filter_none _ (map of_text text_regions))
      by (apply Forall_map, Forall_forall; reflexivity).
    rewrite (filter_none _ (map of_table tables))
      by (apply Forall_map, Forall_forall; reflexivity).
    rewrite (filter_all _ (map of_image images))
      by (apply Forall_map, Forall_forall; reflexivity).
    cbn [app]. rewrite map_map. apply Permutation_refl.
Qed.

(** The conversion to content blocks keeps every image block, whether the
    text blocks are skipped or not. *)
Lemma to_content_blocks_refs decimal should_skip_text_blocks ordered_blocks :
  block_refs
    (to_content_blocks decimal should_skip_text_blocks ordered_blocks)
  = map content (filter (fun b => is_image (type b)) ordered_blocks).
Proof.
  unfold to_content_blocks, block_refs.
  destruct should_skip_text_blocks.
  - induction ordered_blocks as [|b l IH]; [reflexivity|].
    cbn [filter]. destruct (is_image (type b)) eqn:E; [|exact IH].
    cbn [map flat_map schemas.type schemas.content]. rewrite E, IH.
    reflexivity.
  - induction ordered_blocks as [|b l IH]; [reflexivity|].
    cbn [filter flat_map]. rewrite flat_map_app, IH.
    destruct (type b) eqn:E; cbn [is_text is_image andb].
    + destruct (negb _); [destruct (is_page_number_separator _ _)|];
        cbn; rewrite ?E; reflexivity.
    + reflexivity.
    + reflexivity.
Qed.

Lemma merge_adjacent_text_blocks_id blocks :
  merge_adjacent_text_blocks blocks = blocks.
Proof. destruct blocks; reflexivity. Qed.

Lemma page_block_refs decimal should_skip_text_blocks text_regions tables
    images :
  Permutation
    (block_refs
       (to_content_blocks decimal should_skip_text_blocks
          (merge_adjacent_text_blocks
             (order_content_blocks text_regions tables images))))
    (map img_image_data images).
Proof.
  rewrite to_content_blocks_refs, merge_adjacent_text_blocks_id.
  apply ordered_image_blocks.
Qed.

(** *** One page *)

(** The rendering step takes the next index for the page image, if there
    is one. *)
Lemma render_page_image_refs input page page_num st :
  counted st ->
  let '(_, page_image, _, _, st1) :=
    render_page_image input page page_num st in
  counted st1
  /\ image_index st <= image_index st1
  /\ optional page_image
     = map placeholder (Py.range (image_index st) (image_index st1))
  /\ exists added,
       extracted_images st1 = extracted_images st ++ added
       /\ Forall (fun i => format i = jpeg) added.
Proof.
  intros [H1 H2]. unfold render_page_image.
  destruct (render page input) as [img|].
  - unfold counted. cbn [image_index total_images_count extracted_images].
    rewrite length_app, Nat2Z.inj_add, range_one. cbn.
    repeat split; try lia.
    eexists. split; [reflexivity|]. repeat constructor.
  - rewrite range_empty. repeat split; try assumption; try lia.
    exists []. rewrite app_nil_r. split; [reflexivity|constructor].
Qed.

(** The embedded images take the indices that follow. *)
Lemma extract_embedded_images_refs input page page_num st :
  counted st ->
  let '(_, images_with_position, st2) :=
    extract_embedded_images input page page_num st in
  counted st2
  /\ image_index st <= image_index st2
  /\ map img_image_data images_with_position
     = map placeholder (Py.range (image_index st) (image_index st2))
  /\ exists added,
       extracted_images st2 = extracted_images st ++ added
       /\ Forall (fun i => format i = png) added.
Proof.
  intros [H1 H2]. unfold extract_embedded_images, counted.
  cbn [image_index total_images_count extracted_images].
  rewrite length_app, length_map, Nat2Z.inj_add, place_images_data.
  repeat split; try lia.
  eexists. split; [reflexivity|].
  apply Forall_map, Forall_forall. reflexivity.
Qed.

(** The references of a page, from its page image and its images. *)
Lemma page_refs decimal should_skip_text_blocks text_regions tables
    (page_image : option Py.str) images i0 i1 i2 :
  i0 <= i1 <= i2 ->
  optional page_image = map placeholder (Py.range i0 i1) ->
  map img_image_data images = map placeholder (Py.range i1 i2) ->
  Permutation
    (optional page_image
     ++ block_refs
          (to_content_blocks decimal should_skip_text_blocks
             (merge_adjacent_text_blocks
                (order_content_blocks text_regions tables images))))
    (map placeholder (Py.range i0 i2)).
Proof.
  intros H Hp Hi.
  rewrite <- (range_app i0 i1 i2 H), map_app, <- Hp, <- Hi.
  apply Permutation_app_head, page_block_refs.
Qed.

(** What a page adds to the images of the response. *)
Record page_images (st st' : state) (pd : schemas.PageData)
    (added : list image_out) : Prop :=
  { next_counted : counted st';
    next_index : image_index st <= image_index st';
    next_images : extracted_images st' = extracted_images st ++ added;
    refs_placed :
      Permutation (image_refs pd)
        (map placeholder (Py.range (image_index st) (image_index st'))) }.

Lemma process_page_images decimal cfg input pike_pdf page page_num st :
  counted st ->
  let r := process_page decimal cfg input pike_pdf page page_num st in
  exists added,
    page_images st (next_state r) (page_data r) added
    /\ match schemas.extraction_mode input with
       | schemas.auto => True
       | schemas.text_only =>
           added = []
           /\ schemas.page_image (page_data r) = None
           /\ block_refs (schemas.content_blocks (page_data r)) = []
       | schemas.image_only =>
           Forall (fun i => format i = jpeg) added
           /\ (List.length added <= 1)%nat
           /\ schemas.content_blocks (page_data r) = []
           /\ schemas.text_corrupted (page_data r) = None
       end.
Proof.
  intros Hst r. subst r. unfold process_page.
  pose proof (render_page_image_refs input page page_num st Hst) as Hr.
  destruct (schemas.extraction_mode input) eqn:Em; cbv beta iota zeta.
  - (* auto *)
    destruct (extract_text_and_tables page page_num)
      as [[[ev1 twp] tl] ft].
    destruct (detect_corruption decimal cfg page page_num
                (all_text_for_check ft twp)) as [ev2 [tc ratio]].
    destruct tc.
    + destruct (render_page_image input page page_num st)
        as [[[[ev3 pimg] w] h] st1].
      destruct Hr as (C1 & L1 & P1 & a1 & E1 & _).
      destruct pike_pdf; cbn [negb andb].
      * pose proof (extract_embedded_images_refs input page page_num st1 C1)
          as He.
        destruct (extract_embedded_images input page page_num st1)
          as [[ev4 iwp] st2].
        destruct He as (C2 & L2 & P2 & a2 & E2 & _).
        exists (a1 ++ a2). split; [|exact I].
        constructor; cbn [next_state page_data];
          [exact C2|lia|rewrite E2, E1, app_assoc; reflexivity|].
        apply page_refs with (i1 := image_index st1); [lia|exact P1|exact P2].
      * exists a1. split; [|exact I].
        constructor; cbn [next_state page_data];
          [exact C1|lia|exact E1|].
        apply page_refs with (i1 := image_index st1);
          [lia|exact P1|rewrite range_empty; reflexivity].
    + clear Hr. destruct pike_pdf; cbn [negb andb].
      * pose proof (extract_embedded_images_refs input page page_num st Hst)
          as He.
        destruct (extract_embedded_images input page page_num st)
          as [[ev4 iwp] st2].
        destruct He as (C2 & L2 & P2 & a2 & E2 & _).
        exists a2. split; [|exact I].
        constructor; cbn [next_state page_data];
          [exact C2|lia|exact E2|].
        apply page_refs with (i1 := image_index st);
          [lia|rewrite range_empty; reflexivity|exact P2].
      * exists []. split; [|exact I].
        constructor; cbn [next_state page_data];
          [exact Hst|lia|rewrite app_nil_r; reflexivity|].
        apply page_refs with (i1 := image_index st);
          [lia|rewrite range_empty; reflexivity
          |rewrite range_empty; reflexivity].
  - (* text_only *)
    clear Hr.
    destruct (extract_text_and_tables page page_num)
      as [[[ev1 twp] tl] ft].
    destruct (detect_corruption decimal cfg page page_num
                (all_text_for_check ft twp)) as [ev2 [tc ratio]].
    cbn [negb andb]. exists [].
    assert (B : block_refs
                  (to_content_blocks decimal false
                     (merge_adjacent_text_blocks
                        (order_content_blocks tl twp []))) = []).
    { apply Permutation_nil, Permutation_sym.
      apply (page_block_refs decimal false tl twp []). }
    split; [|cbn [page_data schemas.page_image schemas.content_blocks];
             repeat split; [exact B]].
    constructor; cbn [next_state page_data];
      [exact Hst|lia|rewrite app_nil_r; reflexivity|].
    apply page_refs with (i1 := image_index st);
      [lia|rewrite range_empty; reflexivity|rewrite range_empty; reflexivity].
  - (* image_only *)
    destruct (probe_text decimal cfg page page_num) as [[ev1 ecc] hint].
    destruct (render_page_image input page page_num st)
      as [[[[ev3 pimg] w] h] st1] eqn:Er.
    destruct Hr as (C1 & L1 & P1 & a1 & E1 & J1).
    cbn [negb andb]. exists a1. split.
    + constructor; cbn [next_state page_data];
        [exact C1|lia|exact E1|].
      apply page_refs with (i1 := image_index st1);
        [lia|exact P1|rewrite range_empty; reflexivity].
    + cbn [page_data schemas.content_blocks schemas.text_corrupted].
      split; [exact J1|]. split; [|split; reflexivity].
      revert Er E1. unfold render_page_image.
      destruct (render page input) as [img|]; intros [= <- <- <- <- <-];
        cbn [extracted_images]; intros E1.
      * apply app_inv_head in E1. subst a1. cbn. lia.
      * rewrite <- (app_nil_r (extracted_images st)) in E1 at 1.
        apply app_inv_head in E1. subst a1. cbn. lia.
Qed.

End ImageFacts.

(** ** The ways [read_pdf_handler] ends *)

Module ExitFacts.

Import Py (outcome, Returns, Throws, result, Ok, Raises, OutOfFuel).
Import pdf_tools HandlerFacts.

Section Exits.
Variables (decimal : Z -> bool) (cfg : config.Config) (env : environment)
  (arguments : schemas.arguments).

(** The response for a file that does not exist. *)
Definition not_found_response (pdf_path : path) : schemas.response :=
  let similar_files := find_similar_pdfs (fs env) (str_of_path pdf_path) in
  schemas.Failure
    {| schemas.error := validators.FILE_NOT_FOUND;
       schemas.message :=
         schemas.FileNotFoundMessage (str_of_path pdf_path) similar_files;
       schemas.total_pages := None;
       schemas.total_images := None;
       schemas.suggested_ranges := None;
       schemas.suggested_files :=
         match similar_files with
         | [] => None
         | _ => Some similar_files
         end |}.

(** The calls that open the document for extraction. *)
Definition open_events (input : schemas.ReadPDFInput) (pdf_path : path)
    : list event :=
  ValidationScan (str_of_path pdf_path)
  :: PdfplumberOpen (str_of_path pdf_path)
  :: match schemas.extraction_mode input with
     | schemas.auto => [PikepdfOpen (str_of_path pdf_path)]
     | _ => []
     end.

(** The page loop as the handler starts it on the opened document. *)
Definition page_loop (input : schemas.ReadPDFInput) (pdf_path : path)
    (pdf : list page_source) : M (list schemas.PageData * state) :=
  process_pages decimal cfg input
    match schemas.extraction_mode input with
    | schemas.auto =>
        match pikepdf_open env (str_of_path pdf_path) with
        | Returns _ => true
        | Throws _ => false
        end
    | _ => false
    end
    pdf
    (Py.range (schemas.start_page input)
       (validators.actual_end (schemas.end_page input)
          (Z.of_nat (List.length pdf)) + 1))
    {| image_index := 0; total_images_count := 0; extracted_images := [] |}
    [].

(** The request passed the checks and the validation, and pdfplumber
    opened the document. *)
Definition opened (input : schemas.ReadPDFInput) (pdf_path : path)
    (pdf : list page_source) : Prop :=
  schemas.parse cfg arguments = Some input
  /\ request_path (fs env) input = Returns pdf_path
  /\ admitted (fs env) pdf_path
  /\ (exists validation,
        validators.validate_pdf_read_request cfg (pikepdf_open env)
          (str_of_path pdf_path) (schemas.start_page input)
          (schemas.end_page input) = Ok validation
        /\ validators.valid validation = true)
  /\ pdfplumber_open env (str_of_path pdf_path) = Returns pdf.

(** Every way the handler ends, with the trace and the answer. *)
Inductive handled : list event -> schemas.response * list image_out -> Prop :=
| handled_arguments :
    schemas.parse cfg arguments = None ->
    handled [] (on_exception validation_error, [])
| handled_path_error input e :
    schemas.parse cfg arguments = Some input ->
    request_path (fs env) input = Throws e ->
    handled [] (on_exception e, [])
| handled_not_found input pdf_path :
    schemas.parse cfg arguments = Some input ->
    request_path (fs env) input = Returns pdf_path ->
    exists_ (fs env) pdf_path = false ->
    handled [] (not_found_response pdf_path, [])
| handled_security_error input pdf_path e :
    schemas.parse cfg arguments = Some input ->
    request_path (fs env) input = Returns pdf_path ->
    exists_ (fs env) pdf_path = true ->
    (resolve (fs env) (cwd (fs env)) = Throws e
     \/ exists resolved_cwd,
          resolve (fs env) (cwd (fs env)) = Returns resolved_cwd
          /\ validate_path_security (fs env) pdf_path resolved_cwd
             = Throws e) ->
    handled [] (on_exception e, [])
| handled_outside input pdf_path resolved_cwd :
    schemas.parse cfg arguments = Some input ->
    request_path (fs env) input = Returns pdf_path ->
    exists_ (fs env) pdf_path = true ->
    resolve (fs env) (cwd (fs env)) = Returns resolved_cwd ->
    validate_path_security (fs env) pdf_path resolved_cwd = Returns false ->
    handled []
      (schemas.Failure
         (schemas.bare_error validators.PERMISSION_DENIED
            schemas.AccessDeniedOutsideWorkingDirectory), [])
| handled_unreadable input pdf_path :
    schemas.parse cfg arguments = Some input ->
    request_path (fs env) input = Returns pdf_path ->
    exists_ (fs env) pdf_path = true ->
    readable (fs env) pdf_path = false ->
    handled []
      (schemas.Failure
         (schemas.bare_error validators.PERMISSION_DENIED
            (schemas.CannotReadFile (str_of_path pdf_path))), [])
| handled_rejected input pdf_path validation :
    schemas.parse cfg arguments = Some input ->
    request_path (fs env) input = Returns pdf_path ->
    admitted (fs env) pdf_path ->
    validators.validate_pdf_read_request cfg (pikepdf_open env)
      (str_of_path pdf_path) (schemas.start_page input)
      (schemas.end_page input) = Ok validation ->
    validators.valid validation = false ->
    handled [ValidationScan (str_of_path pdf_path)]
      (rejection_response validation, [])
| handled_open_error input pdf_path validation e :
    schemas.parse cfg arguments = Some input ->
    request_path (fs env) input = Returns pdf_path ->
    admitted (fs env) pdf_path ->
    validators.validate_pdf_read_request cfg (pikepdf_open env)
      (str_of_path pdf_path) (schemas.start_page input)
      (schemas.end_page input) = Ok validation ->
    validators.valid validation = true ->
    pdfplumber_open env (str_of_path pdf_path) = Throws e ->
    handled [ValidationScan (str_of_path pdf_path);
             PdfplumberOpen (str_of_path pdf_path)]
      (on_exception e, [])
| handled_page_error input pdf_path pdf t e :
    opened input pdf_path pdf ->
    page_loop input pdf_path pdf = (t, Raise e) ->
    handled (open_events input pdf_path ++ t) (on_exception e, [])
| handled_success input pdf_path pdf t pages_data st :
    opened input pdf_path pdf ->
    page_loop input pdf_path pdf = (t, Next (pages_data, st)) ->
    handled (open_events input pdf_path ++ t)
      (schemas.Success
         {| schemas.read_file_path := str_of_path pdf_path;
            schemas.pages := pages_data;
            schemas.total_pages_read := Z.of_nat (List.length pages_data);
            schemas.total_images_read := total_images_count st |},
       extracted_images st).

Lemma read_pdf_handler_handled :
  exists t r,
    read_pdf_handler decimal cfg env arguments = (t, Ok r) /\ handled t r.
Proof.
  unfold read_pdf_handler, read_pdf_body.
  destruct (schemas.parse cfg arguments) as [input|] eqn:Ep.
  2:{ eexists _, _. split; [reflexivity|]. apply handled_arguments, Ep. }
  change (schemas.parse cfg arguments = Some input) in Ep.
  rewrite bind_lift_ok.
  destruct (request_path (fs env) input) as [pdf_path|e] eqn:Er.
  2:{ eexists _, _. split; [reflexivity|].
      eapply handled_path_error; eassumption. }
  rewrite bind_lift_ok.
  destruct (exists_ (fs env) pdf_path) eqn:Ee.
  2:{ rewrite bind_leave. eexists _, _. split; [reflexivity|].
      eapply handled_not_found; eassumption. }
  rewrite bind_ret.
  destruct (resolve (fs env) (cwd (fs env))) as [rc|e] eqn:Ec.
  2:{ eexists _, _. split; [reflexivity|].
      eapply handled_security_error; eauto. }
  rewrite bind_lift_ok.
  destruct (validate_path_security (fs env) pdf_path rc) as [[]|e] eqn:Es.
  2:{ rewrite bind_lift_ok, bind_leave. eexists _, _. split; [reflexivity|].
      eapply handled_outside; eassumption. }
  2:{ eexists _, _. split; [reflexivity|].
      eapply handled_security_error; eauto. }
  rewrite bind_lift_ok, bind_ret.
  destruct (readable (fs env) pdf_path) eqn:Ea.
  2:{ rewrite bind_leave. eexists _, _. split; [reflexivity|].
      eapply handled_unreadable; eassumption. }
  assert (A : admitted (fs env) pdf_path)
    by (split; [exact Ee|split; [exists rc; split; assumption|exact Ea]]).
  rewrite bind_ret, bind_emit.
  destruct (ValidateFacts.validate_pdf_read_request_answers cfg
              (pikepdf_open env) (str_of_path pdf_path)
              (schemas.start_page input) (schemas.end_page input))
    as [validation Ev].
  rewrite Ev, bind_lift_result_ok.
  destruct (validators.valid validation) eqn:Hv.
  2:{ exists [ValidationScan (str_of_path pdf_path)],
        (rejection_response validation, []). split.
      - unfold rejection_response, rejection.
        destruct (validators.error validation),
          (validators.message_field validation); reflexivity.
      - eapply handled_rejected; eassumption. }
  rewrite bind_ret, bind_emit.
  destruct (pdfplumber_open env (str_of_path pdf_path)) as [pdf|e] eqn:Eo.
  2:{ eexists _, _. split; [reflexivity|].
      eapply handled_open_error; eassumption. }
  assert (O : opened input pdf_path pdf).
  { split; [exact Ep|]. split; [exact Er|]. split; [exact A|].
    split; [exists validation; split; assumption|exact Eo]. }
  rewrite bind_lift_ok. cbv zeta.
  pose proof (fun t e => handled_page_error input pdf_path pdf t e O) as Hpe.
  pose proof (fun t p st => handled_success input pdf_path pdf t p st O)
    as Hok.
  unfold page_loop, open_events in Hpe, Hok.
  fold (validators.actual_end (schemas.end_page input)
          (Z.of_nat (List.length pdf))).
  destruct (schemas.extraction_mode input);
    cbn [bind emit ret fst snd app];
    match goal with
    | |- context [process_pages ?d ?c ?i ?k ?p ?n ?s0 ?a] =>
        destruct (process_pages d c i k p n s0 a)
          as [t5 [[out st']|r|e|]] eqn:El
    end; cbn [bind ret fst snd app];
    try (destruct (process_pages_no_return _ _ _ _ _ _ _ _ _ _ El));
    try (destruct (process_pages_not_stuck _ _ _ _ _ _ _ _ _ El));
    rewrite ?app_nil_r;
    eexists _, _; (split; [reflexivity|]);
    first [exact (Hok _ _ _ eq_refl)|exact (Hpe _ _ eq_refl)].
Qed.

End Exits.

End ExitFacts.

(** ** The responses of [read_pdf_handler] *)

Module ResponseFacts.

Import Py (outcome, Returns, Throws, result, Ok, Raises, OutOfFuel).
Import content_orderer pdf_tools RangeFacts HandlerFacts ImageFacts ExitFacts.

(** *** The page loop *)

(** A property of the counters and of the pages read so far that the
    body of the loop keeps holds when the loop ends. *)
Lemma process_pages_invariant decimal cfg input pike_pdf pdf
    (I : state -> list schemas.PageData -> Prop) :
  (forall st pages_data page page_num,
     I st pages_data ->
     Py.index pdf (page_num - 1) = Some page ->
     let r := process_page decimal cfg input pike_pdf page page_num st in
     I (next_state r) (pages_data ++ [page_data r])) ->
  forall page_nums st pages_data t out st',
    I st pages_data ->
    process_pages decimal cfg input pike_pdf pdf page_nums st pages_data
    = (t, Next (out, st')) ->
    I st' out.
Proof.
  intros Hbody. induction page_nums as [|page_num rest IH];
    intros st acc t out st' Hacc H; cbn [process_pages] in H.
  - injection H as _ <- <-. exact Hacc.
  - destruct (page_num >? Z.of_nat (List.length pdf)).
    + injection H as _ <- <-. exact Hacc.
    + destruct (Py.index pdf (page_num - 1)) as [page|] eqn:Ei;
        [|discriminate H].
      rewrite bind_lift_ok in H.
      apply bind_next_inv in H.
      destruct H as (t3 & [] & t4 & _ & H & _).
      apply IH in H; [exact H|].
      apply Hbody; assumption.
Qed.

(** The calls of the loop are calls of its body. *)
Lemma process_pages_trace decimal cfg input pike_pdf pdf
    (P : event -> Prop) :
  (forall page page_num st,
     Forall P (events
                 (process_page decimal cfg input pike_pdf page page_num st))) ->
  forall page_nums st pages_data,
    Forall P
      (fst (process_pages decimal cfg input pike_pdf pdf page_nums st
              pages_data)).
Proof.
  intros Hbody. induction page_nums as [|page_num rest IH];
    intros st acc; cbn [process_pages]; [constructor|].
  destruct (page_num >? Z.of_nat (List.length pdf)); [constructor|].
  destruct (Py.index pdf (page_num - 1)) as [page|]; [|constructor].
  rewrite bind_lift_ok. unfold emit_all, bind at 1.
  match goal with
  | |- context [process_pages ?d ?c ?i ?k ?p ?n ?s0 ?a] =>
      specialize (IH s0 a);
      destruct (process_pages d c i k p n s0 a) as [t' x]
  end.
  cbn [fst] in *. apply Forall_app. split; [apply Hbody|exact IH].
Qed.

(** Where no page number is past the end of the document, the loop adds
    one page for each page number, in order. *)
Lemma process_pages_numbers decimal cfg input pike_pdf pdf :
  forall page_nums st pages_data t out st',
    Forall (fun p => p <= Z.of_nat (List.length pdf)) page_nums ->
    process_pages decimal cfg input pike_pdf pdf page_nums st pages_data
    = (t, Next (out, st')) ->
    map schemas.page_number out
    = map schemas.page_number pages_data ++ page_nums.
Proof.
  induction page_nums as [|page_num rest IH];
    intros st acc t out st' Hp H; cbn [process_pages] in H.
  - injection H as _ <- _. rewrite app_nil_r. reflexivity.
  - inversion Hp as [|? ? Hp1 Hp2]; subst.
    replace (page_num >? Z.of_nat (List.length pdf)) with false in H
      by (symmetry; rewrite Z.gtb_ltb; apply Z.ltb_ge; exact Hp1).
    destruct (Py.index pdf (page_num - 1)) as [page|]; [|discriminate H].
    rewrite bind_lift_ok in H.
    apply bind_next_inv in H.
    destruct H as (t3 & [] & t4 & _ & H & _).
    apply (IH _ _ _ _ _ Hp2) in H.
    rewrite H, map_app. cbn [map]. rewrite process_page_number.
    rewrite <- app_assoc. reflexivity.
Qed.

Lemma range_bounds lo hi x : In x (Py.range lo hi) -> lo <= x < hi.
Proof.
  unfold Py.range. intros H. apply in_map_iff in H.
  destruct H as (k & <- & Hk). apply in_seq in Hk. lia.
Qed.

(** *** Successful responses *)

Lemma handled_success_inv decimal cfg env arguments t s imgs :
  handled decimal cfg env arguments t (schemas.Success s, imgs) ->
  exists input pdf_path pdf t' st,
    opened cfg env arguments input pdf_path pdf
    /\ page_loop decimal cfg env input pdf_path pdf
       = (t', Next (schemas.pages s, st))
    /\ t = open_events input pdf_path ++ t'
    /\ imgs = extracted_images st
    /\ schemas.total_images_read s = total_images_count st
    /\ schemas.total_pages_read s
       = Z.of_nat (List.length (schemas.pages s)).
Proof.
  intros H. inversion H as
    [ |? ? ? ? |? ? ? ? ? |? ? ? ? ? ? ? |? ? ? ? ? ? ? ?|? ? ? ? ? ?
    |input pdf_path validation ? ? ? ? ? |? ? ? ? ? ? ? ? ? ?
    |? ? ? ? ? ? ? |input pdf_path pdf t' pages_data st O L]; subst;
    try discriminate.
  - destruct (rejection_response_failure validation) as [e He].
    congruence.
  - exists input, pdf_path, pdf, t', st. cbn.
    split; [exact O|]. split; [exact L|]. repeat split.
Qed.

Lemma success_inv decimal cfg env arguments t s imgs :
  read_pdf_handler decimal cfg env arguments
  = (t, Ok (schemas.Success s, imgs)) ->
  exists input pdf_path pdf t' st,
    opened cfg env arguments input pdf_path pdf
    /\ page_loop decimal cfg env input pdf_path pdf
       = (t', Next (schemas.pages s, st))
    /\ t = open_events input pdf_path ++ t'
    /\ imgs = extracted_images st
    /\ schemas.total_images_read s = total_images_count st
    /\ schemas.total_pages_read s
       = Z.of_nat (List.length (schemas.pages s)).
Proof.
  intros H.
  destruct (read_pdf_handler_handled decimal cfg env arguments)
    as (t0 & r & E & Hh).
  rewrite E in H. injection H as -> ->.
  apply handled_success_inv, Hh.
Qed.

(** What the schema guarantees of a validated input. *)
Lemma parse_page_range cfg arguments input :
  schemas.parse cfg arguments = Some input ->
  1 <= schemas.start_page input
  /\ match schemas.end_page input with
     | None => True
     | Some e => schemas.start_page input <= e
     end.
Proof.
  unfold schemas.parse.
  destruct (schemas.arg_file_path arguments); [|discriminate].
  destruct (_ <? 1) eqn:E1; [discriminate|].
  apply Z.ltb_ge in E1.
  destruct (schemas.arg_end_page arguments) as [e|] eqn:Ee.
  - destruct ((1 <=? e) && negb (e <? _)) eqn:E; [|discriminate].
    apply andb_true_iff in E. destruct E as [_ E].
    apply negb_true_iff, Z.ltb_ge in E. cbn [negb].
    destruct (schemas.bounded _ _ _ _); [|discriminate].
    destruct (schemas.mode_of_str _); [|discriminate].
    destruct (schemas.bounded _ _ _ _); [|discriminate].
    intros [= <-]. cbn. split; assumption.
  - cbn [negb].
    destruct (schemas.bounded _ _ _ _); [|discriminate].
    destruct (schemas.mode_of_str _); [|discriminate].
    destruct (schemas.bounded _ _ _ _); [|discriminate].
    intros [= <-]. cbn. split; [assumption|exact I].
Qed.

(** The pages of a successful response, with the request they answer. *)
Lemma response_pages_inv decimal cfg env arguments t s imgs :
  read_pdf_handler decimal cfg env arguments
  = (t, Ok (schemas.Success s, imgs)) ->
  exists input pdf_path pdf,
    schemas.parse cfg arguments = Some input
    /\ request_path (fs env) input = Returns pdf_path
    /\ (exists validation,
          validators.validate_pdf_read_request cfg (pikepdf_open env)
            (str_of_path pdf_path) (schemas.start_page input)
            (schemas.end_page input) = Ok validation
          /\ validators.valid validation = true)
    /\ pdfplumber_open env (str_of_path pdf_path) = Returns pdf
    /\ map schemas.page_number (schemas.pages s)
       = Py.range (schemas.start_page input)
           (validators.actual_end (schemas.end_page input)
              (Z.of_nat (List.length pdf)) + 1)
    /\ schemas.total_pages_read s
       = Z.of_nat (List.length (schemas.pages s)).
Proof.
  intros H.
  destruct (success_inv _ _ _ _ _ _ _ H)
    as (input & pdf_path & pdf & t' & st & O & L & _ & _ & _ & Hn).
  destruct O as (Hp & Hr & _ & Hv & Ho).
  exists input, pdf_path, pdf. repeat split; try assumption.
  unfold page_loop in L.
  apply process_pages_numbers in L; [exact L|].
  apply Forall_forall. intros p Hin. apply range_bounds in Hin.
  unfold validators.actual_end in Hin. lia.
Qed.

End ResponseFacts.

(** ** The extraction modes *)

Module ModeFacts.

Import Py (outcome, Returns, Throws, result, Ok, Raises, OutOfFuel).
Import content_orderer pdf_tools HandlerFacts ImageFacts ExitFacts
  ResponseFacts.

(** The calls that produce images: rendering a page, extracting embedded
    images, and the handler's pikepdf open that serves them.  The open the
    validator makes for its scan is part of [ValidationScan]. *)
Definition shows_images (e : event) : bool :=
  match e with
  | RenderPage _ | ExtractImages _ | PikepdfOpen _ => true
  | _ => false
  end.

(** The calls that extract tables, text regions or embedded images. *)
Definition reads_structure (e : event) : bool :=
  match e with
  | ExtractTables _ | FindTables _ | ExtractTextRegions _
  | ExtractImages _ | PikepdfOpen _ => true
  | _ => false
  end.

Lemma detect_corruption_events decimal cfg page page_num text :
  Forall (fun e => e = PdfminerCheck page_num
                   \/ e = CharacterHeuristic page_num)
    (fst (detect_corruption decimal cfg page page_num text)).
Proof.
  unfold detect_corruption.
  destruct (text_validator.check_pdf_corruption_with_pdfminer _) as [[] wc];
    cbn [fst]; repeat (constructor; [auto|]); constructor.
Qed.

(** Without an image, no block is an image block. *)
Lemma no_image_blocks decimal text_regions tables :
  Forall (fun b => schemas.type b <> image)
    (to_content_blocks decimal false
       (merge_adjacent_text_blocks
          (order_content_blocks text_regions tables []))).
Proof.
  rewrite merge_adjacent_text_blocks_id.
  assert (H : Forall (fun b => type b <> image)
                (order_content_blocks text_regions tables [])).
  { unfold order_content_blocks. apply Forall_map.
    apply OrdererFacts.sort_Forall. unfold all_blocks. cbn [map].
    rewrite app_nil_r. apply Forall_app.
    split; apply Forall_map, Forall_forall; intros x _; discriminate. }
  unfold to_content_blocks. induction H as [|b l Hb _ IH]; [constructor|].
  cbn [flat_map]. apply Forall_app. split; [|exact IH].
  destruct (is_text (type b) && _);
    [destruct (is_page_number_separator _ _)|];
    repeat constructor; exact Hb.
Qed.

(** A page in [text_only] mode. *)
Lemma text_only_page decimal cfg input pike_pdf page page_num st :
  schemas.extraction_mode input = schemas.text_only ->
  let r := process_page decimal cfg input pike_pdf page page_num st in
  Forall (fun e => shows_images e = false) (events r)
  /\ next_state r = st
  /\ schemas.page_image (page_data r) = None
  /\ Forall (fun b => schemas.type b <> image)
       (schemas.content_blocks (page_data r)).
Proof.
  intros Hm r. subst r. unfold process_page. rewrite Hm.
  cbv beta iota zeta.
  pose proof (PageFacts.extract_text_and_tables_events page page_num) as H1.
  destruct (extract_text_and_tables page page_num) as [[[ev1 twp] tl] ft].
  pose proof (detect_corruption_events decimal cfg page page_num
                (all_text_for_check ft twp)) as H2.
  destruct (detect_corruption decimal cfg page page_num
              (all_text_for_check ft twp)) as [ev2 [tc ratio]].
  cbn [fst snd negb andb events next_state page_data schemas.page_image
         schemas.content_blocks] in *.
  split; [|split; [reflexivity|split; [reflexivity|apply no_image_blocks]]].
  rewrite !app_nil_r. apply Forall_app. split.
  - apply Forall_forall. intros e He.
    destruct (H1 e He) as [->|[->| ->]]; reflexivity.
  - eapply Forall_impl; [|exact H2]. intros e [->| ->]; reflexivity.
Qed.

(** A page in [image_only] mode. *)
Lemma image_only_page decimal cfg input pike_pdf page page_num st :
  schemas.extraction_mode input = schemas.image_only ->
  let r := process_page decimal cfg input pike_pdf page page_num st in
  Forall (fun e => reads_structure e = false) (events r)
  /\ In (RenderPage page_num) (events r).
Proof.
  intros Hm r. subst r. unfold process_page. rewrite Hm.
  cbv beta iota zeta.
  assert (H1 : Forall (fun e => reads_structure e = false)
                 (fst (fst (probe_text decimal cfg page page_num)))).
  { unfold probe_text. cbv zeta. destruct (_ >? 0); [|repeat constructor].
    match goal with
    | |- context [detect_corruption ?d ?c ?p ?n ?x] =>
        pose proof (detect_corruption_events d c p n x) as H2;
        destruct (detect_corruption d c p n x) as [ev [tc ratio]]
    end.
    cbn [fst] in *. constructor; [reflexivity|].
    eapply Forall_impl; [|exact H2]. intros e [->| ->]; reflexivity. }
  destruct (probe_text decimal cfg page page_num) as [[ev1 ecc] hint].
  pose proof (PageFacts.render_page_image_events input page page_num st)
    as H3.
  destruct (render_page_image input page page_num st)
    as [[[[ev3 pimg] w] h] st1].
  cbn [fst snd negb andb events] in *. subst ev3. rewrite app_nil_r.
  split.
  - apply Forall_app. split; [exact H1|repeat constructor].
  - apply in_or_app. right. left. reflexivity.
Qed.

(** The calls of a request are those that open the document and those of
    the pages. *)
Lemma handled_trace decimal cfg env arguments (P : event -> Prop) :
  (forall input pdf_path,
     schemas.parse cfg arguments = Some input ->
     Forall P (open_events input pdf_path)) ->
  (forall input pike_pdf page page_num st,
     schemas.parse cfg arguments = Some input ->
     Forall P (events
                 (process_page decimal cfg input pike_pdf page page_num st))) ->
  forall t r, handled decimal cfg env arguments t r -> Forall P t.
Proof.
  intros Ho Hb t r H.
  assert (Hl : forall input pdf_path pdf,
            schemas.parse cfg arguments = Some input ->
            Forall P (open_events input pdf_path
                      ++ fst (page_loop decimal cfg env input pdf_path pdf))).
  { intros input pdf_path pdf Hp. apply Forall_app. split; [apply Ho, Hp|].
    apply process_pages_trace. intros page page_num st. apply Hb, Hp. }
  destruct H as
    [ | | | | |
    |input pdf_path validation Hp _ _ _ _
    |input pdf_path validation e Hp _ _ _ _ _
    |input pdf_path pdf t e O L|input pdf_path pdf t pages_data st O L].
  1-6: constructor.
  - pose proof (Ho input pdf_path Hp) as H.
    inversion H as [|? ? H1 H2]; subst. constructor; [exact H1|constructor].
  - pose proof (Ho input pdf_path Hp) as H.
    inversion H as [|? ? H1 H2]; subst. inversion H2 as [|? ? H3 H4]; subst.
    constructor; [exact H1|]. constructor; [exact H3|constructor].
  - pose proof (Hl input pdf_path pdf (proj1 O)) as H.
    rewrite L in H. exact H.
  - pose proof (Hl input pdf_path pdf (proj1 O)) as H.
    rewrite L in H. exact H.
Qed.

End ModeFacts.

Import Py (outcome, Returns, Throws, result, Ok, Raises, OutOfFuel).
Import content_orderer pdf_tools PageFacts HandlerFacts.
Import CoverageFacts ImageFacts ExitFacts ResponseFacts ModeFacts.

(** A request for the first two pages of [doc.pdf] in the given mode. *)
Definition ex_two_pages (mode : Py.str) : schemas.arguments :=
  {| schemas.arg_file_path := Some (Py.lit "doc.pdf");
     schemas.arg_start_page := None;
     schemas.arg_end_page := Some 2;
     schemas.arg_filter_header_footer := None;
     schemas.arg_crop_images := None;
     schemas.arg_max_image_dimension := None;
     schemas.arg_extraction_mode := Some mode;
     schemas.arg_page_image_dpi := None |}.

Definition ex_two_pages_input (mode : schemas.mode) : schemas.ReadPDFInput :=
  {| schemas.file_path := Py.lit "doc.pdf";
     schemas.start_page := 1;
     schemas.end_page := Some 2;
     schemas.filter_header_footer := true;
     schemas.crop_images := true;
     schemas.max_image_dimension := 842;
     schemas.extraction_mode := mode;
     schemas.page_image_dpi := 100 |}.

(** X15. In [text_only] mode no request renders a page or extracts an
    embedded image, and none makes the handler's own pikepdf open, the one
    that serves the image extraction of [auto] mode.  The validator's scan
    is another matter: it opens the document with pikepdf before the mode
    is read, and the trace of every successful response begins with it
    and with the pdfplumber open.  A successful response carries no image,
    no page image and no image block. *)
Theorem text_only_shows_no_image (decimal : Z -> bool) (cfg : config.Config)
    (env : environment) (arguments : schemas.arguments)
    (input : schemas.ReadPDFInput) :
  schemas.parse cfg arguments = Some input ->
  schemas.extraction_mode input = schemas.text_only ->
  Forall (fun e => shows_images e = false)
    (fst (read_pdf_handler decimal cfg env arguments))
  /\ forall s imgs,
       snd (read_pdf_handler decimal cfg env arguments)
       = Ok (schemas.Success s, imgs) ->
       imgs = []
       /\ schemas.total_images_read s = 0
       /\ Forall (fun pd =>
                    schemas.page_image pd = None
                    /\ Forall (fun b => schemas.type b <> image)
                         (schemas.content_blocks pd))
            (schemas.pages s)
       /\ exists pdf_path doc t',
            pikepdf_open env (str_of_path pdf_path) = Py.Returns doc
            /\ fst (read_pdf_handler decimal cfg env arguments)
               = ValidationScan (str_of_path pdf_path)
                 :: PdfplumberOpen (str_of_path pdf_path) :: t'.
Proof.
  intros Hp Hm.
  destruct (read_pdf_handler_handled decimal cfg env arguments)
    as (t & r & E & Hh).
  rewrite E. cbn [fst snd]. split.
  - apply (handled_trace decimal cfg env arguments
             (fun e => shows_images e = false)) with (r := r); [| |exact Hh].
    + intros input' pdf_path Hp'. rewrite Hp in Hp'. injection Hp' as <-.
      unfold open_events. rewrite Hm. repeat constructor.
    + intros input' pike_pdf page page_num st Hp'.
      rewrite Hp in Hp'. injection Hp' as <-.
      apply (text_only_page decimal cfg input pike_pdf page page_num st Hm).
  - intros s imgs [= ->].
    destruct (handled_success_inv _ _ _ _ _ _ _ Hh)
      as (input' & pdf_path & pdf & t' & st & O & L & Ht & -> & -> & _).
    destruct O as (Hp' & _ & _ & (validation & Hv & Hok) & _).
    rewrite Hp in Hp'. injection Hp' as <-.
    assert (Hscan : exists pdf_path doc t',
              pikepdf_open env (str_of_path pdf_path) = Py.Returns doc
              /\ t = ValidationScan (str_of_path pdf_path)
                     :: PdfplumberOpen (str_of_path pdf_path) :: t').
    { destruct (accepted_request cfg (pikepdf_open env)
                  (str_of_path pdf_path) (schemas.start_page input)
                  (schemas.end_page input) validation
                  (proj1 (parse_page_range cfg arguments input Hp)) Hv Hok)
        as (doc & Hd & _).
      exists pdf_path, doc, t'. split; [exact Hd|].
      rewrite Ht. unfold open_events. rewrite Hm. reflexivity. }
    cut (extracted_images st = []
         /\ total_images_count st = 0
         /\ Forall (fun pd =>
                      schemas.page_image pd = None
                      /\ Forall (fun b => schemas.type b <> image)
                           (schemas.content_blocks pd))
              (schemas.pages s)).
    { intros (H1 & H2 & H3). repeat split; assumption. }
    unfold page_loop in L.
    match type of L with
    | process_pages _ _ _ ?k _ _ _ _ = _ => set (pike_pdf := k) in L
    end.
    apply (process_pages_invariant decimal cfg input pike_pdf pdf
             (fun st pages_data =>
                extracted_images st = []
                /\ total_images_count st = 0
                /\ Forall (fun pd =>
                             schemas.page_image pd = None
                             /\ Forall (fun b => schemas.type b <> image)
                                  (schemas.content_blocks pd))
                     pages_data)) in L.
    + exact L.
    + intros st0 acc page page_num (H1 & H2 & H3) _. cbv zeta.
      destruct (text_only_page decimal cfg input pike_pdf page page_num st0
                  Hm) as (_ & -> & H4 & H5).
      split; [exact H1|]. split; [exact H2|].
      apply Forall_app. split; [exact H3|].
      constructor; [split; assumption|constructor].
    + cbn. repeat split. constructor.
Qed.

Lemma text_only_shows_no_image_witness :
  Forall (fun e => shows_images e = false)
    (fst (read_pdf_handler text_validator.ascii_decimal config.default
            ex_env (ex_two_pages (Py.lit "text_only"))))
  /\ forall s imgs,
       snd (read_pdf_handler text_validator.ascii_decimal config.default
              ex_env (ex_two_pages (Py.lit "text_only")))
       = Ok (schemas.Success s, imgs) ->
       imgs = []
       /\ schemas.total_images_read s = 0
       /\ Forall (fun pd =>
                    schemas.page_image pd = None
                    /\ Forall (fun b => schemas.type b <> image)
                         (schemas.content_blocks pd))
            (schemas.pages s)
       /\ exists pdf_path doc t',
            pikepdf_open ex_env (str_of_path pdf_path) = Py.Returns doc
            /\ fst (read_pdf_handler text_validator.ascii_decimal
                      config.default ex_env
                      (ex_two_pages (Py.lit "text_only")))
               = ValidationScan (str_of_path pdf_path)
                 :: PdfplumberOpen (str_of_path pdf_path) :: t'.
Proof.
  apply (text_only_shows_no_image text_validator.ascii_decimal
           config.default ex_env (ex_two_pages (Py.lit "text_only"))
           (ex_two_pages_input schemas.text_only));
    reflexivity.
Defined.

(** X16. In [image_only] mode no request extracts tables, text regions or
    embedded images; every page of a successful response has no content
    block and no corruption mark, and the images of the response are the
    JPEG renderings of its pages, at most one for each page. *)
Theorem image_only_renders_pages_only (decimal : Z -> bool)
    (cfg : config.Config) (env : environment)
    (arguments : schemas.arguments) (input : schemas.ReadPDFInput) :
  schemas.parse cfg arguments = Some input ->
  schemas.extraction_mode input = schemas.image_only ->
  Forall (fun e => reads_structure e = false)
    (fst (read_pdf_handler decimal cfg env arguments))
  /\ forall s imgs,
       snd (read_pdf_handler decimal cfg env arguments)
       = Ok (schemas.Success s, imgs) ->
       Forall (fun pd =>
                 schemas.content_blocks pd = []
                 /\ schemas.text_corrupted pd = None)
         (schemas.pages s)
       /\ Forall (fun i => format i = jpeg) imgs
       /\ (List.length imgs <= List.length (schemas.pages s))%nat.
Proof.
  intros Hp Hm.
  destruct (read_pdf_handler_handled decimal cfg env arguments)
    as (t & r & E & Hh).
  rewrite E. cbn [fst snd]. split.
  - apply (handled_trace decimal cfg env arguments
             (fun e => reads_structure e = false)) with (r := r);
      [| |exact Hh].
    + intros input' pdf_path Hp'. rewrite Hp in Hp'. injection Hp' as <-.
      unfold open_events. rewrite Hm. repeat constructor.
    + intros input' pike_pdf page page_num st Hp'.
      rewrite Hp in Hp'. injection Hp' as <-.
      apply (image_only_page decimal cfg input pike_pdf page page_num st Hm).
  - intros s imgs [= ->].
    destruct (handled_success_inv _ _ _ _ _ _ _ Hh)
      as (input' & pdf_path & pdf & t' & st & O & L & _ & -> & _).
    destruct O as (Hp' & _). rewrite Hp in Hp'. injection Hp' as <-.
    unfold page_loop in L.
    match type of L with
    | process_pages _ _ _ ?k _ _ _ _ = _ => set (pike_pdf := k) in L
    end.
    apply (process_pages_invariant decimal cfg input pike_pdf pdf
             (fun st pages_data =>
                counted st
                /\ Forall (fun pd =>
                             schemas.content_blocks pd = []
                             /\ schemas.text_corrupted pd = None)
                     pages_data
                /\ Forall (fun i => format i = jpeg) (extracted_images st)
                /\ (List.length (extracted_images st)
                    <= List.length pages_data)%nat)) in L.
    + destruct L as (_ & L). exact L.
    + intros st0 acc page page_num (C & H1 & H2 & H3) _.
      destruct (process_page_images decimal cfg input pike_pdf page
                  page_num st0 C) as (added & [C' _ Ea _] & Hmode).
      rewrite Hm in Hmode. destruct Hmode as (J & Hl & Hb & Hc).
      cbv zeta. split; [exact C'|].
      split; [apply Forall_app; split; [exact H1|];
              constructor; [split; assumption|constructor]|].
      rewrite Ea.
      split; [apply Forall_app; split; assumption|].
      rewrite !length_app. cbn [List.length]. lia.
    + cbn. repeat split; constructor.
Qed.

Lemma image_only_renders_pages_only_witness :
  Forall (fun e => reads_structure e = false)
    (fst (read_pdf_handler text_validator.ascii_decimal config.default
            ex_env (ex_two_pages (Py.lit "image_only"))))
  /\ forall s imgs,
       snd (read_pdf_handler text_validator.ascii_decimal config.default
              ex_env (ex_two_pages (Py.lit "image_only")))
       = Ok (schemas.Success s, imgs) ->
       Forall (fun pd =>
                 schemas.content_blocks pd = []
                 /\ schemas.text_corrupted pd = None)
         (schemas.pages s)
       /\ Forall (fun i => format i = jpeg) imgs
       /\ (List.length imgs <= List.length (schemas.pages s))%nat.
Proof.
  apply (image_only_renders_pages_only text_validator.ascii_decimal
           config.default ex_env (ex_two_pages (Py.lit "image_only"))
           (ex_two_pages_input schemas.image_only));
    reflexivity.
Defined.

(** X17. The pages of a successful response are the requested pages in
    ascending order: from [start_page] to the end page clamped to the number
    of pages pdfplumber reports (the last page when no end page is given);
    [total_pages_read] is their number. *)
Theorem response_holds_requested_pages (decimal : Z -> bool)
    (cfg : config.Config) (env : environment)
    (arguments : schemas.arguments) (t : list event)
    (s : schemas.ReadPDFSuccess) (imgs : list image_out) :
  read_pdf_handler decimal cfg env arguments
  = (t, Ok (schemas.Success s, imgs)) ->
  exists input pdf_path pdf,
    schemas.parse cfg arguments = Some input
    /\ request_path (fs env) input = Returns pdf_path
    /\ pdfplumber_open env (str_of_path pdf_path) = Returns pdf
    /\ map schemas.page_number (schemas.pages s)
       = Py.range (schemas.start_page input)
           (validators.actual_end (schemas.end_page input)
              (Z.of_nat (List.length pdf)) + 1)
    /\ schemas.total_pages_read s
       = Z.of_nat (List.length (schemas.pages s)).
Proof.
  intros H.
  destruct (response_pages_inv decimal cfg env arguments t s imgs H)
    as (input & pdf_path & pdf & Hp & Hr & _ & Ho & Hn & Ht).
  exists input, pdf_path, pdf. repeat split; assumption.
Qed.

Lemma response_holds_requested_pages_witness :
  exists t s imgs,
    read_pdf_handler text_validator.ascii_decimal config.default ex_env
      (ex_two_pages (Py.lit "auto"))
    = (t, Ok (schemas.Success s, imgs))
    /\ map schemas.page_number (schemas.pages s) = [1; 2]
    /\ schemas.total_pages_read s = 2.
Proof.
  eexists _, _, _. split; [vm_compute; reflexivity|].
  match goal with
  | |- map _ (schemas.pages ?s) = _ /\ _ =>
      destruct (response_holds_requested_pages text_validator.ascii_decimal
                  config.default ex_env (ex_two_pages (Py.lit "auto"))
                  _ s _ eq_refl)
        as (input & pdf_path & pdf & Hp & Hr & Ho & Hn & Ht)
  end.
  vm_compute in Hp. injection Hp as <-.
  vm_compute in Hr. injection Hr as <-.
  vm_compute in Ho. injection Ho as <-.
  split; [exact Hn|exact Ht].
Defined.

(** X18. Where pikepdf and pdfplumber report the same number of pages for
    the file, a successful response holds at least one page and at most
    [max_pages_per_request] pages. *)
Theorem response_within_page_limit (decimal : Z -> bool)
    (cfg : config.Config) (env : environment)
    (arguments : schemas.arguments) (t : list event)
    (s : schemas.ReadPDFSuccess) (imgs : list image_out) :
  read_pdf_handler decimal cfg env arguments
  = (t, Ok (schemas.Success s, imgs)) ->
  exists input pdf_path doc pdf,
    schemas.parse cfg arguments = Some input
    /\ request_path (fs env) input = Returns pdf_path
    /\ pikepdf_open env (str_of_path pdf_path) = Returns doc
    /\ pdfplumber_open env (str_of_path pdf_path) = Returns pdf
    /\ (List.length doc = List.length pdf ->
        1 <= schemas.total_pages_read s
          <= config.max_pages_per_request cfg).
Proof.
  intros H.
  destruct (response_pages_inv decimal cfg env arguments t s imgs H)
    as (input & pdf_path & pdf & Hp & Hr & (validation & Hv & Hvalid) & Ho
        & Hn & Ht).
  destruct (parse_page_range _ _ _ Hp) as [Hs He].
  destruct (accepted_request _ _ _ _ _ _ Hs Hv Hvalid)
    as (doc & Hd & H1 & H2 & H3 & _).
  exists input, pdf_path, doc, pdf.
  split; [exact Hp|]. split; [exact Hr|]. split; [exact Hd|].
  split; [exact Ho|]. intros Hlen.
  rewrite Ht, <- (length_map schemas.page_number), Hn.
  unfold Py.range. rewrite length_map, length_seq.
  rewrite Hlen in H1, H3. revert H3. unfold validators.actual_end.
  destruct (schemas.end_page input) as [e|]; cbn [Py.or_opt_int];
    [unfold Py.or_int; destruct (Z.eqb_spec e 0)|]; lia.
Qed.

Lemma response_within_page_limit_witness :
  exists t s imgs,
    read_pdf_handler text_validator.ascii_decimal config.default ex_env
      (ex_two_pages (Py.lit "auto"))
    = (t, Ok (schemas.Success s, imgs))
    /\ 1 <= schemas.total_pages_read s <= 10.
Proof.
  eexists _, _, _. split; [vm_compute; reflexivity|].
  match goal with
  | |- _ <= schemas.total_pages_read ?s <= _ =>
      destruct (response_within_page_limit text_validator.ascii_decimal
                  config.default ex_env (ex_two_pages (Py.lit "auto"))
                  _ s _ eq_refl)
        as (input & pdf_path & doc & pdf & Hp & Hr & Hd & Ho & Hl)
  end.
  vm_compute in Hp. injection Hp as <-.
  vm_compute in Hr. injection Hr as <-.
  vm_compute in Hd. injection Hd as <-.
  vm_compute in Ho. injection Ho as <-.
  apply Hl. reflexivity.
Defined.

(** X19. In a successful response, [total_images_read] is the number of
    images returned, and the image references of its pages (the page images
    and the contents of the image blocks) are the placeholders
    [[IMAGE_0]], ..., one for each returned image, each used once. *)
Theorem response_images_are_referenced (decimal : Z -> bool)
    (cfg : config.Config) (env : environment)
    (arguments : schemas.arguments) (t : list event)
    (s : schemas.ReadPDFSuccess) (imgs : list image_out) :
  read_pdf_handler decimal cfg env arguments
  = (t, Ok (schemas.Success s, imgs)) ->
  schemas.total_images_read s = Z.of_nat (List.length imgs)
  /\ Permutation
       (flat_map image_refs (schemas.pages s))
       (map placeholder (Py.range 0 (Z.of_nat (List.length imgs)))).
Proof.
  intros H.
  destruct (success_inv _ _ _ _ _ _ _ H)
    as (input & pdf_path & pdf & t' & st & _ & L & _ & -> & -> & _).
  unfold page_loop in L.
  match type of L with
  | process_pages _ _ _ ?k _ _ _ _ = _ => set (pike_pdf := k) in L
  end.
  apply (process_pages_invariant decimal cfg input pike_pdf pdf
           (fun st pages_data =>
              counted st
              /\ 0 <= image_index st
              /\ Permutation (flat_map image_refs pages_data)
                   (map placeholder (Py.range 0 (image_index st))))) in L.
  - destruct L as ([C1 C2] & _ & P). rewrite <- C1. split; [lia|exact P].
  - intros st0 acc page page_num (C & H0 & P) _. cbv zeta.
    destruct (process_page_images decimal cfg input pike_pdf page page_num
                st0 C) as (added & [C' Hi _ Pr] & _).
    split; [exact C'|]. split; [lia|].
    rewrite flat_map_app. cbn [flat_map]. rewrite app_nil_r.
    match goal with
    | |- Permutation _ (map _ (Py.range 0 ?hi)) =>
        rewrite <- (range_app 0 (image_index st0) hi) by lia
    end.
    rewrite map_app. apply Permutation_app; assumption.
  - cbn. repeat split; try lia. constructor.
Qed.

Lemma response_images_are_referenced_witness :
  exists t s imgs,
    read_pdf_handler text_validator.ascii_decimal config.default ex_env
      (ex_two_pages (Py.lit "auto"))
    = (t, Ok (schemas.Success s, imgs))
    /\ schemas.total_images_read s = Z.of_nat (List.length imgs)
    /\ Permutation
         (flat_map image_refs (schemas.pages s))
         (map placeholder (Py.range 0 (Z.of_nat (List.length imgs)))).
Proof.
  eexists _, _, _. split; [vm_compute; reflexivity|].
  apply (response_images_are_referenced text_validator.ascii_decimal
           config.default ex_env (ex_two_pages (Py.lit "auto")) _ _ _
           eq_refl).
Defined.

(** ** Rejections and the order of the calls *)

Module RejectionFacts.

Import Py (outcome, Returns, Throws, result, Ok, Raises, OutOfFuel).
Import content_orderer pdf_tools PageFacts HandlerFacts.
Import ExitFacts ResponseFacts ModeFacts.

(** The three errors only the validator reports. *)
Definition limit_or_range (kind : validators.error_kind) : Prop :=
  kind = validators.INVALID_PAGE_RANGE
  \/ kind = validators.PAGE_LIMIT_EXCEEDED
  \/ kind = validators.IMAGE_LIMIT_EXCEEDED.

Lemma on_exception_not_limit e err :
  on_exception e = schemas.Failure err -> ~ limit_or_range (schemas.error err).
Proof.
  unfold on_exception. intros [= <-] [H|[H|H]]; destruct e; discriminate H.
Qed.

(** An error of the three kinds comes from a failed validation, with its
    fields. *)
Lemma handled_limit_inv decimal cfg env arguments t err imgs :
  handled decimal cfg env arguments t (schemas.Failure err, imgs) ->
  limit_or_range (schemas.error err) ->
  exists input pdf_path validation,
    schemas.parse cfg arguments = Some input
    /\ request_path (fs env) input = Returns pdf_path
    /\ admitted (fs env) pdf_path
    /\ validators.validate_pdf_read_request cfg (pikepdf_open env)
         (str_of_path pdf_path) (schemas.start_page input)
         (schemas.end_page input) = Ok validation
    /\ validators.error validation = Some (schemas.error err)
    /\ rejection_response validation = schemas.Failure err
    /\ t = [ValidationScan (str_of_path pdf_path)]
    /\ imgs = [].
Proof.
  intros H Hk. remember (schemas.Failure err, imgs) as r eqn:Er.
  destruct H as
    [Hp|input e Hp Hr|input pdf_path Hp Hr He
    |input pdf_path e Hp Hr He Hs
    |input pdf_path rc Hp Hr He Hc Hs
    |input pdf_path Hp Hr He Ha
    |input pdf_path validation Hp Hr Ha Hv Hinv
    |input pdf_path validation e Hp Hr Ha Hv Hval Ho
    |input pdf_path pdf t' e O L
    |input pdf_path pdf t' pages_data st O L];
    try discriminate Er; injection Er as Er Ei; subst;
    try (exfalso; try destruct e;
         destruct Hk as [Hk|[Hk|Hk]]; discriminate Hk).
  - exists input, pdf_path, validation.
    split; [exact Hp|]. split; [exact Hr|]. split; [exact Ha|].
    split; [exact Hv|]. split; [|repeat split; exact Er].
    revert Er Hk. unfold rejection_response, rejection.
    destruct (validators.error validation) as [kind|],
      (validators.message_field validation) as [m|]; cbn;
      intros [= <-]; cbn; try reflexivity;
      intros [Hk|[Hk|Hk]]; discriminate Hk.
Qed.

(** The validator reports a page range error for a request whose end page
    is not before its start page only when the start page is beyond the
    document. *)
Lemma validate_page_range_error cfg pikepdf_open pdf_path start_page
    end_page validation :
  match end_page with
  | None => True
  | Some e => start_page <= e
  end ->
  validators.validate_pdf_read_request cfg pikepdf_open pdf_path start_page
    end_page = Ok validation ->
  validators.error validation = Some validators.INVALID_PAGE_RANGE ->
  exists doc,
    pikepdf_open pdf_path = Returns doc
    /\ Z.of_nat (List.length doc) < start_page
    /\ validation
       = {| validators.valid := false;
            validators.error := Some validators.INVALID_PAGE_RANGE;
            validators.message_field :=
              Some (validators.StartPageOutOfRange start_page
                      (Z.of_nat (List.length doc)));
            validators.total_pages := Some (Z.of_nat (List.length doc));
            validators.total_images := None;
            validators.suggested_ranges := None |}.
Proof.
  intros He. unfold validators.validate_pdf_read_request.
  destruct (pikepdf_open pdf_path) as [doc|x];
    [|intros [= <-]; destruct x; discriminate].
  unfold validators.validate_opened. cbv zeta.
  destruct (start_page >? Z.of_nat (List.length doc)) eqn:E1.
  - intros [= <-] _. exists doc. apply Z.gtb_lt in E1.
    repeat split. lia.
  - assert (C : match validators.check_limits cfg doc start_page
                        (validators.actual_end end_page
                           (Z.of_nat (List.length doc))) with
                | Ok r => Ok r
                | Raises x => Ok (validators.on_exception pdf_path x)
                | OutOfFuel => OutOfFuel
                end = Ok validation ->
                validators.error validation
                <> Some validators.INVALID_PAGE_RANGE).
    { destruct (validators.check_limits _ _ _ _) as [r|x|] eqn:Ec;
        [|intros [= <-]; destruct x; discriminate|discriminate].
      intros [= <-].
      destruct (ValidateFacts.check_limits_error _ _ _ _ _ Ec)
        as [H|[H|[H _]]]; rewrite H; discriminate. }
    destruct end_page as [e|].
    + replace (e <? start_page) with false
        by (symmetry; apply Z.ltb_ge; exact He).
      intros Hv Hk. destruct (C Hv Hk).
    + intros Hv Hk. destruct (C Hv Hk).
Qed.

(** *** The calls of a page *)

(** A call on the page [page_num]. *)
Definition page_call (page_num : Z) (e : event) : Prop :=
  In e [ExtractText page_num; ExtractTables page_num; FindTables page_num;
        ExtractTextRegions page_num; PdfminerCheck page_num;
        CharacterHeuristic page_num; RenderPage page_num;
        ExtractImages page_num].

Lemma process_page_calls decimal cfg input pike_pdf page page_num st :
  Forall (page_call page_num)
    (events (process_page decimal cfg input pike_pdf page page_num st)).
Proof.
  assert (D : forall text,
            Forall (page_call page_num)
              (fst (detect_corruption decimal cfg page page_num text))).
  { intros text. eapply Forall_impl; [|apply detect_corruption_events].
    unfold page_call. intros e [->| ->]; cbn; tauto. }
  assert (S1 : forall e, page_call page_num e ->
                         Forall (page_call page_num) [e])
    by (intros e He; constructor; [exact He|constructor]).
  destruct (schemas.extraction_mode input) eqn:Em.
  3:{ unfold process_page. rewrite Em. cbv beta iota zeta.
      assert (H1 : Forall (page_call page_num)
                     (fst (fst (probe_text decimal cfg page page_num)))).
      { unfold probe_text. cbv zeta.
        destruct (_ >? 0); [|apply S1; unfold page_call; cbn; tauto].
        match goal with
        | |- context [detect_corruption ?d ?c ?p ?n ?x] =>
            pose proof (D x) as H2;
            destruct (detect_corruption d c p n x) as [ev [tc ratio]]
        end.
        cbn [fst] in *. constructor; [unfold page_call; cbn; tauto|exact H2]. }
      destruct (probe_text decimal cfg page page_num) as [[ev1 ecc] hint].
      pose proof (render_page_image_events input page page_num st) as H3.
      destruct (render_page_image input page page_num st)
        as [[[[ev3 pimg] w] h] st1].
      cbn [fst snd negb andb events] in *. subst ev3. rewrite app_nil_r.
      apply Forall_app. split; [exact H1|].
      apply S1. unfold page_call. cbn. tauto. }
  all: assert (Hn : schemas.extraction_mode input <> schemas.image_only)
         by (rewrite Em; discriminate);
       destruct (process_page_text_mode decimal cfg input pike_pdf page
                   page_num st Hn) as (ev3 & ev4 & -> & _ & _ & H4 & H3);
       repeat (apply Forall_app; split).
  all: try (apply Forall_forall; intros e He; apply text_events_kind in He;
            unfold page_call; destruct He as [->|[->| ->]]; cbn; tauto).
  all: try apply D.
  all: try (destruct H3 as [(-> & _)|(-> & _)]; [apply S1|constructor];
            unfold page_call; cbn; tauto).
  all: destruct H4 as [->| ->]; [constructor|apply S1];
       unfold page_call; cbn; tauto.
Qed.

End RejectionFacts.

Import Py (outcome, Returns, Throws, result, Ok, Raises, OutOfFuel).
Import content_orderer pdf_tools PageFacts HandlerFacts.
Import ExitFacts ResponseFacts ModeFacts RejectionFacts.

(** A request for page 20 of [doc.pdf], which has twelve pages. *)
Definition ex_beyond_arguments : schemas.arguments :=
  {| schemas.arg_file_path := Some (Py.lit "doc.pdf");
     schemas.arg_start_page := Some 20;
     schemas.arg_end_page := None;
     schemas.arg_filter_header_footer := None;
     schemas.arg_crop_images := None;
     schemas.arg_max_image_dimension := None;
     schemas.arg_extraction_mode := None;
     schemas.arg_page_image_dpi := None |}.

(** X20. The handler answers [INVALID_PAGE_RANGE] only for a start page
    beyond the last page of the document: the message is the one for a start
    page out of range, the response carries the number of pages, and the
    validation scan is the only library call. *)
Theorem invalid_page_range_is_start_beyond_document (decimal : Z -> bool)
    (cfg : config.Config) (env : environment)
    (arguments : schemas.arguments) (t : list event)
    (err : schemas.ReadPDFError) (imgs : list image_out) :
  read_pdf_handler decimal cfg env arguments
  = (t, Ok (schemas.Failure err, imgs)) ->
  schemas.error err = validators.INVALID_PAGE_RANGE ->
  exists input pdf_path doc,
    schemas.parse cfg arguments = Some input
    /\ request_path (fs env) input = Returns pdf_path
    /\ pikepdf_open env (str_of_path pdf_path) = Returns doc
    /\ Z.of_nat (List.length doc) < schemas.start_page input
    /\ schemas.message err
       = schemas.ValidationMessage
           (validators.StartPageOutOfRange (schemas.start_page input)
              (Z.of_nat (List.length doc)))
    /\ schemas.total_pages err = Some (Z.of_nat (List.length doc))
    /\ t = [ValidationScan (str_of_path pdf_path)]
    /\ imgs = [].
Proof.
  intros H Hk.
  destruct (read_pdf_handler_handled decimal cfg env arguments)
    as (t0 & r & E & Hh).
  rewrite E in H. injection H as -> ->.
  destruct (handled_limit_inv _ _ _ _ _ _ _ Hh)
    as (input & pdf_path & validation & Hp & Hr & _ & Hv & He & Hresp
        & -> & ->); [left; exact Hk|].
  rewrite Hk in He.
  destruct (parse_page_range _ _ _ Hp) as [_ Hrange].
  destruct (validate_page_range_error _ _ _ _ _ _ Hrange Hv He)
    as (doc & Hd & Hlt & ->).
  exists input, pdf_path, doc.
  cbn in Hresp. injection Hresp as <-. cbn. repeat split; assumption.
Qed.

Lemma invalid_page_range_is_start_beyond_document_witness :
  exists t err imgs,
    read_pdf_handler text_validator.ascii_decimal config.default ex_env
      ex_beyond_arguments
    = (t, Ok (schemas.Failure err, imgs))
    /\ schemas.message err
       = schemas.ValidationMessage (validators.StartPageOutOfRange 20 12)
    /\ t = [ValidationScan (Py.lit "/work/doc.pdf")].
Proof.
  eexists _, _, _. split; [vm_compute; reflexivity|].
  match goal with
  | |- schemas.message ?err = _ /\ _ =>
      destruct (invalid_page_range_is_start_beyond_document
                  text_validator.ascii_decimal config.default ex_env
                  ex_beyond_arguments _ err _ eq_refl eq_refl)
        as (input & pdf_path & doc & Hp & Hr & Hd & _ & Hm & _ & Ht & _)
  end.
  vm_compute in Hp. injection Hp as <-.
  vm_compute in Hr. injection Hr as <-.
  vm_compute in Hd. injection Hd as <-.
  split; [exact Hm|exact Ht].
Defined.

(** X21. A request whose start page is below 1, or whose end page is below
    1 or before the start page, does not pass the input schema: the handler
    answers [INVALID_PDF] with the schema's validation error, not
    [INVALID_PAGE_RANGE], and makes no library call. *)
Theorem bad_page_arguments_are_invalid_pdf (decimal : Z -> bool)
    (cfg : config.Config) (env : environment)
    (arguments : schemas.arguments) :
  let start_page :=
    match schemas.arg_start_page arguments with
    | None => 1
    | Some v => v
    end in
  (start_page < 1
   \/ exists e, schemas.arg_end_page arguments = Some e
                /\ (e < 1 \/ e < start_page)) ->
  read_pdf_handler decimal cfg env arguments
  = ([],
     Ok (schemas.Failure
           (schemas.bare_error validators.INVALID_PDF
              (schemas.ErrorProcessingPdf validation_error)), [])).
Proof.
  intros start_page H.
  assert (Hp : schemas.parse cfg arguments = None).
  { unfold schemas.parse.
    destruct (schemas.arg_file_path arguments); [|reflexivity].
    fold start_page.
    destruct (start_page <? 1) eqn:E1; [reflexivity|].
    apply Z.ltb_ge in E1.
    destruct H as [H|(e & -> & H)]; [lia|].
    replace ((1 <=? e) && negb (e <? start_page)) with false;
      [reflexivity|].
    symmetry. apply andb_false_iff.
    destruct H as [H|H]; [left; apply Z.leb_gt; exact H|].
    right. apply negb_false_iff, Z.ltb_lt. exact H. }
  unfold read_pdf_handler, read_pdf_body. rewrite Hp. reflexivity.
Qed.

Lemma bad_page_arguments_are_invalid_pdf_witness :
  read_pdf_handler text_validator.ascii_decimal config.default ex_env
    {| schemas.arg_file_path := Some (Py.lit "doc.pdf");
       schemas.arg_start_page := Some 5;
       schemas.arg_end_page := Some 3;
       schemas.arg_filter_header_footer := None;
       schemas.arg_crop_images := None;
       schemas.arg_max_image_dimension := None;
       schemas.arg_extraction_mode := None;
       schemas.arg_page_image_dpi := None |}
  = ([],
     Ok (schemas.Failure
           (schemas.bare_error validators.INVALID_PDF
              (schemas.ErrorProcessingPdf validation_error)), [])).
Proof.
  apply (bad_page_arguments_are_invalid_pdf text_validator.ascii_decimal
           config.default ex_env).
  right. exists 3. split; [reflexivity|]. right. cbn. lia.
Defined.

(** X22. The first library call of any request is the validation scan,
    made once the arguments, the path and the three file checks have
    passed; it is made only once, every call after it is made only if the
    validation accepted the request, and the calls on pages come after the
    document was opened for extraction. *)
Theorem validation_scan_comes_first (decimal : Z -> bool)
    (cfg : config.Config) (env : environment)
    (arguments : schemas.arguments) :
  match fst (read_pdf_handler decimal cfg env arguments) with
  | [] => True
  | first :: rest =>
      exists input pdf_path,
        schemas.parse cfg arguments = Some input
        /\ request_path (fs env) input = Returns pdf_path
        /\ admitted (fs env) pdf_path
        /\ first = ValidationScan (str_of_path pdf_path)
        /\ Forall (fun e => forall p, e <> ValidationScan p) rest
        /\ match rest with
           | [] => True
           | second :: _ =>
               second = PdfplumberOpen (str_of_path pdf_path)
               /\ exists validation,
                    validators.validate_pdf_read_request cfg
                      (pikepdf_open env) (str_of_path pdf_path)
                      (schemas.start_page input) (schemas.end_page input)
                    = Ok validation
                    /\ validators.valid validation = true
           end
  end.
Proof.
  destruct (read_pdf_handler_handled decimal cfg env arguments)
    as (t & r & E & Hh).
  rewrite E. cbn [fst].
  assert (Hl : forall input pdf_path pdf,
            Forall (fun e => forall p, e <> ValidationScan p)
              (tl (open_events input pdf_path)
               ++ fst (page_loop decimal cfg env input pdf_path pdf))).
  { intros input pdf_path pdf. apply Forall_app. split.
    - unfold open_events. cbn [tl].
      destruct (schemas.extraction_mode input);
        repeat (constructor; [discriminate|]); constructor.
    - apply process_pages_trace. intros page page_num st.
      eapply Forall_impl; [|apply process_page_calls].
      unfold page_call. cbn. intros e He p.
      repeat (destruct He as [<-|He]; [discriminate|]). destruct He. }
  destruct Hh as
    [ | | | | |
    |input pdf_path validation Hp Hr Ha Hv Hinv
    |input pdf_path validation e Hp Hr Ha Hv Hval Ho
    |input pdf_path pdf t e O L|input pdf_path pdf t pages_data st O L];
    try exact I.
  - exists input, pdf_path.
    split; [exact Hp|]. split; [exact Hr|]. split; [exact Ha|].
    split; [reflexivity|]. split; [constructor|exact I].
  - exists input, pdf_path.
    split; [exact Hp|]. split; [exact Hr|]. split; [exact Ha|].
    split; [reflexivity|].
    split; [constructor; [discriminate|constructor]|].
    split; [reflexivity|]. exists validation. split; assumption.
  - destruct O as (Hp & Hr & Ha & Hv & Ho).
    specialize (Hl input pdf_path pdf). rewrite L in Hl.
    exists input, pdf_path.
    split; [exact Hp|]. split; [exact Hr|]. split; [exact Ha|].
    split; [reflexivity|]. split; [exact Hl|].
    split; [reflexivity|exact Hv].
  - destruct O as (Hp & Hr & Ha & Hv & Ho).
    specialize (Hl input pdf_path pdf). rewrite L in Hl.
    exists input, pdf_path.
    split; [exact Hp|]. split; [exact Hr|]. split; [exact Ha|].
    split; [reflexivity|]. split; [exact Hl|].
    split; [reflexivity|exact Hv].
Qed.

(** X23. A request for a file that does not exist is answered
    [FILE_NOT_FOUND] with the files [find_similar_pdfs] suggests
    ([suggested_files] is absent when it suggests none), without a library
    call.  The existence check comes before the check that the path is
    within the working directory, so this is also the answer for a missing
    path outside of it. *)
Theorem missing_file_is_reported_first (decimal : Z -> bool)
    (cfg : config.Config) (env : environment)
    (arguments : schemas.arguments) (input : schemas.ReadPDFInput)
    (pdf_path : path) :
  schemas.parse cfg arguments = Some input ->
  request_path (fs env) input = Returns pdf_path ->
  exists_ (fs env) pdf_path = false ->
  let similar_files := find_similar_pdfs (fs env) (str_of_path pdf_path) in
  read_pdf_handler decimal cfg env arguments
  = ([],
     Ok (schemas.Failure
           {| schemas.error := validators.FILE_NOT_FOUND;
              schemas.message :=
                schemas.FileNotFoundMessage (str_of_path pdf_path)
                  similar_files;
              schemas.total_pages := None;
              schemas.total_images := None;
              schemas.suggested_ranges := None;
              schemas.suggested_files :=
                if Nat.eqb (List.length similar_files) 0 then None
                else Some similar_files |}, [])).
Proof.
  intros Hp Hr He similar_files.
  unfold read_pdf_handler, read_pdf_body.
  rewrite Hp, bind_lift_ok, Hr, bind_lift_ok, He, bind_leave.
  fold similar_files. destruct similar_files; reflexivity.
Qed.

(** The file system of [ex_fs_dotdot], where a missing file outside the
    working directory is asked for. *)
Definition ex_missing_arguments : schemas.arguments :=
  {| schemas.arg_file_path := Some (Py.lit "/etc/absent.pdf");
     schemas.arg_start_page := None;
     schemas.arg_end_page := None;
     schemas.arg_filter_header_footer := None;
     schemas.arg_crop_images := None;
     schemas.arg_max_image_dimension := None;
     schemas.arg_extraction_mode := None;
     schemas.arg_page_image_dpi := None |}.

Lemma missing_file_is_reported_first_witness :
  is_relative_to (Path (Py.lit "/etc/absent.pdf")) (Path (Py.lit "/work"))
  = false
  /\ read_pdf_handler text_validator.ascii_decimal config.default
       ex_env_dotdot ex_missing_arguments
     = ([],
        Ok (schemas.Failure
              {| schemas.error := validators.FILE_NOT_FOUND;
                 schemas.message :=
                   schemas.FileNotFoundMessage (Py.lit "/etc/absent.pdf") [];
                 schemas.total_pages := None;
                 schemas.total_images := None;
                 schemas.suggested_ranges := None;
                 schemas.suggested_files := None |}, [])).
Proof.
  split; [reflexivity|].
  apply (missing_file_is_reported_first text_validator.ascii_decimal
           config.default ex_env_dotdot ex_missing_arguments
           {| schemas.file_path := Py.lit "/etc/absent.pdf";
              schemas.start_page := 1;
              schemas.end_page := None;
              schemas.filter_header_footer := true;
              schemas.crop_images := true;
              schemas.max_image_dimension := 842;
              schemas.extraction_mode := schemas.auto;
              schemas.page_image_dpi := 100 |}
           (Path (Py.lit "/etc/absent.pdf")));
    reflexivity.
Defined.

(** ** The search handler *)

Module GrepFacts.

Import Py (outcome, Returns, Throws).
Import grep_tool.

(** The instance that [GrepPDFInput] builds has the eight declared fields
    and no other. *)
Definition model (pattern file_path working_directory ignore_case
    fixed_strings context max_count recursive : value) : instance :=
  {| class_name := Py.lit "GrepPDFInput";
     fields :=
       [ (Py.lit "pattern", pattern);
         (Py.lit "file_path", file_path);
         (Py.lit "working_directory", working_directory);
         (Py.lit "ignore_case", ignore_case);
         (Py.lit "fixed_strings", fixed_strings);
         (Py.lit "context", context);
         (Py.lit "max_count", max_count);
         (Py.lit "recursive", recursive) ] |}.

Lemma GrepPDFInput_model (a : arguments) (input_data : instance) :
  GrepPDFInput a = Some input_data ->
  exists pattern file_path working_directory ignore_case fixed_strings
         context max_count recursive,
    input_data =
      model (VStr pattern) file_path (VStr working_directory)
        (VBool ignore_case) (VBool fixed_strings) (VInt context)
        (VInt max_count) (VBool recursive)
    /\ (file_path = VNone \/ exists p, file_path = VStr p).
Proof.
  unfold GrepPDFInput.
  destruct (arg_pattern a) as [pattern|]; [|discriminate].
  destruct (schemas.bounded (arg_context a) 0 0 5) as [context|];
    [|discriminate].
  destruct (schemas.bounded (arg_max_count a) 20 1 100) as [max_count|];
    [|discriminate].
  intros [= <-].
  exists pattern. eexists. exists (or_default (arg_working_directory a) (Py.lit ".")).
  exists (or_default (arg_ignore_case a) false).
  exists (or_default (arg_fixed_strings a) false).
  exists context, max_count, (or_default (arg_recursive a) true).
  split; [reflexivity|].
  destruct (arg_file_path a); [right; eexists; reflexivity | left; reflexivity].
Qed.

Section Getattr.

Variables pattern file_path working_directory ignore_case fixed_strings
  context max_count recursive : value.

Let input_data : instance :=
  model pattern file_path working_directory ignore_case fixed_strings
    context max_count recursive.

Lemma getattr_pattern :
  getattr input_data (Py.lit "pattern") = Returns pattern.
Proof. reflexivity. Qed.

Lemma getattr_file_path :
  getattr input_data (Py.lit "file_path") = Returns file_path.
Proof. reflexivity. Qed.

Lemma getattr_working_directory :
  getattr input_data (Py.lit "working_directory")
  = Returns working_directory.
Proof. reflexivity. Qed.

Lemma getattr_ignore_case :
  getattr input_data (Py.lit "ignore_case") = Returns ignore_case.
Proof. reflexivity. Qed.

Lemma getattr_fixed_strings :
  getattr input_data (Py.lit "fixed_strings") = Returns fixed_strings.
Proof. reflexivity. Qed.

Lemma getattr_context :
  getattr input_data (Py.lit "context") = Returns context.
Proof. reflexivity. Qed.

Lemma getattr_max_count :
  getattr input_data (Py.lit "max_count") = Returns max_count.
Proof. reflexivity. Qed.

Lemma getattr_recursive :
  getattr input_data (Py.lit "recursive") = Returns recursive.
Proof. reflexivity. Qed.

Lemma getattr_start_page :
  getattr input_data (Py.lit "start_page")
  = Throws (AttributeError (Py.lit "GrepPDFInput") (Py.lit "start_page")).
Proof. reflexivity. Qed.

End Getattr.

(** The steps that make no call. *)
Lemma step_next {A B : Type} (a : A) (f : A -> M B) :
  bind ([], Next a) f = f a.
Proof. unfold bind. destruct (f a). reflexivity. Qed.

Lemma step_returns {A B : Type} (a : A) (f : A -> M B) :
  bind (lift (Returns a)) f = f a.
Proof. apply step_next. Qed.

Lemma step_ret {A B : Type} (a : A) (f : A -> M B) :
  bind (ret a) f = f a.
Proof. apply step_next. Qed.

Lemma step_if {A B : Type} (c : bool) (m1 m2 : M A) (f : A -> M B) :
  bind (if c then m1 else m2) f = if c then bind m1 f else bind m2 f.
Proof. destruct c; reflexivity. Qed.

(** The command is never built: the read of [start_page] raises. *)
Lemma build_command_raises (a : arguments) (input_data : instance)
    (target_path : pdf_tools.path) :
  GrepPDFInput a = Some input_data ->
  build_command input_data target_path
  = ([], Raise (AttributeError (Py.lit "GrepPDFInput")
                  (Py.lit "start_page"))).
Proof.
  intros H.
  destruct (GrepPDFInput_model a input_data H)
    as (pattern & file_path & wd & ic & fx & ctx & mc & rc & -> & _).
  unfold build_command.
  rewrite getattr_ignore_case, getattr_fixed_strings, getattr_context,
    getattr_max_count, getattr_recursive, getattr_file_path,
    getattr_start_page.
  repeat first
    [ rewrite step_returns | rewrite step_ret | rewrite step_if
    | progress cbn [as_int str_of] ].
  destruct (ctx >? 0), (truthy (VInt mc)), (truthy (VBool rc));
    reflexivity.
Qed.

(** The target is resolved without a call to [pdfgrep]; where it leaves
    the handler, it does so with a file or a directory that was not
    found. *)
Lemma resolve_target_cases (env : environment) (input_data : instance) :
  (exists target_path,
     resolve_target env input_data = ([], Next target_path))
  \/ (exists kind m,
        resolve_target env input_data = ([], Return (failure kind m))
        /\ (kind = FILE_NOT_FOUND \/ kind = DIRECTORY_NOT_FOUND))
  \/ (exists e, resolve_target env input_data = ([], Raise e)).
Proof.
  unfold resolve_target.
  destruct (getattr input_data (Py.lit "file_path")) as [file_path|e];
    [|right; right; exists e; reflexivity].
  rewrite step_returns.
  destruct (truthy file_path).
  - rewrite step_returns.
    destruct (as_str file_path) as [s|e];
      [|right; right; exists e; reflexivity].
    rewrite step_returns. unfold resolved.
    destruct (pdf_tools.resolve (fs env) _) as [target_path|e];
      [|right; right; exists e; reflexivity].
    rewrite step_returns.
    destruct (negb (pdf_tools.exists_ (fs env) target_path));
      [right; left; do 2 eexists; split; [reflexivity|left; reflexivity]|].
    destruct (negb (Py.str_eqb _ _));
      [right; left; do 2 eexists; split; [reflexivity|left; reflexivity]|].
    left. eexists. reflexivity.
  - destruct (getattr input_data (Py.lit "working_directory"))
      as [working_directory|e];
      [|right; right; exists e; reflexivity].
    rewrite step_returns.
    destruct (as_str working_directory) as [s|e];
      [|right; right; exists e; reflexivity].
    rewrite step_returns. unfold resolved.
    destruct (pdf_tools.resolve (fs env) _) as [target_path|e];
      [|right; right; exists e; reflexivity].
    rewrite step_returns.
    destruct (negb (pdf_tools.exists_ (fs env) target_path));
      [right; left; do 2 eexists; split; [reflexivity|right; reflexivity]|].
    destruct (negb (is_dir env target_path));
      [right; left; do 2 eexists; split; [reflexivity|right; reflexivity]|].
    left. eexists. reflexivity.
Qed.

(** The response to an exception. *)
Lemma on_exception_cases (e : Py.exn) :
  on_exception e = failure PERMISSION_DENIED (PermissionDenied e)
  \/ on_exception e = failure INTERNAL_ERROR (ErrorDuringSearch e).
Proof. destruct e; cbn; auto. Qed.

(** The response where [pdfgrep] is missing. *)
Definition not_installed : response :=
  Failure {| error := PDFGREP_NOT_INSTALLED;
             message_field := PdfgrepIsNotInstalled;
             install_hint := Some install_hint_text |}.

(** The handler, by the step at which it ends. *)
Lemma grep_pdf_handler_steps (env : environment) (a : arguments) :
  grep_pdf_handler env a
  = if pdfgrep_installed env then
      match GrepPDFInput a with
      | None => ([], on_exception pdf_tools.validation_error)
      | Some input_data =>
          match snd (resolve_target env input_data) with
          | Next _ =>
              ([], on_exception
                     (AttributeError (Py.lit "GrepPDFInput")
                        (Py.lit "start_page")))
          | Return r => ([], r)
          | Raise e => ([], on_exception e)
          end
      end
    else ([], not_installed).
Proof.
  unfold grep_pdf_handler, grep_pdf_body.
  destruct (pdfgrep_installed env); [|reflexivity].
  rewrite step_ret.
  destruct (GrepPDFInput a) as [input_data|] eqn:E; [|reflexivity].
  rewrite step_returns.
  destruct (resolve_target_cases env input_data)
    as [[p R]|[(kind & m & R & _)|[e R]]]; rewrite R; cbn [snd].
  - rewrite step_next, (build_command_raises a input_data p E).
    reflexivity.
  - reflexivity.
  - reflexivity.
Qed.

(** *** The parser of the output lines *)

Lemma split_cons (sep : Z) (s current : Py.str) :
  exists part parts, split sep s current = part :: parts.
Proof.
  revert current. induction s as [|c s IH]; intros current; cbn.
  - eauto.
  - destruct (c =? sep); eauto.
Qed.

Lemma join_split (sep : Z) (s current : Py.str) :
  Py.join [sep] (split sep s current) = rev current ++ s.
Proof.
  revert current. induction s as [|c s IH]; intros current; cbn [split].
  - cbn. now rewrite app_nil_r.
  - destruct (c =? sep) eqn:E.
    + apply Z.eqb_eq in E. subst c.
      destruct (split_cons sep s []) as (part & parts & P).
      specialize (IH []). rewrite P in *.
      change (Py.join [sep] (rev current :: part :: parts))
        with (rev current ++ [sep] ++ Py.join [sep] (part :: parts)).
      rewrite IH. reflexivity.
    + rewrite IH. cbn [rev]. now rewrite <- app_assoc.
Qed.

Lemma join_app (sep : Py.str) (head tail : list Py.str) :
  head <> [] -> tail <> [] ->
  Py.join sep (head ++ tail)
  = Py.join sep head ++ sep ++ Py.join sep tail.
Proof.
  intros Hh Ht. induction head as [|x head IH]; [contradiction|].
  destruct head as [|y head].
  - destruct tail; [contradiction|]. reflexivity.
  - cbn [app Py.join] in *. rewrite IH by discriminate.
    now rewrite <- !app_assoc.
Qed.

(** Where the scan finds a page number: the parts split there, the found
    part is numeric, it is not the first part of the line, and no part
    before it, the first apart, is numeric. *)
Lemma scan_parts_found (env : environment) (parts : list Py.str) :
  forall (i : Z) (file_parts found_parts : list Py.str)
         (page_part : Py.str) (rest : list Py.str),
    0 <= i ->
    scan_parts env i parts file_parts
    = (found_parts, Some (page_part, rest)) ->
    exists head,
      parts = head ++ page_part :: rest
      /\ found_parts = file_parts ++ head
      /\ isdigit env page_part = true
      /\ 0 < i + Z.of_nat (List.length head)
      /\ forall k part, nth_error head k = Some part ->
           0 < i + Z.of_nat k -> isdigit env part = false.
Proof.
  induction parts as [|part parts IH];
    intros i file_parts found_parts page_part rest Hi; cbn [scan_parts].
  - discriminate.
  - destruct (isdigit env part && (0 <? i)) eqn:E.
    + intros [= <- <- <-]. apply andb_true_iff in E as [D P].
      apply Z.ltb_lt in P. exists []. cbn.
      repeat split; auto; try lia.
      * now rewrite app_nil_r.
      * intros [|k] part'; discriminate.
    + intros H. apply IH in H as (head & -> & -> & D & L & N); [|lia].
      exists (part :: head). cbn [app List.length].
      repeat split; auto; try lia.
      * now rewrite <- app_assoc.
      * intros [|k] part'; cbn [nth_error].
        -- intros [= <-] P. apply andb_false_iff in E as [E|E]; [exact E|].
           apply Z.ltb_ge in E. lia.
        -- intros Hk P. apply (N k part' Hk). lia.
Qed.

End GrepFacts.

Definition ex_isdigit (s : Py.str) : bool :=
  match s with
  | [] => false
  | _ => forallb (fun c => (48 <=? c) && (c <=? 57)) s
  end.

Definition ex_int_of_str (s : Py.str) : option Z :=
  if ex_isdigit s
  then Some (fold_left (fun n c => 10 * n + (c - 48)) s 0)
  else None.

(** A file system with [/work/doc.pdf], and a [pdfgrep] that would find a
    match on its first page. *)
Definition ex_grep_env : grep_tool.environment :=
  {| grep_tool.fs := ex_fs;
     grep_tool.is_dir := fun p =>
       Py.str_eqb (pdf_tools.str_of_path p) (Py.lit "/work");
     grep_tool.pdfgrep_installed := true;
     grep_tool.subprocess_run := fun _ _ =>
       grep_tool.Completed 0 (Py.lit "doc.pdf:1:invoice 42") [];
     grep_tool.lower := fun s => s;
     grep_tool.isdigit := ex_isdigit;
     grep_tool.int_of_str := ex_int_of_str |}.

Definition ex_grep_arguments : grep_tool.arguments :=
  {| grep_tool.arg_pattern := Some (Py.lit "invoice");
     grep_tool.arg_file_path := Some (Py.lit "doc.pdf");
     grep_tool.arg_working_directory := None;
     grep_tool.arg_ignore_case := None;
     grep_tool.arg_fixed_strings := None;
     grep_tool.arg_context := None;
     grep_tool.arg_max_count := None;
     grep_tool.arg_recursive := None;
     grep_tool.arg_start_page := None;
     grep_tool.arg_end_page := None |}.

(** X24. Whatever the environment and the arguments, [grep_pdf_handler]
    never runs [pdfgrep] and never answers with matches: its response is
    an error, and the error is never [INVALID_PATTERN]. *)
Theorem grep_pdf_handler_never_searches (env : grep_tool.environment)
    (a : grep_tool.arguments) :
  fst (grep_tool.grep_pdf_handler env a) = []
  /\ exists e,
       snd (grep_tool.grep_pdf_handler env a) = grep_tool.Failure e
       /\ grep_tool.error e <> grep_tool.INVALID_PATTERN.
Proof.
  rewrite GrepFacts.grep_pdf_handler_steps.
  assert (X : forall e, exists e',
             grep_tool.on_exception e = grep_tool.Failure e'
             /\ grep_tool.error e' <> grep_tool.INVALID_PATTERN).
  { intros e. destruct (GrepFacts.on_exception_cases e) as [-> | ->];
      eexists; (split; [reflexivity|discriminate]). }
  destruct (grep_tool.pdfgrep_installed env).
  - destruct (grep_tool.GrepPDFInput a) as [input_data|].
    + destruct (GrepFacts.resolve_target_cases env input_data)
        as [[p R]|[(kind & m & R & K)|[e R]]]; rewrite R; cbn [fst snd].
      * split; [reflexivity|apply X].
      * split; [reflexivity|]. eexists. split; [reflexivity|].
        cbn. destruct K as [-> | ->]; discriminate.
      * split; [reflexivity|apply X].
    + split; [reflexivity|apply X].
  - split; [reflexivity|]. eexists. split; [reflexivity|discriminate].
Qed.

(** X25. When [pdfgrep] is installed, the arguments validate and the
    target passes its checks, the handler answers [INTERNAL_ERROR] with the
    [AttributeError] of the read of [start_page], which [GrepPDFInput]
    does not declare. *)
Theorem grep_pdf_handler_start_page_error (env : grep_tool.environment)
    (a : grep_tool.arguments) (input_data : grep_tool.instance)
    (target_path : pdf_tools.path) :
  grep_tool.pdfgrep_installed env = true ->
  grep_tool.GrepPDFInput a = Some input_data ->
  snd (grep_tool.resolve_target env input_data)
  = grep_tool.Next target_path ->
  grep_tool.grep_pdf_handler env a
  = ([], grep_tool.failure grep_tool.INTERNAL_ERROR
           (grep_tool.ErrorDuringSearch
              (grep_tool.AttributeError (Py.lit "GrepPDFInput")
                 (Py.lit "start_page")))).
Proof.
  intros I V R. rewrite GrepFacts.grep_pdf_handler_steps, I, V, R.
  reflexivity.
Qed.

Lemma grep_pdf_handler_start_page_error_witness :
  grep_tool.grep_pdf_handler ex_grep_env ex_grep_arguments
  = ([], grep_tool.failure grep_tool.INTERNAL_ERROR
           (grep_tool.ErrorDuringSearch
              (grep_tool.AttributeError (Py.lit "GrepPDFInput")
                 (Py.lit "start_page")))).
Proof.
  eapply (grep_pdf_handler_start_page_error ex_grep_env ex_grep_arguments).
  - reflexivity.
  - reflexivity.
  - vm_compute. reflexivity.
Defined.

(** X26. A line that the parser of the [pdfgrep] output accepts splits at
    its colons into the parts of the file name, the part read as the page
    and the parts of the text: the page part is numeric, it is the first
    numeric part after the first part of the line, and the line is put
    together again from the match as the file name, a colon, the page part
    and, unless the line ends there, a colon and the text. *)
Theorem parse_line_reassembles (env : grep_tool.environment)
    (line : Py.str) (m : grep_tool.GrepMatch) :
  grep_tool.parse_line env line = Some m ->
  exists head page_part rest,
    grep_tool.split 58 line [] = head ++ page_part :: rest
    /\ head <> []
    /\ grep_tool.file m = Py.join [58] head
    /\ grep_tool.text m = Py.join [58] rest
    /\ grep_tool.isdigit env page_part = true
    /\ grep_tool.int_of_str env page_part = Some (grep_tool.page m)
    /\ (forall k part, nth_error head k = Some part -> (0 < k)%nat ->
          grep_tool.isdigit env part = false)
    /\ line = grep_tool.file m ++ [58] ++ page_part
                ++ match rest with
                   | [] => []
                   | _ => [58] ++ grep_tool.text m
                   end.
Proof.
  unfold grep_tool.parse_line. intros H.
  destruct (3 <=? _)%nat; [|discriminate].
  destruct (grep_tool.scan_parts env 0 _ [])
    as [file_parts [[page_part rest]|]] eqn:S; [|discriminate].
  destruct (grep_tool.int_of_str env page_part) as [page_num|] eqn:P;
    [|discriminate].
  injection H as <-. cbn [grep_tool.file grep_tool.page grep_tool.text].
  apply GrepFacts.scan_parts_found in S as (head & Hp & -> & D & L & N);
    [|lia].
  cbn [app] in *.
  assert (Hh : head <> []) by (intros ->; cbn in L; lia).
  pose proof (GrepFacts.join_split 58 line []) as J.
  rewrite Hp in J. cbn [rev app] in J.
  rewrite GrepFacts.join_app in J by (assumption || discriminate).
  exists head, page_part, rest.
  split; [exact Hp|]. split; [exact Hh|].
  split; [reflexivity|]. split; [reflexivity|].
  split; [exact D|]. split; [exact P|]. split.
  - intros k part Hk Pk. apply (N k part Hk). lia.
  - rewrite <- J. destruct rest as [|r rest]; cbn [Py.join].
    + now rewrite app_nil_r.
    + reflexivity.
Qed.

Lemma parse_line_reassembles_witness :
  exists head page_part rest,
    grep_tool.split 58 (Py.lit "a:b.pdf:12:total: 42") []
    = head ++ page_part :: rest
    /\ head <> []
    /\ Py.lit "a:b.pdf" = Py.join [58] head
    /\ Py.lit "total: 42" = Py.join [58] rest
    /\ ex_isdigit page_part = true
    /\ ex_int_of_str page_part = Some 12
    /\ (forall k part, nth_error head k = Some part -> (0 < k)%nat ->
          ex_isdigit part = false)
    /\ Py.lit "a:b.pdf:12:total: 42"
       = Py.lit "a:b.pdf" ++ [58] ++ page_part
           ++ match rest with
              | [] => []
              | _ => [58] ++ Py.lit "total: 42"
              end.
Proof.
  apply (parse_line_reassembles ex_grep_env
           (Py.lit "a:b.pdf:12:total: 42")
           {| grep_tool.file := Py.lit "a:b.pdf";
              grep_tool.page := 12;
              grep_tool.text := Py.lit "total: 42" |}).
  vm_compute. reflexivity.
Defined.
